(** * Ingestion pipeline of the leveling chatbot: a shallow embedding

    The development follows [src/core/config.py], [src/core/rag.py] and
    [src/ingestion/pipeline.py].  Python integers are [Z], [len] is
    [Z.of_nat (length _)], lists are Rocq lists with Python's slicing
    written out, [os.environ] is a [gmap string string], and every
    function that can raise or touch the outside world lives in a small
    state-and-exception monad over a [World]. *)

From Stdlib Require Import ZArith List String Ascii Bool Lia DecimalString.
From stdpp Require Import base gmap strings list.

Local Open Scope string_scope.
Local Open Scope list_scope.
Local Open Scope Z_scope.

(** ** Python values *)

Module Py.

(** [len(l)] *)
Definition len {A} (l : list A) : Z := Z.of_nat (length l).

(** Normalisation of one slice bound, as [slice.indices] does for a
    step of one: a negative bound counts from the end, and the result
    is clamped to [0, len]. *)
Definition clamp (n i : Z) : Z :=
  if i <? 0 then Z.max 0 (i + n) else Z.min i n.

(** [l[start:stop]] *)
Definition slice {A} (l : list A) (start stop : Z) : list A :=
  let s := clamp (len l) start in
  let e := clamp (len l) stop in
  firstn (Z.to_nat (e - s)) (skipn (Z.to_nat s) l).

(** Number of elements of [range(start, stop, step)] for [step <> 0]. *)
Definition range_len (start stop step : Z) : Z :=
  if 0 <? step
  then Z.max 0 ((stop - start + step - 1) / step)
  else Z.max 0 ((start - stop - step - 1) / (- step)).

Definition range_elems (start stop step : Z) : list Z :=
  map (fun k => start + Z.of_nat k * step)
      (seq 0 (Z.to_nat (range_len start stop step))).

(** [range(n)] *)
Definition range1 (n : Z) : list Z := range_elems 0 n 1.

(** ASCII case folding of [str.lower()]; bytes outside [A-Z] are left
    as they are. *)
Definition lower_ascii (c : ascii) : ascii :=
  let n := nat_of_ascii c in
  if ((65 <=? n)%nat && (n <=? 90)%nat)%bool then ascii_of_nat (n + 32) else c.

Fixpoint lower (s : string) : string :=
  match s with
  | EmptyString => EmptyString
  | String c s' => String (lower_ascii c) (lower s')
  end.

(** [sub in s] *)
Fixpoint contains (sub s : string) : bool :=
  if String.prefix sub s then true
  else match s with
       | EmptyString => false
       | String _ s' => contains sub s'
       end.

(** [sep.join(l)] *)
Fixpoint join (sep : string) (l : list string) : string :=
  match l with
  | [] => ""
  | [x] => x
  | x :: rest => x +:+ sep +:+ join sep rest
  end.

(** [str(n)] for an integer. *)
Definition str_int (n : Z) : string := NilZero.string_of_int (Z.to_int n).

(** Truthiness of [os.getenv(k)]: unset and empty are both false. *)
Definition truthy (v : option string) : bool :=
  match v with
  | None => false
  | Some s => negb (String.eqb s "")
  end.

(** [c in s] for a single character. *)
Fixpoint has_char (c : ascii) (s : string) : bool :=
  match s with
  | EmptyString => false
  | String d s' => (Ascii.eqb c d || has_char c s')%bool
  end.

Definition apostrophe : ascii := ascii_of_nat 39.
Definition double_quote : ascii := ascii_of_nat 34.
Definition backslash : ascii := ascii_of_nat 92.

Definition hex_digit (n : nat) : ascii :=
  if (n <? 10)%nat then ascii_of_nat (48 + n) else ascii_of_nat (87 + n).

(** One character inside [repr(s)]: the quote in use and the backslash
    get a backslash; tab, newline and carriage return their letter; any
    other control character its two hexadecimal digits.  Bytes above 127
    stand for printable text outside ASCII and are kept. *)
Definition repr_char (quote c : ascii) : string :=
  let n := nat_of_ascii c in
  if (Ascii.eqb c quote || Ascii.eqb c backslash)%bool
  then String backslash (String c "")
  else if (n =? 9)%nat then String backslash "t"
  else if (n =? 10)%nat then String backslash "n"
  else if (n =? 13)%nat then String backslash "r"
  else if ((n <? 32) || (n =? 127))%nat
  then String backslash
         (String "x" (String (hex_digit (n / 16)) (String (hex_digit (n mod 16)) "")))
  else String c "".

Fixpoint escape (quote : ascii) (s : string) : string :=
  match s with
  | EmptyString => EmptyString
  | String c s' => repr_char quote c +:+ escape quote s'
  end.

(** [repr(s)]: between apostrophes, or between double quotes when the
    text holds an apostrophe and no double quote. *)
Definition repr (s : string) : string :=
  let quote := if (has_char apostrophe s && negb (has_char double_quote s))%bool
               then double_quote else apostrophe in
  String quote (escape quote s +:+ String quote "").

End Py.

(** ** Exceptions *)

Inductive exn_class :=
| ValueError
| FileNotFoundError
| ZeroDivisionError
| OtherException (name : string).

(** An exception of class [Exception]: its class and [str(e)].
    Asynchronous [BaseException]s (interrupts) are outside the model. *)
Record exn := Exn { exn_kind : exn_class; exn_str : string }.

Inductive result (A : Type) :=
| Ok (a : A)
| Raise (e : exn).
Arguments Ok {A} a.
Arguments Raise {A} e.

(** ** Data model *)

Record Document := {
  page_content : string;
  metadata : gmap string string
}.

Record Config := {
  collection_name : string;
  chunk_size : Z;
  chunk_overlap : Z;
  batch_size : Z;
  mmr_k : Z;
  embedding_batch_size : Z;
  pdf_path : string;
  max_processes : Z;
  opik_workspace : string;
  opik_project : string
}.

Inductive distance := Cosine.

(** Keyword arguments of [client.create_collection]. *)
Record collection_params := {
  cp_on_disk_payload : bool;
  cp_collection_name : string;
  cp_size : Z;
  cp_distance : distance;
  cp_quantization_always_ram : bool
}.

(** ** The outside world

    Everything the pipeline calls but does not define: the file system
    and the PDF reader (read-only during a run), the [int] parser, the
    text splitter, and the remote embedding and vector-store services,
    whose state is an abstract [Remote]. *)
Record Externals := {
  Remote : Type;
  Embeddings : Type;
  Client : Type;
  VectorStore : Type;
  Float : Type;
  path_exists : string -> bool;
  pdfium_load : string -> result (list Document);
  py_int : string -> option Z;
  text_splitter : Z -> Z -> list Document -> result (list Document);
  AzureOpenAIEmbeddings :
    option string -> option string -> option string -> option string -> Z ->
    Remote -> result Embeddings * Remote;
  QdrantClient : option string -> option string -> Remote -> result Client * Remote;
  embed_query : Embeddings -> string -> Remote -> result (list Float) * Remote;
  client_create_collection :
    Client -> collection_params -> Remote -> result unit * Remote;
  QdrantVectorStore :
    Client -> string -> Embeddings -> Remote -> result VectorStore * Remote;
  vs_add_documents : VectorStore -> list Document -> Remote -> result unit * Remote;
  time_time : Remote -> Float * Remote;
  float_sub : Float -> Float -> Float;
  float_div_int : Float -> Z -> Float
}.

(** Observable actions, in the order the program performs them.  Sleeps
    are in milliseconds: [time.sleep(0.1)] is [EvSleep 100]. *)
Inductive event :=
| EvPdfLoad (path : string)
| EvPool (processes : Z)
| EvStarmap (ranges : list (Z * Z))
| EvEmbeddingsInit
| EvClientInit
| EvEmbedQuery (text : string)
| EvCreateCollection (p : collection_params)
| EvVectorStoreInit (collection : string)
| EvAddDocuments (batch : list Document)
| EvGcCollect
| EvSleep (ms : Z).

Record World (X : Externals) := {
  environ : gmap string string;
  config_cache : option Config;
  remote : Remote X;
  trace : list event
}.
Arguments environ {X} w.
Arguments config_cache {X} w.
Arguments remote {X} w.
Arguments trace {X} w.

(** ** The monad: state passing with exceptions; the state survives a raise. *)

Definition M (X : Externals) (A : Type) : Type := World X -> result A * World X.

Definition ret {X A} (a : A) : M X A := fun w => (Ok a, w).

Definition raise {X A} (e : exn) : M X A := fun w => (Raise e, w).

Definition bind {X A B} (m : M X A) (k : A -> M X B) : M X B :=
  fun w =>
    match m w with
    | (Ok a, w') => k a w'
    | (Raise e, w') => (Raise e, w')
    end.

(** [try: body  except Exception as e: handler(e)] *)
Definition try_except {X A} (body : M X A) (handler : exn -> M X A) : M X A :=
  fun w =>
    match body w with
    | (Ok a, w') => (Ok a, w')
    | (Raise e, w') => handler e w'
    end.

Definition lift_result {X A} (r : result A) : M X A := fun w => (r, w).

Notation "x <- c1 ;; c2" := (bind c1 (fun x => c2))
  (at level 100, c1 at next level, right associativity).
Notation "c1 ;; c2" := (bind c1 (fun _ => c2))
  (at level 100, right associativity).

(** [for x in xs: s = body(x, s)] *)
Fixpoint for_each {X A S} (xs : list A) (body : A -> S -> M X S) (s : S) : M X S :=
  match xs with
  | [] => ret s
  | x :: xs' => s' <- body x s ;; for_each xs' body s'
  end.

(** [[f(x) for x in xs]], left to right, stopping at the first raise. *)
Fixpoint map_m {X A B} (f : A -> M X B) (xs : list A) : M X (list B) :=
  match xs with
  | [] => ret []
  | x :: xs' => y <- f x ;; ys <- map_m f xs' ;; ret (y :: ys)
  end.

(** The world after one more recorded action, and after the remote
    services moved to a new state. *)
Definition record {X} (ev : event) (w : World X) : World X :=
  {| environ := environ w; config_cache := config_cache w;
     remote := remote w; trace := trace w ++ [ev] |}.

Definition with_remote {X} (rem : Remote X) (w : World X) : World X :=
  {| environ := environ w; config_cache := config_cache w;
     remote := rem; trace := trace w |}.

Definition log {X} (ev : event) : M X unit :=
  fun w => (Ok tt, record ev w).

(** A call into a remote service: the action is recorded, then the
    service answers and moves to its next state. *)
Definition call {X A} (ev : event) (f : Remote X -> result A * Remote X) : M X A :=
  log ev ;;
  (fun w => let '(r, rem) := f (remote w) in (r, with_remote rem w)).

(** ** [src/core/config.py] *)

(** The error of [int(s)] for a text that is no integer literal: the
    message ends in the first 200 characters of [repr(s)]. *)
Definition int_error (s : string) : exn :=
  Exn ValueError ("invalid literal for int() with base 10: "
                  +:+ String.substring 0 200 (Py.repr s)).

Section config.
Context {X : Externals}.

(** [os.getenv(key)] *)
Definition getenv (key : string) : M X (option string) :=
  fun w => (Ok (environ w !! key), w).

(** [os.getenv(key, default)] *)
Definition getenv_default (key default : string) : M X string :=
  v <- getenv key ;;
  ret (match v with Some s => s | None => default end).

(** [os.environ[key] = value] *)
Definition setenv (key value : string) : M X unit :=
  fun w => (Ok tt, {| environ := <[key := value]> (environ w);
                      config_cache := config_cache w;
                      remote := remote w; trace := trace w |}).

(** [int(s)] on a string *)
Definition int_of_str (s : string) : M X Z :=
  match py_int X s with
  | Some n => ret n
  | None => raise (int_error s)
  end.

Definition getenv_int (key default : string) : M X Z :=
  s <- getenv_default key default ;; int_of_str s.

(** [Config.setup_environment] *)
Definition setup_environment (self : Config) : M X unit :=
  setenv "OPIK_WORKSPACE" (opik_workspace self) ;;
  setenv "OPIK_PROJECT_NAME" (opik_project self) ;;
  setenv "OMP_NUM_THREADS" (Py.str_int (max_processes self)) ;;
  setenv "MKL_NUM_THREADS" (Py.str_int (max_processes self)) ;;
  setenv "NUMEXPR_NUM_THREADS" (Py.str_int (max_processes self)).

(** [Config()]: the field factories in declaration order, then
    [__post_init__]. *)
Definition Config_new : M X Config :=
  collection_name <- getenv_default "COLLECTION_NAME" "atyantik-chatbot-openai" ;;
  chunk_size <- getenv_int "CHUNK_SIZE" "2048" ;;
  chunk_overlap <- getenv_int "CHUNK_OVERLAP" "0" ;;
  batch_size <- getenv_int "BATCH_SIZE" "2" ;;
  mmr_k <- getenv_int "MMR_K" "3" ;;
  embedding_batch_size <- getenv_int "EMBEDDING_BATCH_SIZE" "1000" ;;
  pdf_path <- getenv_default "PDF_PATH" "./Career Leveling Guide.pdf" ;;
  max_processes <- getenv_int "MAX_PROCESSES" "8" ;;
  opik_workspace <- getenv_default "OPIK_WORKSPACE" "knightkill" ;;
  opik_project <- getenv_default "OPIK_PROJECT" "atyantik-chatbot" ;;
  let self := {| collection_name := collection_name; chunk_size := chunk_size;
                 chunk_overlap := chunk_overlap; batch_size := batch_size;
                 mmr_k := mmr_k; embedding_batch_size := embedding_batch_size;
                 pdf_path := pdf_path; max_processes := max_processes;
                 opik_workspace := opik_workspace; opik_project := opik_project |} in
  setup_environment self ;;
  ret self.

Definition required : list string :=
  [ "AZURE_OPENAI_API_KEY";
    "AZURE_OPENAI_ENDPOINT";
    "AZURE_OPENAI_API_VERSION";
    "AZURE_OPENAI_DEPLOYMENT_NAME";
    "AZURE_OPENAI_EMBEDDINGS_API_KEY";
    "AZURE_OPENAI_EMBEDDINGS_ENDPOINT";
    "AZURE_OPENAI_EMBEDDINGS_API_VERSION";
    "AZURE_OPENAI_EMBEDDINGS_DEPLOYMENT_NAME";
    "QDRANT_URL";
    "QDRANT_API_KEY" ].

(** The comprehension [[var for var in required if not os.getenv(var)]]. *)
Definition missing_in (env : gmap string string) : list string :=
  List.filter (fun var => negb (Py.truthy (env !! var))) required.

(** [Config.validate_environment] *)
Definition validate_environment : M X (list string) :=
  fun w => (Ok (missing_in (environ w)), w).

(** [get_config], memoised by [lru_cache(maxsize=1)]: a call that
    raises caches nothing. *)
Definition get_config : M X Config :=
  fun w =>
    match config_cache w with
    | Some c => (Ok c, w)
    | None =>
        match Config_new w with
        | (Ok c, w') =>
            (Ok c, {| environ := environ w'; config_cache := Some c;
                      remote := remote w'; trace := trace w' |})
        | (Raise e, w') => (Raise e, w')
        end
    end.

(** [config or get_config()]: a [Config] instance is always truthy. *)
Definition config_or_default (config : option Config) : M X Config :=
  match config with
  | Some c => ret c
  | None => get_config
  end.

(** The [handle_errors(message)] decorator: the exception is reported
    on the console and raised again unchanged. *)
Definition handle_errors {A} (message : string) (func : M X A) : M X A :=
  try_except func (fun e => raise e).

End config.

(** ** [src/core/rag.py] *)

Section rag.
Context {X : Externals}.

Definition create_embeddings (config : option Config) : M X (Embeddings X) :=
  handle_errors "Failed to initialize embeddings" (
    config <- config_or_default config ;;
    api_key <- getenv "AZURE_OPENAI_EMBEDDINGS_API_KEY" ;;
    azure_endpoint <- getenv "AZURE_OPENAI_EMBEDDINGS_ENDPOINT" ;;
    api_version <- getenv "AZURE_OPENAI_EMBEDDINGS_API_VERSION" ;;
    azure_deployment <- getenv "AZURE_OPENAI_EMBEDDINGS_DEPLOYMENT_NAME" ;;
    call EvEmbeddingsInit
         (AzureOpenAIEmbeddings X api_key azure_endpoint api_version
                                azure_deployment (embedding_batch_size config))).

Definition create_qdrant_client : M X (Client X) :=
  handle_errors "Failed to connect to Qdrant" (
    url <- getenv "QDRANT_URL" ;;
    api_key <- getenv "QDRANT_API_KEY" ;;
    call EvClientInit (QdrantClient X url api_key)).

Definition create_vector_store (client : option (Client X))
    (embeddings : option (Embeddings X)) (config : option Config)
  : M X (VectorStore X) :=
  handle_errors "Failed to initialize vector store" (
    config <- config_or_default config ;;
    client <- match client with
              | Some c => ret c
              | None => create_qdrant_client
              end ;;
    embeddings <- match embeddings with
                  | Some e => ret e
                  | None => create_embeddings (Some config)
                  end ;;
    call (EvVectorStoreInit (collection_name config))
         (QdrantVectorStore X client (collection_name config) embeddings)).

(** The test that [str(e).lower()] contains the text [already exists]. *)
Definition already_exists (e : exn) : bool :=
  Py.contains "already exists" (Py.lower (exn_str e)).

(** The arguments [create_or_verify_collection] passes to
    [client.create_collection]. *)
Definition provisioning_params (config : Config) (embedding_dim : Z)
  : collection_params :=
  {| cp_on_disk_payload := true;
     cp_collection_name := collection_name config;
     cp_size := embedding_dim;
     cp_distance := Cosine;
     cp_quantization_always_ram := false |}.

Definition create_or_verify_collection (client : Client X) (config : Config)
    (embedding_dim : Z) : M X bool :=
  let params := provisioning_params config embedding_dim in
  try_except
    (call (EvCreateCollection params) (client_create_collection X client params) ;;
     ret true)
    (fun e => if already_exists e then ret true else raise e).

End rag.

(** ** [src/ingestion/pipeline.py] *)

Section pipeline.
Context {X : Externals}.

(** [PyPDFium2Loader(pdf_path).load()] *)
Definition loader_load (pdf_path : string) : M X (list Document) :=
  log (EvPdfLoad pdf_path) ;; lift_result (pdfium_load X pdf_path).

Definition load_pdf_pages (pdf_path : string) (start_page end_page : option Z)
  : M X (list Document) :=
  documents <- loader_load pdf_path ;;
  match start_page, end_page with
  | Some s, Some e => ret (Py.slice documents s e)
  | _, _ => ret documents
  end.

(** [a // b] on integers *)
Definition floordiv (a b : Z) : M X Z :=
  if b =? 0
  then raise (Exn ZeroDivisionError "integer division or modulo by zero")
  else ret (a / b).

(** The list comprehension that builds [page_ranges]. *)
Definition page_ranges (total_pages max_processes pages_per_process : Z)
  : list (Z * Z) :=
  map (fun i => (i * pages_per_process,
                 if i <? max_processes - 1
                 then (i + 1) * pages_per_process
                 else total_pages))
      (Py.range1 max_processes).

(** [with Pool(n) as pool: pool.starmap(f, args)].  [Pool(n)] refuses
    a count below one; [starmap] is handed the page ranges.  The workers
    only read the file, and [starmap] returns the results in the order
    of [args], so the pool is a map over [args]; a worker's exception is
    raised in the parent. *)
Definition pool_starmap {B} (processes : Z) (f : Z * Z -> M X B)
    (args : list (Z * Z)) : M X (list B) :=
  log (EvPool processes) ;;
  (if processes <? 1
   then raise (Exn ValueError "Number of processes must be at least 1")
   else log (EvStarmap args) ;; map_m f args).

Definition load_pdf (pdf_path : string) (config : option Config)
  : M X (list Document) :=
  handle_errors "Failed to process PDF" (
    config <- config_or_default config ;;
    if negb (path_exists X pdf_path)
    then raise (Exn FileNotFoundError ("PDF not found: " +:+ pdf_path))
    else
      temp_docs <- loader_load pdf_path ;;
      let total_pages := Py.len temp_docs in
      if total_pages <=? max_processes config
      then ret temp_docs
      else
        pages_per_process <- floordiv total_pages (max_processes config) ;;
        let ranges := page_ranges total_pages (max_processes config)
                                  pages_per_process in
        results <- pool_starmap (max_processes config)
                     (fun r => load_pdf_pages pdf_path (Some (fst r)) (Some (snd r)))
                     ranges ;;
        ret (concat results)).

Definition split_documents (documents : list Document) (config : option Config)
  : M X (list Document) :=
  config <- config_or_default config ;;
  lift_result (text_splitter X (chunk_size config) (chunk_overlap config) documents).

Definition add_documents (vectorstore : VectorStore X) (batch : list Document)
  : M X unit :=
  call (EvAddDocuments batch) (vs_add_documents X vectorstore batch).

Definition gc_collect : M X unit := log EvGcCollect.

(** [time.sleep(ms / 1000)] *)
Definition sleep (ms : Z) : M X unit := log (EvSleep ms).

(** [range(start, stop, step)] *)
Definition range (start stop step : Z) : M X (list Z) :=
  if step =? 0
  then raise (Exn ValueError "range() arg 3 must not be zero")
  else ret (Py.range_elems start stop step).

(** One iteration of the upload loop on the counters
    [(successful, failed)]. *)
Definition upload_batch (vectorstore : VectorStore X) (documents : list Document)
    (batch_size : Z) (i : Z) (counters : Z * Z) : M X (Z * Z) :=
  let '(successful, failed) := counters in
  let batch := Py.slice documents i (i + batch_size) in
  try_except
    (add_documents vectorstore batch ;;
     let successful := successful + Py.len batch in
     gc_collect ;;
     sleep 100 ;;
     ret (successful, failed))
    (fun e =>
       let failed := failed + Py.len batch in
       try_except
         (sleep 500 ;;
          add_documents vectorstore batch ;;
          let successful := successful + Py.len batch in
          let failed := failed - Py.len batch in
          ret (successful, failed))
         (fun _ => ret (successful, failed))).

(** The loop of [upload_in_batches], with the final counters. *)
Definition upload_counters (vectorstore : VectorStore X) (documents : list Document)
    (batch_size : Z) : M X (Z * Z) :=
  let total_docs := Py.len documents in
  indices <- range 0 total_docs batch_size ;;
  for_each indices (upload_batch vectorstore documents batch_size) (0, 0).

Definition upload_in_batches (vectorstore : VectorStore X) (documents : list Document)
    (batch_size : Z) : M X bool :=
  counters <- upload_counters vectorstore documents batch_size ;;
  ret (snd counters =? 0).

(** [x / n] for a float [x] and an integer [n] *)
Definition truediv (x : Float X) (n : Z) : M X (Float X) :=
  if n =? 0
  then raise (Exn ZeroDivisionError "float division by zero")
  else ret (float_div_int X x n).

(** [time.time()] *)
Definition now : M X (Float X) :=
  fun w => let '(t, rem) := time_time X (remote w) in (Ok t, with_remote rem w).

(** [pdf_path or config.pdf_path]: [None] and the empty string are
    both falsy. *)
Definition path_or_default (path : option string) (config : Config) : string :=
  match path with
  | Some p => if String.eqb p "" then pdf_path config else p
  | None => pdf_path config
  end.

Definition ingest_documents (path : option string) (config : option Config)
  : M X bool :=
  handle_errors "Ingestion failed" (
    config <- config_or_default config ;;
    let pdf_path := path_or_default path config in
    missing_vars <- validate_environment ;;
    match missing_vars with
    | _ :: _ =>
        raise (Exn ValueError ("Missing environment variables: "
                               +:+ Py.join ", " missing_vars))
    | [] =>
        documents <- load_pdf pdf_path (Some config) ;;
        chunks <- split_documents documents (Some config) ;;
        embeddings <- create_embeddings (Some config) ;;
        client <- create_qdrant_client ;;
        test_vector <- call (EvEmbedQuery "test") (embed_query X embeddings "test") ;;
        let test_dim := Py.len test_vector in
        create_or_verify_collection client config test_dim ;;
        vectorstore <- create_vector_store (Some client) (Some embeddings) (Some config) ;;
        start_time <- now ;;
        success <- upload_in_batches vectorstore chunks (batch_size config) ;;
        end_time <- now ;;
        let elapsed := float_sub X end_time start_time in
        truediv elapsed (Py.len chunks) ;;
        ret success
    end).

End pipeline.

(** ** Reference notions the properties are stated with *)

(** The pages a worker returns for one range [(start, end)]. *)
Definition slice_of (docs : list Document) (r : Z * Z) : list Document :=
  Py.slice docs (fst r) (snd r).

(** What became of one batch: inserted at once, inserted by the retry,
    or refused twice. *)
Inductive outcome := FirstTry | Retried | Failed.

Definition is_failed (o : outcome) : bool :=
  match o with Failed => true | _ => false end.

Section batch_reference.
Context {X : Externals}.

(** The vector store's answers for one batch: one insert, and after a
    refusal one more insert of the same batch. *)
Definition attempt (vectorstore : VectorStore X) (batch : list Document)
    (rem : Remote X) : outcome * Remote X :=
  match vs_add_documents X vectorstore batch rem with
  | (Ok _, rem1) => (FirstTry, rem1)
  | (Raise _, rem1) =>
      match vs_add_documents X vectorstore batch rem1 with
      | (Ok _, rem2) => (Retried, rem2)
      | (Raise _, rem2) => (Failed, rem2)
      end
  end.

(** The answers for a sequence of batches, each batch starting from the
    state the previous one left the store in. *)
Fixpoint attempts (vectorstore : VectorStore X) (batches : list (list Document))
    (rem : Remote X) : list (list Document * outcome) * Remote X :=
  match batches with
  | [] => ([], rem)
  | batch :: rest =>
      let '(o, rem1) := attempt vectorstore batch rem in
      let '(log, rem2) := attempts vectorstore rest rem1 in
      ((batch, o) :: log, rem2)
  end.

End batch_reference.

(** The batch the loop builds at index [i]. *)
Definition batch_at (documents : list Document) (batch_size i : Z) : list Document :=
  Py.slice documents i (i + batch_size).

(** The batches of a chunk sequence: [documents[i:i + batch_size]] for
    [i] in [range(0, len(documents), batch_size)]. *)
Definition batches (documents : list Document) (batch_size : Z) : list (list Document) :=
  map (batch_at documents batch_size)
      (Py.range_elems 0 (Py.len documents) batch_size).

(** What a batch is meant to add to [(successful, failed)]: its length
    to [successful] if an insert went through, to [failed] if both were
    refused. *)
Definition tally (o : outcome) (batch : list Document) (counters : Z * Z) : Z * Z :=
  if is_failed o
  then (fst counters, snd counters + Py.len batch)
  else (fst counters + Py.len batch, snd counters).

(** Chunks in batches that went through, and chunks in batches refused twice. *)
Fixpoint uploaded (log : list (list Document * outcome)) : Z :=
  match log with
  | [] => 0
  | (batch, o) :: rest =>
      (if is_failed o then 0 else Py.len batch) + uploaded rest
  end.

Fixpoint refused (log : list (list Document * outcome)) : Z :=
  match log with
  | [] => 0
  | (batch, o) :: rest =>
      (if is_failed o then Py.len batch else 0) + refused rest
  end.

(** The actions one batch leaves in the trace. *)
Definition batch_events (batch : list Document) (o : outcome) : list event :=
  match o with
  | FirstTry => [EvAddDocuments batch; EvGcCollect; EvSleep 100]
  | Retried | Failed => [EvAddDocuments batch; EvSleep 500; EvAddDocuments batch]
  end.

Definition log_events (log : list (list Document * outcome)) : list event :=
  concat (map (fun bo => batch_events (fst bo) (snd bo)) log).

(** A pause before every next batch: between the submission of one batch
    and a later submission of a different batch, the trace has a sleep. *)
Definition paused_between_batches (tr : list event) : Prop :=
  forall pre b1 mid b2 post,
    tr = pre ++ EvAddDocuments b1 :: mid ++ EvAddDocuments b2 :: post ->
    b1 <> b2 ->
    exists ms, In (EvSleep ms) mid.

(** A computation that performs no recorded action, leaves the remote
    services alone and does not touch a required environment variable. *)
Definition quiet {X A} (m : M X A) : Prop :=
  forall w : World X,
    trace (snd (m w)) = trace w /\
    remote (snd (m w)) = remote w /\
    forall var, In var required -> environ (snd (m w)) !! var = environ w !! var.

(** [sub] occurs in [s]. *)
Definition occurs_in (sub s : string) : Prop :=
  exists pre post, s = pre +:+ sub +:+ post.

(** The text of an error has the words [already exists] in it, in
    whatever case. *)
Definition says_already_exists (e : exn) : Prop :=
  occurs_in "already exists" (Py.lower (exn_str e)).

(** ** A scripted instance of the outside world

    A small, fully computable world used to run the pipeline on concrete
    inputs: one PDF of three pages and one without pages, a vector store
    whose answers to [add_documents] are read off a script ([true] for
    success; an exhausted script succeeds), and a collection registry that
    refuses duplicates the way the vector store does. *)

Module Toy.

Record service := {
  script : list bool;
  collections : list string;
  clock : Z
}.

Definition page (text : string) : Document :=
  {| page_content := text; metadata := ∅ |}.

Definition guide : list Document := [page "one"; page "two"; page "three"].

Definition exists_ (path : string) : bool :=
  (String.eqb path "guide.pdf" || String.eqb path "blank.pdf")%bool.

Definition load (path : string) : result (list Document) :=
  if String.eqb path "guide.pdf" then Ok guide
  else if String.eqb path "blank.pdf" then Ok []
  else Raise (Exn (OtherException "PdfiumError") "Failed to load document").

Definition parse_int (s : string) : option Z :=
  option_map Z.of_int (NilZero.int_of_string s).

Definition unavailable : exn :=
  Exn (OtherException "ResponseHandlingException") "503 Service Unavailable".

Definition conflict (name : string) : exn :=
  Exn (OtherException "UnexpectedResponse")
      ("409 (Conflict): Collection `" +:+ name +:+ "` already exists!").

Definition add (vs : unit) (batch : list Document) (r : service)
  : result unit * service :=
  match script r with
  | [] => (Ok tt, r)
  | ok :: rest =>
      (if ok then Ok tt else Raise unavailable,
       {| script := rest; collections := collections r; clock := clock r |})
  end.

Definition create (c : unit) (p : collection_params) (r : service)
  : result unit * service :=
  if existsb (String.eqb (cp_collection_name p)) (collections r)
  then (Raise (conflict (cp_collection_name p)), r)
  else (Ok tt, {| script := script r;
                  collections := cp_collection_name p :: collections r;
                  clock := clock r |}).

Definition tick (r : service) : Z * service :=
  (clock r, {| script := script r; collections := collections r;
               clock := clock r + 1 |}).

Definition world : Externals := {|
  Remote := service;
  Embeddings := unit;
  Client := unit;
  VectorStore := unit;
  Float := Z;
  path_exists := exists_;
  pdfium_load := load;
  py_int := parse_int;
  text_splitter := fun _ _ docs => Ok docs;
  AzureOpenAIEmbeddings := fun _ _ _ _ _ r => (Ok tt, r);
  QdrantClient := fun _ _ r => (Ok tt, r);
  embed_query := fun _ _ r => (Ok [0; 0; 0; 0], r);
  client_create_collection := create;
  QdrantVectorStore := fun _ _ _ r => (Ok tt, r);
  vs_add_documents := add;
  time_time := tick;
  float_sub := Z.sub;
  float_div_int := Z.div
|}.

Definition config : Config := {|
  collection_name := "atyantik-chatbot-openai";
  chunk_size := 2048;
  chunk_overlap := 0;
  batch_size := 2;
  mmr_k := 3;
  embedding_batch_size := 1000;
  pdf_path := "guide.pdf";
  max_processes := 2;
  opik_workspace := "knightkill";
  opik_project := "atyantik-chatbot"
|}.

(** An environment with every required variable set. *)
Definition full_env : gmap string string :=
  list_to_map (map (fun var => (var, "x")) required).

(** A start state: the given environment and insert script, no cached
    configuration, no collection, an empty trace. *)
Definition start (env : gmap string string) (answers : list bool) : World world :=
  Build_World world env None
              {| script := answers; collections := []; clock := 0 |} [].

End Toy.

(** ** The script entry of [src/ingestion/pipeline.py]

    The exit status of running the module: reaching the end of the
    script is 0, [exit(1)] is 1.  [exit] raises [SystemExit], which the
    handler for [Exception] does not catch. *)

Section pipeline_main.
Context {X : Externals}.

Definition pipeline_main : World X -> Z * World X :=
  fun w =>
    match ingest_documents None None w with
    | (Ok success, w') => (if success then 0 else 1, w')
    | (Raise _, w') => (1, w')
    end.

(** What is left of [ingest_documents] once the vector store is there. *)
Definition upload_and_report (c : Config) (vectorstore : VectorStore X)
    (chunks : list Document) : M X bool :=
  start_time <- now ;;
  success <- upload_in_batches vectorstore chunks (batch_size c) ;;
  end_time <- now ;;
  truediv (float_sub X end_time start_time) (Py.len chunks) ;;
  ret success.

End pipeline_main.

(** ** Reference notions for the configuration *)

(** The value [os.getenv(key, default)] reads from [env]. *)
Definition env_or (env : gmap string string) (key default : string) : string :=
  match env !! key with
  | Some s => s
  | None => default
  end.

(** The integer settings of [Config] with their default literals, in
    field order. *)
Definition integer_settings : list (string * string) :=
  [ ("CHUNK_SIZE", "2048"); ("CHUNK_OVERLAP", "0"); ("BATCH_SIZE", "2");
    ("MMR_K", "3"); ("EMBEDDING_BATCH_SIZE", "1000"); ("MAX_PROCESSES", "8") ].

(** The variables [setup_environment] writes, in the order it writes them. *)
Definition exports (c : Config) : list (string * string) :=
  [ ("OPIK_WORKSPACE", opik_workspace c);
    ("OPIK_PROJECT_NAME", opik_project c);
    ("OMP_NUM_THREADS", Py.str_int (max_processes c));
    ("MKL_NUM_THREADS", Py.str_int (max_processes c));
    ("NUMEXPR_NUM_THREADS", Py.str_int (max_processes c)) ].

(** [key] is none of the variables [setup_environment] writes. *)
Definition not_exported (key : string) : bool :=
  forallb (fun k => negb (String.eqb k key))
          ["OPIK_WORKSPACE"; "OPIK_PROJECT_NAME"; "OMP_NUM_THREADS";
           "MKL_NUM_THREADS"; "NUMEXPR_NUM_THREADS"].

(** The environment after [setup_environment]. *)
Definition exported (c : Config) (env : gmap string string) : gmap string string :=
  fold_left (fun e kv => <[fst kv := snd kv]> e) (exports c) env.

(** [int(os.getenv(key, default))] as a function of the environment. *)
Definition parse_setting (X : Externals) (env : gmap string string)
    (key default : string) : result Z :=
  match py_int X (env_or env key default) with
  | Some n => Ok n
  | None => Raise (int_error (env_or env key default))
  end.

Definition result_bind {A B} (r : result A) (k : A -> result B) : result B :=
  match r with
  | Ok a => k a
  | Raise e => Raise e
  end.

(** The fields [Config()] computes from an environment, read in field
    order; the first setting that does not parse decides the error. *)
Definition config_of (X : Externals) (env : gmap string string) : result Config :=
  result_bind (parse_setting X env "CHUNK_SIZE" "2048") (fun chunk_size =>
  result_bind (parse_setting X env "CHUNK_OVERLAP" "0") (fun chunk_overlap =>
  result_bind (parse_setting X env "BATCH_SIZE" "2") (fun batch_size =>
  result_bind (parse_setting X env "MMR_K" "3") (fun mmr_k =>
  result_bind (parse_setting X env "EMBEDDING_BATCH_SIZE" "1000") (fun embedding_batch_size =>
  result_bind (parse_setting X env "MAX_PROCESSES" "8") (fun max_processes =>
  Ok {| collection_name := env_or env "COLLECTION_NAME" "atyantik-chatbot-openai";
        chunk_size := chunk_size;
        chunk_overlap := chunk_overlap;
        batch_size := batch_size;
        mmr_k := mmr_k;
        embedding_batch_size := embedding_batch_size;
        pdf_path := env_or env "PDF_PATH" "./Career Leveling Guide.pdf";
        max_processes := max_processes;
        opik_workspace := env_or env "OPIK_WORKSPACE" "knightkill";
        opik_project := env_or env "OPIK_PROJECT" "atyantik-chatbot" |})))))).

Definition with_environ {X} (env : gmap string string) (w : World X) : World X :=
  {| environ := env; config_cache := config_cache w;
     remote := remote w; trace := trace w |}.

(** The number of [add_documents] calls in a trace. *)
Definition submissions (tr : list event) : nat :=
  length (List.filter (fun ev => match ev with EvAddDocuments _ => true | _ => false end) tr).

(** A batch whose first insert was refused, so that it was sent again. *)
Definition second_try (bo : list Document * outcome) : bool :=
  match snd bo with
  | FirstTry => false
  | Retried | Failed => true
  end.

(** The number of PDF loads in a trace. *)
Definition pdf_loads (tr : list event) : nat :=
  length (List.filter (fun ev => match ev with EvPdfLoad _ => true | _ => false end) tr).

(** ** [src/utils/prompts.py]

    The file system is what [Path.exists] and [open(...).read()] answer
    at the time of a call; it may differ from one call to the next.
    [path_join a b] is [str(Path(a) / b)] and [strip] is [str.strip];
    both are taken as they are.  The [lru_cache] is a list of entries,
    most recently used first, keyed by the arguments as they were passed. *)

Module Prompts.

Record file_system := {
  fs_exists : string -> bool;
  fs_read : string -> result string
}.

(** The positional arguments of a call: [filename] and, when given,
    [prompts_dir]. *)
Definition cache_key : Type := string * option string.

Definition key_eqb (k1 k2 : cache_key) : bool :=
  (String.eqb (fst k1) (fst k2) &&
   match snd k1, snd k2 with
   | Some a, Some b => String.eqb a b
   | None, None => true
   | _, _ => false
   end)%bool.

Definition lru : Type := list (cache_key * string).

Fixpoint lru_find (k : cache_key) (c : lru) : option string :=
  match c with
  | [] => None
  | (k', v) :: rest => if key_eqb k k' then Some v else lru_find k rest
  end.

Definition lru_remove (k : cache_key) (c : lru) : lru :=
  List.filter (fun kv => negb (key_eqb k (fst kv))) c.

(** A hit moves the entry to the front. *)
Definition lru_touch (k : cache_key) (v : string) (c : lru) : lru :=
  (k, v) :: lru_remove k c.

(** A new entry goes to the front; beyond [maxsize] the entry used
    longest ago is dropped. *)
Definition lru_store (maxsize : nat) (k : cache_key) (v : string) (c : lru) : lru :=
  firstn maxsize ((k, v) :: c).

Section load.
Variable path_join : string -> string -> string.
Variable strip : string -> string.

(** The body of [load_prompt], without the cache. *)
Definition read_prompt (fs : file_system) (filename prompts_dir : string)
  : result string :=
  let filepath := path_join prompts_dir filename in
  if negb (fs_exists fs filepath)
  then Raise (Exn FileNotFoundError ("Prompt file not found: " +:+ filepath))
  else match fs_read fs filepath with
       | Ok text => Ok (strip text)
       | Raise e => Raise e
       end.

(** [load_prompt] under [lru_cache(maxsize=4)]: a call that raises
    stores nothing. *)
Definition load_prompt (fs : file_system) (filename : string)
    (prompts_dir : option string) (c : lru) : result string * lru :=
  let key := (filename, prompts_dir) in
  match lru_find key c with
  | Some v => (Ok v, lru_touch key v c)
  | None =>
      let dir := match prompts_dir with Some d => d | None => "prompts" end in
      match read_prompt fs filename dir with
      | Ok v => (Ok v, lru_store 4 key v c)
      | Raise e => (Raise e, c)
      end
  end.

(** [get_prompts]: the tuple is built left to right. *)
Definition get_prompts (fs : file_system) (c : lru) : result (string * string) * lru :=
  match load_prompt fs "system_cto.txt" None c with
  | (Ok system_prompt, c1) =>
      match load_prompt fs "user_query.txt" None c1 with
      | (Ok user_prompt, c2) => (Ok (system_prompt, user_prompt), c2)
      | (Raise e, c2) => (Raise e, c2)
      end
  | (Raise e, c1) => (Raise e, c1)
  end.

End load.

(** A file system with the two prompt files, and one without files. *)
Definition two_prompts : file_system := {|
  fs_exists := fun p => (String.eqb p "prompts/system_cto.txt"
                         || String.eqb p "prompts/user_query.txt")%bool;
  fs_read := fun p => if String.eqb p "prompts/system_cto.txt" then Ok "You are a CTO."
                      else Ok "Question: {query}"
|}.

Definition no_files : file_system := {|
  fs_exists := fun _ => false;
  fs_read := fun _ => Raise (Exn FileNotFoundError "No such file or directory")
|}.

Definition slash_join (a b : string) : string := a +:+ "/" +:+ b.

End Prompts.

(** ** [scripts/setup_env.py]

    The console is the list of lines still to be read; [input] takes the
    first one and raises [EOFError] when none is left.  What the wizard
    prints is not part of the model (the names and descriptions passed to
    [get_user_input] only shape the prompt).  [strip] is [str.strip],
    taken as it is; [str.lower] is [Py.lower], which agrees with it on
    whether the result is the letter [y] or [n]. *)

Module SetupEnv.

Definition validate_azure_endpoint (endpoint : string) : bool :=
  if String.eqb endpoint "" then false
  else (String.prefix "https://" endpoint &&
        Py.contains ".openai.azure.com" endpoint)%bool.

Definition eof : exn := Exn (OtherException "EOFError") "EOF when reading a line".

Definition nl : string := String (ascii_of_nat 10) "".

Section wizard.
Variable strip : string -> string.

(** The value the loop of [get_user_input] works with for one line:
    the stripped line, or the default when the line is blank and a
    non-empty default was given. *)
Definition entered (default : option string) (line : string) : string :=
  let value := strip line in
  if (String.eqb value "" && Py.truthy default)%bool
  then match default with Some d => d | None => value end
  else value.

(** A line the loop of [get_user_input] returns on: what was entered is
    not empty and passes the validator, if there is one. *)
Definition accepted (default : option string) (validator : option (string -> bool))
    (line : string) : bool :=
  (negb (String.eqb (entered default line) "") &&
   match validator with
   | Some valid => valid (entered default line)
   | None => true
   end)%bool.

(** [get_user_input]: one round of the loop per line read. *)
Fixpoint get_user_input (var_name description : string) (default : option string)
    (validator : option (string -> bool)) (lines : list string)
  : result string * list string :=
  match lines with
  | [] => (Raise eof, [])
  | line :: rest =>
      let value := entered default line in
      if String.eqb value ""
      then get_user_input var_name description default validator rest
      else match validator with
           | Some valid =>
               if negb (valid value)
               then get_user_input var_name description default validator rest
               else (Ok value, rest)
           | None => (Ok value, rest)
           end
  end.

(** [input(prompt).strip().lower()] *)
Definition input_lower (lines : list string) : result string * list string :=
  match lines with
  | [] => (Raise eof, [])
  | line :: rest => (Ok (Py.lower (strip line)), rest)
  end.

(** Sequencing of two console steps. *)
Definition ask {A B} (m : list string -> result A * list string)
    (k : A -> list string -> result B * list string)
    (lines : list string) : result B * list string :=
  match m lines with
  | (Ok a, rest) => k a rest
  | (Raise e, rest) => (Raise e, rest)
  end.

Definition done {A} (a : A) (lines : list string) : result A * list string :=
  (Ok a, lines).

(** The three embedding settings: copied from the model's, or asked. *)
Definition embedding_settings (use_same : string) (env_vars : gmap string string)
    (endpoint api_key api_version : string)
  : list string -> result (gmap string string) * list string :=
  if negb (String.eqb use_same "n")
  then
    let env_vars := <["AZURE_OPENAI_EMBEDDINGS_ENDPOINT" := endpoint]> env_vars in
    let env_vars := <["AZURE_OPENAI_EMBEDDINGS_API_KEY" := api_key]> env_vars in
    let env_vars := <["AZURE_OPENAI_EMBEDDINGS_API_VERSION" := api_version]> env_vars in
    done env_vars
  else
    ask (get_user_input "AZURE_OPENAI_EMBEDDINGS_ENDPOINT"
           "Enter your Azure OpenAI embeddings endpoint URL"
           None (Some validate_azure_endpoint)) (fun e_endpoint =>
    let env_vars := <["AZURE_OPENAI_EMBEDDINGS_ENDPOINT" := e_endpoint]> env_vars in
    ask (get_user_input "AZURE_OPENAI_EMBEDDINGS_API_KEY"
           "Enter your Azure OpenAI embeddings API key" None None) (fun e_key =>
    let env_vars := <["AZURE_OPENAI_EMBEDDINGS_API_KEY" := e_key]> env_vars in
    ask (get_user_input "AZURE_OPENAI_EMBEDDINGS_API_VERSION"
           "Enter embeddings API version" (Some "2024-08-01-preview") None)
        (fun e_version =>
    let env_vars := <["AZURE_OPENAI_EMBEDDINGS_API_VERSION" := e_version]> env_vars in
    done env_vars))).

(** The part of [main] that fills [env_vars]. *)
Definition collect_env_vars : list string -> result (gmap string string) * list string :=
  let env_vars : gmap string string := ∅ in
  ask (get_user_input "AZURE_OPENAI_ENDPOINT" "Enter your Azure OpenAI endpoint URL"
         None (Some validate_azure_endpoint)) (fun endpoint =>
  let env_vars := <["AZURE_OPENAI_ENDPOINT" := endpoint]> env_vars in
  ask (get_user_input "AZURE_OPENAI_API_KEY" "Enter your Azure OpenAI API key"
         None None) (fun api_key =>
  let env_vars := <["AZURE_OPENAI_API_KEY" := api_key]> env_vars in
  ask (get_user_input "AZURE_OPENAI_API_VERSION" "Enter API version"
         (Some "2024-08-01-preview") None) (fun api_version =>
  let env_vars := <["AZURE_OPENAI_API_VERSION" := api_version]> env_vars in
  ask (get_user_input "AZURE_OPENAI_DEPLOYMENT_NAME"
         "Enter your GPT deployment name (e.g., gpt-4)" None None) (fun deployment =>
  let env_vars := <["AZURE_OPENAI_DEPLOYMENT_NAME" := deployment]> env_vars in
  ask input_lower (fun use_same =>
  ask (embedding_settings use_same env_vars endpoint api_key api_version) (fun env_vars =>
  ask (get_user_input "AZURE_OPENAI_EMBEDDINGS_DEPLOYMENT_NAME"
         "Enter your embeddings deployment name (e.g., text-embedding-ada-002)"
         None None) (fun e_deployment =>
  let env_vars := <["AZURE_OPENAI_EMBEDDINGS_DEPLOYMENT_NAME" := e_deployment]> env_vars in
  ask (get_user_input "QDRANT_URL"
         "Enter your Qdrant URL (e.g., https://xyz.qdrant.io or http://localhost:6333)"
         None None) (fun qdrant_url =>
  let env_vars := <["QDRANT_URL" := qdrant_url]> env_vars in
  ask (get_user_input "QDRANT_API_KEY"
         "Enter your Qdrant API key (leave empty for local instances)"
         None None) (fun qdrant_key =>
  let qdrant_key := if String.eqb qdrant_key "" then "" else qdrant_key in
  let env_vars := <["QDRANT_API_KEY" := qdrant_key]> env_vars in
  ask input_lower (fun use_opik =>
  if String.eqb use_opik "y"
  then ask (get_user_input "OPIK_API_KEY" "Enter your Opik API key" None None)
           (fun opik_key => done (<["OPIK_API_KEY" := opik_key]> env_vars))
  else done (<["OPIK_API_KEY" := ""]> env_vars))))))))))).

End wizard.

(** [env_vars[key]]: a missing key is a [KeyError]. *)
Definition item (env_vars : gmap string string) (key : string) : result string :=
  match env_vars !! key with
  | Some v => Ok v
  | None => Raise (Exn (OtherException "KeyError") key)
  end.

(** One [f.write] of a [KEY=value] line. *)
Definition assignment (env_vars : gmap string string) (key : string) : result string :=
  match item env_vars key with
  | Ok v => Ok (key +:+ "=" +:+ v +:+ nl)
  | Raise e => Raise e
  end.

Fixpoint all_ok (pieces : list (result string)) : result (list string) :=
  match pieces with
  | [] => Ok []
  | Ok p :: rest =>
      match all_ok rest with
      | Ok ps => Ok (p :: ps)
      | Raise e => Raise e
      end
  | Raise e :: _ => Raise e
  end.

(** The strings written to [.env], in order. *)
Definition env_file_pieces (env_vars : gmap string string) : list (result string) :=
  [ Ok ("# Azure OpenAI LLM Configuration" +:+ nl);
    assignment env_vars "AZURE_OPENAI_API_KEY";
    assignment env_vars "AZURE_OPENAI_ENDPOINT";
    assignment env_vars "AZURE_OPENAI_API_VERSION";
    assignment env_vars "AZURE_OPENAI_DEPLOYMENT_NAME";
    Ok nl;
    Ok ("# Azure OpenAI Embeddings Configuration" +:+ nl);
    assignment env_vars "AZURE_OPENAI_EMBEDDINGS_API_KEY";
    assignment env_vars "AZURE_OPENAI_EMBEDDINGS_ENDPOINT";
    assignment env_vars "AZURE_OPENAI_EMBEDDINGS_API_VERSION";
    assignment env_vars "AZURE_OPENAI_EMBEDDINGS_DEPLOYMENT_NAME";
    Ok nl;
    Ok ("# Qdrant Vector Database Configuration" +:+ nl);
    assignment env_vars "QDRANT_URL";
    assignment env_vars "QDRANT_API_KEY";
    Ok nl;
    Ok ("# Opik Monitoring Configuration (Optional)" +:+ nl);
    assignment env_vars "OPIK_API_KEY" ].

(** How a run of the script ends: its exit status and, when the file
    was completed, the text of [.env]. *)
Record ending := {
  exit_status : Z;
  written : option string;
  unread : list string
}.

Section script.
Variable strip : string -> string.

(** The wizard from the first question on: the answers are collected
    and, when all are there, the file is written. *)
Definition proceed (writable : bool) (lines : list string) : ending :=
  match collect_env_vars strip lines with
  | (Ok env_vars, rest) =>
      if writable
      then match all_ok (env_file_pieces env_vars) with
           | Ok pieces =>
               {| exit_status := 0; written := Some (Py.join "" pieces); unread := rest |}
           | Raise _ => {| exit_status := 1; written := None; unread := rest |}
           end
      else {| exit_status := 1; written := None; unread := rest |}
  | (Raise _, rest) => {| exit_status := 1; written := None; unread := rest |}
  end.

(** The script: [main()] under the handlers of the [__main__] block
    ([sys.exit(0)] leaves with status 0, an [Exception] with status 1).
    [env_exists] tells whether the file [.env] is there at the start,
    [writable] whether it can be opened for writing at the end. *)
Definition main (env_exists writable : bool) (lines : list string) : ending :=
  if env_exists
  then match input_lower strip lines with
       | (Ok response, rest) =>
           if negb (String.eqb response "y")
           then {| exit_status := 0; written := None; unread := rest |}
           else proceed writable rest
       | (Raise _, rest) => {| exit_status := 1; written := None; unread := rest |}
       end
  else proceed writable lines.

End script.

End SetupEnv.

(** A console step that can fail in one way only: by running out of
    input, with [EOFError] and nothing left to read. *)
Definition eof_only {A} (m : list string -> result A * list string) : Prop :=
  forall lines e rest, m lines = (Raise e, rest) -> e = SetupEnv.eof /\ rest = [].

(** The dictionary [env_vars] of the wizard with its eleven entries, in the
    order they are made. *)
Definition collected (e ak av d ee ek ev ed qu qk opik : string) : gmap string string :=
  <["OPIK_API_KEY" := opik]>
    (<["QDRANT_API_KEY" := qk]>
       (<["QDRANT_URL" := qu]>
          (<["AZURE_OPENAI_EMBEDDINGS_DEPLOYMENT_NAME" := ed]>
             (<["AZURE_OPENAI_EMBEDDINGS_API_VERSION" := ev]>
                (<["AZURE_OPENAI_EMBEDDINGS_API_KEY" := ek]>
                   (<["AZURE_OPENAI_EMBEDDINGS_ENDPOINT" := ee]>
                      (<["AZURE_OPENAI_DEPLOYMENT_NAME" := d]>
                         (<["AZURE_OPENAI_API_VERSION" := av]>
                            (<["AZURE_OPENAI_API_KEY" := ak]>
                               (<["AZURE_OPENAI_ENDPOINT" := e]> ∅)))))))))).


(** ** Sample inputs for the further properties *)

Module Sample.

(** The scripted configuration with another parallelism or batch size. *)
Definition with_processes (n : Z) : Config :=
  {| collection_name := collection_name Toy.config;
     chunk_size := chunk_size Toy.config;
     chunk_overlap := chunk_overlap Toy.config;
     batch_size := batch_size Toy.config;
     mmr_k := mmr_k Toy.config;
     embedding_batch_size := embedding_batch_size Toy.config;
     pdf_path := pdf_path Toy.config;
     max_processes := n;
     opik_workspace := opik_workspace Toy.config;
     opik_project := opik_project Toy.config |}.

(** The scripted world with another answer to [create_collection] and a
    vector store that answers every insert the same way. *)
Definition custom
    (create : unit -> collection_params -> Toy.service -> result unit * Toy.service)
    (answer : Toy.service -> result unit * Toy.service) : Externals := {|
  Remote := Toy.service;
  Embeddings := unit;
  Client := unit;
  VectorStore := unit;
  Float := Z;
  path_exists := Toy.exists_;
  pdfium_load := Toy.load;
  py_int := Toy.parse_int;
  text_splitter := fun _ _ docs => Ok docs;
  AzureOpenAIEmbeddings := fun _ _ _ _ _ r => (Ok tt, r);
  QdrantClient := fun _ _ r => (Ok tt, r);
  embed_query := fun _ _ r => (Ok [0; 0; 0; 0], r);
  client_create_collection := create;
  QdrantVectorStore := fun _ _ _ r => (Ok tt, r);
  vs_add_documents := fun _ _ => answer;
  time_time := Toy.tick;
  float_sub := Z.sub;
  float_div_int := Z.div
|}.

Definition steady (answer : Toy.service -> result unit * Toy.service) : Externals :=
  custom Toy.create answer.

(** A vector store that cannot be reached when the collection is created. *)
Definition offline : Externals :=
  custom (fun _ _ r => (Raise Toy.unavailable, r)) (fun r => (Ok tt, r)).

(** The error of a vector store that refuses a collection name because
    an alias of that name is there. *)
Definition alias_taken (name : string) : exn :=
  Exn (OtherException "UnexpectedResponse")
      ("400 (Bad Request): Can't create collection with name " +:+ name
       +:+ ". Alias with the same name already exists").

(** A vector store in which the name asked for is taken by an alias:
    no collection is created. *)
Definition aliased : Externals :=
  custom (fun _ p r => (Raise (alias_taken (cp_collection_name p)), r))
         (fun r => (Ok tt, r)).

Definition accepting : Externals := steady (fun r => (Ok tt, r)).

Definition refusing : Externals := steady (fun r => (Raise Toy.unavailable, r)).

Definition fresh (X : Externals) (rem : Remote X) : World X :=
  Build_World X ∅ None rem [].

Definition ready (X : Externals) (rem : Remote X) : World X :=
  Build_World X Toy.full_env None rem [].

Definition idle : Toy.service :=
  {| Toy.script := []; Toy.collections := []; Toy.clock := 0 |}.

End Sample.

(** ** Facts about slices and ranges *)

Section slices.
Context {A : Type}.
Implicit Types (l : list A).

Lemma len_nonneg l : 0 <= Py.len l.
Proof. unfold Py.len. lia. Qed.

Lemma slice_inside l (a b : Z) :
  0 <= a -> a <= b -> b <= Py.len l ->
  Py.slice l a b = firstn (Z.to_nat (b - a)) (skipn (Z.to_nat a) l).
Proof.
  intros Ha Hab Hb. unfold Py.slice, Py.clamp.
  destruct (Z.ltb_spec a 0); [lia|].
  destruct (Z.ltb_spec b 0); [lia|].
  rewrite !Z.min_l by lia. reflexivity.
Qed.

Lemma slice_length l (a b : Z) :
  0 <= a -> a <= b ->
  Py.len (Py.slice l a b) = Z.min b (Py.len l) - Z.min a (Py.len l).
Proof.
  intros Ha Hab. unfold Py.slice, Py.clamp, Py.len.
  destruct (Z.ltb_spec a 0); [lia|].
  destruct (Z.ltb_spec b 0); [lia|].
  rewrite length_take, length_drop. lia.
Qed.

Lemma slice_chain l (a b c : Z) :
  0 <= a -> a <= b -> b <= c -> c <= Py.len l ->
  Py.slice l a b ++ Py.slice l b c = Py.slice l a c.
Proof.
  intros Ha Hab Hbc Hc.
  rewrite !slice_inside by lia.
  replace (Z.to_nat b) with (Z.to_nat a + Z.to_nat (b - a))%nat by lia.
  rewrite <- drop_drop, take_take_drop.
  f_equal. lia.
Qed.

Lemma slice_all l : Py.slice l 0 (Py.len l) = l.
Proof.
  rewrite slice_inside by (pose proof (len_nonneg l); lia).
  simpl. rewrite Z.sub_0_r. unfold Py.len. rewrite Nat2Z.id.
  apply firstn_all.
Qed.

End slices.

Lemma range1_nat (n : Z) :
  Py.range1 n = map Z.of_nat (seq 0 (Z.to_nat n)).
Proof.
  unfold Py.range1, Py.range_elems, Py.range_len. simpl.
  replace (n - 0 + 1 - 1) with n by lia. rewrite Z.div_1_r.
  replace (Z.to_nat (Z.max 0 n)) with (Z.to_nat n) by lia.
  apply map_ext. intros k. lia.
Qed.

(** ** Running the monad *)

Lemma bind_ok {X A B} (m : M X A) (k : A -> M X B) w a w' :
  m w = (Ok a, w') -> bind m k w = k a w'.
Proof. intros H. unfold bind. rewrite H. reflexivity. Qed.

Lemma bind_raise {X A B} (m : M X A) (k : A -> M X B) w e w' :
  m w = (Raise e, w') -> bind m k w = (Raise e, w').
Proof. intros H. unfold bind. rewrite H. reflexivity. Qed.

Lemma handle_errors_id {X A} (message : string) (func : M X A) w :
  handle_errors message func w = func w.
Proof.
  unfold handle_errors, try_except, raise.
  destruct (func w) as [[a|e] w']; reflexivity.
Qed.

(** ** The document loader *)

Section loader.
Context {X : Externals}.

Lemma loader_load_ok path docs (w : World X) :
  pdfium_load X path = Ok docs ->
  loader_load path w =
  (Ok docs, record (EvPdfLoad path) w).
Proof.
  intros Hload. unfold loader_load, bind, log, lift_result. simpl.
  rewrite Hload. reflexivity.
Qed.

(** A worker loads the file and returns the pages of its range. *)
Lemma load_pdf_pages_run path docs s e (w : World X) :
  pdfium_load X path = Ok docs ->
  load_pdf_pages path (Some s) (Some e) w
  = (Ok (Py.slice docs s e), record (EvPdfLoad path) w).
Proof.
  intros Hload. unfold load_pdf_pages.
  rewrite (bind_ok _ _ _ _ _ (loader_load_ok path docs w Hload)). reflexivity.
Qed.

Lemma map_m_load_pages_run path docs ranges :
  pdfium_load X path = Ok docs ->
  forall w : World X,
    map_m (fun r => load_pdf_pages path (Some (fst r)) (Some (snd r))) ranges w
    = (Ok (map (slice_of docs) ranges),
       Build_World X (environ w) (config_cache w) (remote w)
                   (trace w ++ repeat (EvPdfLoad path) (length ranges))).
Proof.
  intros Hload. induction ranges as [|r rest IH]; intros w.
  - simpl. unfold ret. rewrite app_nil_r. destruct w; reflexivity.
  - cbn [map_m]. unfold bind at 1.
    rewrite (load_pdf_pages_run path docs (fst r) (snd r) w Hload).
    unfold bind at 1. rewrite IH. unfold bind, ret, record. simpl.
    rewrite <- app_assoc. reflexivity.
Qed.

(** The pool over any list of ranges, for a positive number of
    processes: the ranges are handed over, every worker loads the file,
    and the results come back in the order of the ranges. *)
Lemma pool_starmap_run path docs processes ranges (w : World X) :
  pdfium_load X path = Ok docs ->
  1 <= processes ->
  pool_starmap processes
    (fun r => load_pdf_pages path (Some (fst r)) (Some (snd r))) ranges w
  = (Ok (map (slice_of docs) ranges),
     Build_World X (environ w) (config_cache w) (remote w)
       (trace w ++ EvPool processes :: EvStarmap ranges
                     :: repeat (EvPdfLoad path) (length ranges))).
Proof.
  intros Hload Hpos. unfold pool_starmap.
  destruct (Z.ltb_spec processes 1); [lia|].
  unfold bind at 1, log at 1. cbv beta iota.
  unfold bind at 1, log at 1. cbv beta iota.
  rewrite (map_m_load_pages_run path docs ranges Hload).
  unfold record. simpl. rewrite <- !app_assoc. reflexivity.
Qed.

End loader.

Section partition.
Variable docs : list Document.
Variables P N q : Z.
Hypothesis HP : P = Py.len docs.
Hypothesis HN : 1 <= N.
Hypothesis HPN : N < P.
Hypothesis Hq : q = P / N.

Lemma pages_per_process_bounds : 1 <= q /\ N * q <= P.
Proof using HN HPN Hq.
  subst q. split.
  - apply Z.div_le_lower_bound; lia.
  - apply Z.mul_div_le. lia.
Qed.

(** The ranges, with the index running over natural numbers. *)
Lemma page_ranges_nat :
  page_ranges P N q =
  map (fun k : nat => (Z.of_nat k * q,
                       if Z.of_nat k <? N - 1 then (Z.of_nat k + 1) * q else P))
      (seq 0 (Z.to_nat N)).
Proof using Type.
  unfold page_ranges. rewrite range1_nat, map_map. reflexivity.
Qed.

Lemma page_ranges_length : length (page_ranges P N q) = Z.to_nat N.
Proof using Type.
  rewrite page_ranges_nat, length_map, length_seq. reflexivity.
Qed.

Lemma page_ranges_lookup (i : nat) :
  (i < Z.to_nat N)%nat ->
  page_ranges P N q !! i =
  Some (Z.of_nat i * q, if Z.of_nat i <? N - 1 then (Z.of_nat i + 1) * q else P).
Proof using Type.
  intros Hi. rewrite page_ranges_nat, list_lookup_fmap.
  rewrite lookup_seq_lt by lia. reflexivity.
Qed.

(** The first [m] full-width ranges load the first [m * q] pages. *)
Lemma full_ranges_concat (m : nat) :
  Z.of_nat m * q <= P ->
  concat (map (fun k : nat => Py.slice docs (Z.of_nat k * q) ((Z.of_nat k + 1) * q))
              (seq 0 m))
  = Py.slice docs 0 (Z.of_nat m * q).
Proof using HP HN HPN Hq.
  pose proof pages_per_process_bounds as [Hq1 _].
  induction m as [|m IH]; intros Hm.
  - simpl. rewrite slice_inside by (subst P; lia). reflexivity.
  - rewrite seq_S, map_app, concat_app, IH by nia.
    simpl. rewrite app_nil_r.
    replace (Z.of_nat m + 1) with (Z.of_nat (S m)) by lia.
    apply slice_chain; nia.
Qed.

Lemma page_ranges_concat :
  concat (map (slice_of docs) (page_ranges P N q)) = docs.
Proof using HP HN HPN Hq.
  pose proof pages_per_process_bounds as [Hq1 HNq].
  rewrite page_ranges_nat, map_map.
  destruct (Z.to_nat N) as [|m] eqn:Hm; [lia|].
  rewrite seq_S, map_app, concat_app. simpl. rewrite app_nil_r.
  unfold slice_of at 2. simpl.
  destruct (Z.ltb_spec (Z.of_nat m) (N - 1)); [lia|].
  erewrite map_ext_in.
  - rewrite (full_ranges_concat m) by nia.
    rewrite slice_chain by nia.
    subst P. apply slice_all.
  - intros k Hk. apply in_seq in Hk. unfold slice_of. simpl.
    destruct (Z.ltb_spec (Z.of_nat k) (N - 1)); [reflexivity|lia].
Qed.

End partition.

Section load_pdf_facts.
Context {X : Externals}.

(** What [load_pdf] is once the configuration is there and the file
    exists: one load, and for more pages than processes the pool over
    the page ranges. *)
Lemma load_pdf_unfold path config c (w w1 : World X) :
  config_or_default config w = (Ok c, w1) ->
  path_exists X path = true ->
  load_pdf path config w =
  (temp_docs <- loader_load path ;;
   (if Py.len temp_docs <=? max_processes c
    then ret temp_docs
    else
      pages_per_process <- floordiv (Py.len temp_docs) (max_processes c) ;;
      results <- pool_starmap (max_processes c)
                   (fun r => load_pdf_pages path (Some (fst r)) (Some (snd r)))
                   (page_ranges (Py.len temp_docs) (max_processes c)
                                pages_per_process) ;;
      ret (concat results))) w1.
Proof.
  intros Hcfg Hex. unfold load_pdf. rewrite handle_errors_id.
  rewrite (bind_ok _ _ _ _ _ Hcfg), Hex. reflexivity.
Qed.

(** The run of [load_pdf] on a file with more pages than processes: the
    value is the concatenation of the workers' results. *)
Lemma load_pdf_large path config c docs (w w1 : World X) :
  config_or_default config w = (Ok c, w1) ->
  path_exists X path = true ->
  pdfium_load X path = Ok docs ->
  1 <= max_processes c ->
  max_processes c < Py.len docs ->
  let ranges := page_ranges (Py.len docs) (max_processes c)
                            (Py.len docs / max_processes c) in
  load_pdf path config w =
  (Ok (concat (map (slice_of docs) ranges)),
   Build_World X (environ w1) (config_cache w1) (remote w1)
     (trace w1 ++ EvPdfLoad path :: EvPool (max_processes c) :: EvStarmap ranges
               :: repeat (EvPdfLoad path) (length ranges))).
Proof.
  intros Hcfg Hex Hload HN HPN ranges.
  rewrite (load_pdf_unfold path config c w w1 Hcfg Hex).
  rewrite (bind_ok _ _ _ _ _ (loader_load_ok path docs w1 Hload)).
  destruct (Z.leb_spec (Py.len docs) (max_processes c)); [lia|].
  unfold floordiv.
  destruct (Z.eqb_spec (max_processes c) 0); [lia|].
  unfold bind at 1, ret at 1.
  unfold bind at 1.
  rewrite (pool_starmap_run path docs (max_processes c) _ _ Hload HN).
  unfold ret, record. simpl. fold ranges.
  rewrite <- !app_assoc. reflexivity.
Qed.

(** The run of [load_pdf] on a file that exists and loads, for a
    positive number of processes. *)
Lemma load_pdf_run path config c docs (w w1 : World X) :
  config_or_default config w = (Ok c, w1) ->
  path_exists X path = true ->
  pdfium_load X path = Ok docs ->
  1 <= max_processes c ->
  load_pdf path config w =
  (Ok docs,
   Build_World X (environ w1) (config_cache w1) (remote w1)
     (trace w1 ++
      if Py.len docs <=? max_processes c
      then [EvPdfLoad path]
      else EvPdfLoad path :: EvPool (max_processes c)
             :: EvStarmap (page_ranges (Py.len docs) (max_processes c)
                                       (Py.len docs / max_processes c))
             :: repeat (EvPdfLoad path) (Z.to_nat (max_processes c)))).
Proof.
  intros Hcfg Hex Hload HN.
  destruct (Z.leb_spec (Py.len docs) (max_processes c)) as [Hsmall|Hlarge].
  - rewrite (load_pdf_unfold path config c w w1 Hcfg Hex).
    rewrite (bind_ok _ _ _ _ _ (loader_load_ok path docs w1 Hload)).
    destruct (Z.leb_spec (Py.len docs) (max_processes c)); [|lia].
    reflexivity.
  - rewrite (load_pdf_large path config c docs w w1) by assumption.
    rewrite (page_ranges_concat docs (Py.len docs) (max_processes c)
               (Py.len docs / max_processes c)) by (auto; lia).
    rewrite page_ranges_length. reflexivity.
Qed.

End load_pdf_facts.

(** C1. With [N = max_processes >= 1] and more pages than processes
    ([P > N]), [load_pdf] cuts the page indices into the [N] ranges
    [[i * (P / N), (i + 1) * (P / N))], the last one running to [P]; the
    ranges follow one another without gap or overlap inside [[0, P]].
    These are the ranges [load_pdf] hands to the pool; the worker of a
    range returns the pages of that range; and [load_pdf] returns the
    concatenation of the workers' results in the order of the ranges,
    which is the page sequence of a single load of the whole file. *)
Theorem load_pdf_partition_refines
    (X : Externals) (w w1 : World X) (path : string) (config : option Config)
    (c : Config) (docs : list Document) :
  config_or_default config w = (Ok c, w1) ->
  path_exists X path = true ->
  pdfium_load X path = Ok docs ->
  1 <= max_processes c ->
  max_processes c < Py.len docs ->
  let P := Py.len docs in
  let N := max_processes c in
  let q := P / N in
  let ranges := page_ranges P N q in
  length ranges = Z.to_nat N /\
  (forall i, 0 <= i < N - 1 -> ranges !! Z.to_nat i = Some (i * q, (i + 1) * q)) /\
  ranges !! Z.to_nat (N - 1) = Some ((N - 1) * q, P) /\
  (forall (i : nat) a b,
      ranges !! i = Some a -> ranges !! S i = Some b -> snd a = fst b) /\
  (forall r, In r ranges -> 0 <= fst r /\ fst r < snd r /\ snd r <= P) /\
  concat (map (slice_of docs) ranges) = docs /\
  fst (load_pdf_pages path None None w1) = Ok docs /\
  (forall (r : Z * Z) (w0 : World X),
      load_pdf_pages path (Some (fst r)) (Some (snd r)) w0
      = (Ok (slice_of docs r), record (EvPdfLoad path) w0)) /\
  trace (snd (load_pdf path config w)) =
    trace w1 ++ EvPdfLoad path :: EvPool N :: EvStarmap ranges
             :: repeat (EvPdfLoad path) (length ranges) /\
  fst (load_pdf path config w) = Ok (concat (map (slice_of docs) ranges)) /\
  fst (load_pdf path config w) = Ok docs.
Proof.
  intros Hcfg Hex Hload HN HPN P N q ranges.
  assert (Hb : 1 <= q /\ N * q <= P)
    by (apply (pages_per_process_bounds P N q); subst P N q; auto).
  destruct Hb as [Hq1 HNq].
  assert (Hlook : forall i : nat, (i < Z.to_nat N)%nat ->
            ranges !! i = Some (Z.of_nat i * q,
                                if Z.of_nat i <? N - 1 then (Z.of_nat i + 1) * q else P))
    by (intros i Hi; apply page_ranges_lookup; exact Hi).
  assert (Hlen : length ranges = Z.to_nat N) by apply page_ranges_length.
  assert (Hcat : concat (map (slice_of docs) ranges) = docs)
    by (apply page_ranges_concat; subst P N q; auto).
  pose proof (load_pdf_large path config c docs w w1 Hcfg Hex Hload HN HPN) as Hrun.
  cbv zeta in Hrun. fold P N q ranges in Hrun.
  repeat split.
  - exact Hlen.
  - intros i Hi. rewrite Hlook by lia. rewrite Z2Nat.id by lia.
    destruct (Z.ltb_spec i (N - 1)); [reflexivity|lia].
  - rewrite Hlook by lia. rewrite Z2Nat.id by lia.
    destruct (Z.ltb_spec (N - 1) (N - 1)); [lia|reflexivity].
  - intros i a b Ha Hb.
    assert (Hi : (S i < Z.to_nat N)%nat)
      by (rewrite <- Hlen; eapply lookup_lt_Some; exact Hb).
    rewrite Hlook in Ha by lia. rewrite Hlook in Hb by lia.
    injection Ha as <-. injection Hb as <-. simpl.
    destruct (Z.ltb_spec (Z.of_nat i) (N - 1)); lia.
  - apply list_elem_of_In, list_elem_of_lookup in H as [i Hi].
    assert (Hlt : (i < Z.to_nat N)%nat)
      by (rewrite <- Hlen; eapply lookup_lt_Some; exact Hi).
    rewrite Hlook in Hi by lia. injection Hi as <-. simpl. nia.
  - apply list_elem_of_In, list_elem_of_lookup in H as [i Hi].
    assert (Hlt : (i < Z.to_nat N)%nat)
      by (rewrite <- Hlen; eapply lookup_lt_Some; exact Hi).
    rewrite Hlook in Hi by lia. injection Hi as <-. simpl.
    destruct (Z.ltb_spec (Z.of_nat i) (N - 1)); nia.
  - apply list_elem_of_In, list_elem_of_lookup in H as [i Hi].
    assert (Hlt : (i < Z.to_nat N)%nat)
      by (rewrite <- Hlen; eapply lookup_lt_Some; exact Hi).
    rewrite Hlook in Hi by lia. injection Hi as <-. simpl.
    destruct (Z.ltb_spec (Z.of_nat i) (N - 1)); nia.
  - exact Hcat.
  - unfold load_pdf_pages.
    rewrite (bind_ok _ _ _ _ _ (loader_load_ok path docs w1 Hload)). reflexivity.
  - intros r w0. apply load_pdf_pages_run. exact Hload.
  - rewrite Hrun. reflexivity.
  - rewrite Hrun. reflexivity.
  - rewrite Hrun. simpl. f_equal. exact Hcat.
Qed.

Lemma load_pdf_partition_refines_witness :
  page_ranges 3 2 1 = [(0, 1); (1, 3)] /\
  trace (snd (load_pdf (X := Toy.world) "guide.pdf" (Some Toy.config) (Toy.start ∅ [])))
  = [ EvPdfLoad "guide.pdf"; EvPool 2; EvStarmap [(0, 1); (1, 3)];
      EvPdfLoad "guide.pdf"; EvPdfLoad "guide.pdf" ] /\
  fst (load_pdf (X := Toy.world) "guide.pdf" (Some Toy.config) (Toy.start ∅ []))
  = Ok Toy.guide.
Proof.
  split; [reflexivity|].
  pose proof (load_pdf_partition_refines Toy.world (Toy.start ∅ []) (Toy.start ∅ [])
                "guide.pdf" (Some Toy.config) Toy.config Toy.guide
                eq_refl eq_refl eq_refl ltac:(simpl; lia)
                ltac:(unfold Py.len; simpl; lia))
    as (_ & _ & _ & _ & _ & _ & _ & _ & Htrace & _ & Hdocs).
  split; [|exact Hdocs].
  rewrite Htrace. reflexivity.
Defined.

(** ** The batch uploader *)

Section uploader.
Context {X : Externals}.
Variable vectorstore : VectorStore X.
Variable documents : list Document.
Variable size : Z.

Local Abbreviation batch_at := (batch_at documents size).

Lemma add_documents_run batch (w : World X) :
  add_documents vectorstore batch w =
  (fst (vs_add_documents X vectorstore batch (remote w)),
   with_remote (snd (vs_add_documents X vectorstore batch (remote w)))
               (record (EvAddDocuments batch) w)).
Proof.
  unfold add_documents, call, bind, log. simpl.
  destruct (vs_add_documents X vectorstore batch (remote w)); reflexivity.
Qed.

(** One iteration: the counters move by the batch's outcome, the store
    moves as the attempts drive it, and the trace grows by the batch's
    actions. *)
Lemma upload_batch_run i counters (w : World X) :
  upload_batch vectorstore documents size i counters w =
  (Ok (tally (fst (attempt vectorstore (batch_at i) (remote w))) (batch_at i) counters),
   Build_World X (environ w) (config_cache w)
     (snd (attempt vectorstore (batch_at i) (remote w)))
     (trace w ++ batch_events (batch_at i)
                   (fst (attempt vectorstore (batch_at i) (remote w))))).
Proof.
  destruct counters as [s f].
  unfold upload_batch. change (Py.slice documents i (i + size)) with (batch_at i).
  unfold try_except at 1. unfold bind at 1.
  rewrite add_documents_run. unfold attempt.
  destruct (vs_add_documents X vectorstore (batch_at i) (remote w))
    as [[[]|e1] rem1]; simpl.
  - unfold record, with_remote. simpl. rewrite <- !app_assoc. reflexivity.
  - unfold try_except, bind. simpl.
    rewrite add_documents_run. simpl.
    destruct (vs_add_documents X vectorstore (batch_at i) rem1)
      as [[[]|e2] rem2]; simpl.
    + unfold tally, record, with_remote. simpl. rewrite <- !app_assoc. simpl.
      do 2 f_equal. f_equal. lia.
    + unfold tally, record, with_remote, ret. simpl. rewrite <- !app_assoc.
      reflexivity.
Qed.

Lemma for_each_upload_run indices :
  forall s f (w : World X),
    for_each indices (upload_batch vectorstore documents size) (s, f) w =
    (Ok (s + uploaded (fst (attempts vectorstore (map batch_at indices) (remote w))),
         f + refused (fst (attempts vectorstore (map batch_at indices) (remote w)))),
     Build_World X (environ w) (config_cache w)
       (snd (attempts vectorstore (map batch_at indices) (remote w)))
       (trace w ++ log_events
                     (fst (attempts vectorstore (map batch_at indices) (remote w))))).
Proof.
  induction indices as [|i rest IH]; intros s f w.
  - simpl. unfold ret, log_events. simpl. rewrite app_nil_r, !Z.add_0_r.
    destruct w; reflexivity.
  - cbn [for_each]. unfold bind. rewrite upload_batch_run.
    simpl map. simpl attempts.
    destruct (attempt vectorstore (batch_at i) (remote w)) as [o rem1].
    unfold tally. simpl fst. simpl snd.
    destruct (is_failed o) eqn:Ho; rewrite IH; simpl;
      destruct (attempts vectorstore (map batch_at rest) rem1) as [log rem2];
      simpl; rewrite Ho; unfold log_events; simpl;
      rewrite <- !app_assoc; do 2 f_equal; f_equal; lia.
Qed.

End uploader.

Section slices_clipped.
Context {A : Type}.
Implicit Types (l : list A).

Lemma slice_clip l (a b : Z) :
  0 <= a -> a <= b ->
  Py.slice l a b = Py.slice l (Z.min a (Py.len l)) (Z.min b (Py.len l)).
Proof.
  intros Ha Hab. pose proof (len_nonneg l) as Hn.
  unfold Py.slice, Py.clamp.
  destruct (Z.ltb_spec a 0); [lia|].
  destruct (Z.ltb_spec b 0); [lia|].
  destruct (Z.ltb_spec (Z.min a (Py.len l)) 0); [lia|].
  destruct (Z.ltb_spec (Z.min b (Py.len l)) 0); [lia|].
  rewrite !(Z.min_l (Z.min _ _) (Py.len l)) by lia. reflexivity.
Qed.

Lemma slice_chain_clipped l (a b c : Z) :
  0 <= a -> a <= b -> b <= c ->
  Py.slice l a b ++ Py.slice l b c = Py.slice l a c.
Proof.
  intros Ha Hab Hbc. pose proof (len_nonneg l) as Hn.
  rewrite (slice_clip l a b), (slice_clip l b c), (slice_clip l a c) by lia.
  apply slice_chain; lia.
Qed.

Lemma slice_beyond l (c : Z) : Py.len l <= c -> Py.slice l 0 c = l.
Proof.
  intros Hc. pose proof (len_nonneg l) as Hn.
  rewrite slice_clip by lia.
  rewrite Z.min_l, Z.min_r by lia. apply slice_all.
Qed.

End slices_clipped.

(** ** The batches of a chunk sequence *)

Section batching.
Variable documents : list Document.
Variable size : Z.

Lemma range_negative_step :
  size < 0 -> Py.range_elems 0 (Py.len documents) size = [].
Proof using Type.
  intros Hs. pose proof (len_nonneg documents) as Hn.
  unfold Py.range_elems, Py.range_len.
  destruct (Z.ltb_spec 0 size); [lia|].
  assert (Hd : (0 - Py.len documents - size - 1) / - size <= 0).
  { apply Z.lt_succ_r. apply Z.div_lt_upper_bound; lia. }
  replace (Z.to_nat _) with 0%nat by lia. reflexivity.
Qed.

Hypothesis Hsize : 1 <= size.

(** [range(0, n, size)] is [0, size, 2 * size, ...], one index per batch. *)
Lemma range_positive_step :
  Py.range_elems 0 (Py.len documents) size =
  map (fun k : nat => Z.of_nat k * size)
      (seq 0 (Z.to_nat ((Py.len documents + size - 1) / size))).
Proof using Hsize.
  pose proof (len_nonneg documents) as Hn.
  unfold Py.range_elems, Py.range_len.
  destruct (Z.ltb_spec 0 size); [|lia].
  rewrite Z.sub_0_r.
  assert (0 <= (Py.len documents + size - 1) / size)
    by (apply Z.div_pos; lia).
  rewrite Z.max_r by lia. apply map_ext. intros k. lia.
Qed.

Lemma batch_count_bounds :
  let k := (Py.len documents + size - 1) / size in
  0 <= k /\ Py.len documents <= k * size /\ (k - 1) * size < Py.len documents.
Proof using Hsize.
  intros k. pose proof (len_nonneg documents) as Hn.
  pose proof (Z.div_mod (Py.len documents + size - 1) size ltac:(lia)) as Hdm.
  pose proof (Z.mod_pos_bound (Py.len documents + size - 1) size ltac:(lia)) as Hm.
  fold k in Hdm.
  assert (0 <= k) by (apply Z.div_pos; lia).
  repeat split; nia.
Qed.

Lemma full_batches_concat (m : nat) :
  concat (map (fun k : nat => batch_at documents size (Z.of_nat k * size)) (seq 0 m))
  = Py.slice documents 0 (Z.of_nat m * size).
Proof using Hsize.
  induction m as [|m IH].
  - simpl. rewrite slice_inside by (pose proof (len_nonneg documents); lia).
    reflexivity.
  - rewrite seq_S, map_app, concat_app, IH. simpl. rewrite app_nil_r.
    unfold batch_at.
    replace (Z.of_nat m * size + size) with (Z.of_nat (S m) * size) by lia.
    apply slice_chain_clipped; nia.
Qed.

(** The batches are consecutive pieces of the sequence: put back
    together they are the sequence. *)
Lemma batches_concat : concat (batches documents size) = documents.
Proof using Hsize.
  pose proof batch_count_bounds as (Hk & Hhi & _).
  unfold batches. rewrite range_positive_step, map_map.
  rewrite full_batches_concat.
  apply slice_beyond. lia.
Qed.

Lemma batches_nonempty batch : In batch (batches documents size) -> 1 <= Py.len batch.
Proof using Hsize.
  pose proof batch_count_bounds as (Hk & _ & Hlo).
  unfold batches. rewrite range_positive_step, map_map.
  intros Hin. apply in_map_iff in Hin as (j & <- & Hj).
  apply in_seq in Hj. unfold batch_at.
  rewrite slice_length by nia. nia.
Qed.

End batching.

(** ** The tallies of a run *)

Section tallies.
Context {X : Externals}.
Variable vectorstore : VectorStore X.

Lemma attempts_batches batches (rem : Remote X) :
  map fst (fst (attempts vectorstore batches rem)) = batches.
Proof.
  revert rem. induction batches as [|batch rest IH]; intros rem; [reflexivity|].
  simpl. destruct (attempt vectorstore batch rem) as [o rem1].
  specialize (IH rem1).
  destruct (attempts vectorstore rest rem1) as [log rem2].
  simpl in *. f_equal. exact IH.
Qed.

Lemma tallies_nonneg log : 0 <= uploaded log /\ 0 <= refused log.
Proof.
  induction log as [|[batch o] rest [IHu IHr]]; simpl; [lia|].
  pose proof (len_nonneg batch). destruct (is_failed o); lia.
Qed.

(** Every chunk of every batch is in exactly one of the two tallies. *)
Lemma tallies_sum log :
  uploaded log + refused log = Py.len (concat (map fst log)).
Proof.
  induction log as [|[batch o] rest IH]; simpl; [reflexivity|].
  unfold Py.len in *. rewrite length_app.
  destruct (is_failed o); lia.
Qed.

Lemma refused_zero log :
  (forall batch, In batch (map fst log) -> 1 <= Py.len batch) ->
  refused log = 0 <-> (forall batch o, In (batch, o) log -> o <> Failed).
Proof.
  induction log as [|[batch o] rest IH]; intros Hne; simpl.
  - split; [intros _ ? ? []|reflexivity].
  - pose proof (tallies_nonneg rest) as [_ Hr].
    assert (Hb : 1 <= Py.len batch) by (apply Hne; left; reflexivity).
    assert (Hrest : forall b, In b (map fst rest) -> 1 <= Py.len b)
      by (intros b Hb'; apply Hne; right; exact Hb').
    specialize (IH Hrest).
    destruct o; simpl; split.
    + intros H0 b o' [[= <- <-]|Hin]; [discriminate|].
      apply (proj1 IH) with (batch := b); [lia|exact Hin].
    + intros Hall. apply IH. intros b o' Hin. apply (Hall b o'). right. exact Hin.
    + intros H0 b o' [[= <- <-]|Hin]; [discriminate|].
      apply (proj1 IH) with (batch := b); [lia|exact Hin].
    + intros Hall. apply IH. intros b o' Hin. apply (Hall b o'). right. exact Hin.
    + intros H0. lia.
    + intros Hall. exfalso. apply (Hall batch Failed); [left|]; reflexivity.
Qed.

Lemma upload_counters_run documents size (w : World X) :
  size <> 0 ->
  upload_counters vectorstore documents size w =
  (Ok (uploaded (fst (attempts vectorstore (batches documents size) (remote w))),
       refused (fst (attempts vectorstore (batches documents size) (remote w)))),
   Build_World X (environ w) (config_cache w)
     (snd (attempts vectorstore (batches documents size) (remote w)))
     (trace w ++ log_events
                   (fst (attempts vectorstore (batches documents size) (remote w))))).
Proof.
  intros Hsize. unfold upload_counters, range.
  destruct (Z.eqb_spec size 0); [contradiction|].
  unfold bind at 1, ret at 1.
  rewrite for_each_upload_run. reflexivity.
Qed.

(** With a step of zero [range] raises before any batch is built. *)
Lemma upload_in_batches_zero_step documents (w : World X) :
  upload_in_batches vectorstore documents 0 w =
  (Raise (Exn ValueError "range() arg 3 must not be zero"), w).
Proof. reflexivity. Qed.

Lemma batches_nonempty_any documents size batch :
  size <> 0 -> In batch (batches documents size) -> 1 <= Py.len batch.
Proof.
  intros Hsize. destruct (Z.lt_ge_cases size 0) as [Hneg|Hpos].
  - unfold batches. rewrite range_negative_step by exact Hneg. intros [].
  - apply batches_nonempty. lia.
Qed.

End tallies.

(** C2. A batch whose first insert is refused and whose retry goes
    through adds its length to [successful] and nothing to [failed]; a
    batch refused twice adds its length to [failed], once; and whatever
    the outcomes, the run goes on to submit every batch, in order, and
    ends with the two sums. *)
Theorem upload_retry_law
    (X : Externals) (vectorstore : VectorStore X) (documents : list Document)
    (size : Z) (w : World X) :
  size <> 0 ->
  let log := fst (attempts vectorstore (batches documents size) (remote w)) in
  (forall i counters (w0 : World X),
      let batch := batch_at documents size i in
      fst (upload_batch vectorstore documents size i counters w0) =
      Ok (match fst (attempt vectorstore batch (remote w0)) with
          | FirstTry | Retried => (fst counters + Py.len batch, snd counters)
          | Failed => (fst counters, snd counters + Py.len batch)
          end)) /\
  map fst log = batches documents size /\
  (forall batch, In batch (batches documents size) ->
     In (EvAddDocuments batch)
        (trace (snd (upload_counters vectorstore documents size w)))) /\
  fst (upload_counters vectorstore documents size w) = Ok (uploaded log, refused log).
Proof.
  intros Hsize log. repeat split.
  - intros i counters w0 batch. rewrite upload_batch_run. simpl. fold batch.
    unfold tally. destruct (fst (attempt vectorstore batch (remote w0))); reflexivity.
  - apply attempts_batches.
  - intros batch Hin. rewrite upload_counters_run by exact Hsize. simpl.
    fold log. apply in_or_app. right.
    rewrite <- (attempts_batches vectorstore (batches documents size) (remote w)) in Hin.
    fold log in Hin. apply in_map_iff in Hin as ([b o] & <- & Hbo).
    unfold log_events. apply in_concat.
    exists (batch_events b o). split.
    + apply in_map_iff. exists (b, o). split; [reflexivity|exact Hbo].
    + destruct o; left; reflexivity.
  - rewrite upload_counters_run by exact Hsize. reflexivity.
Qed.

Lemma upload_retry_law_witness :
  fst (upload_counters (X := Toy.world) tt Toy.guide 1
                       (Toy.start ∅ [false; true; false; false; true]))
  = Ok (2, 1).
Proof.
  refine (eq_trans (proj2 (proj2 (proj2
    (upload_retry_law Toy.world tt Toy.guide 1
       (Toy.start ∅ [false; true; false; false; true]) _))) ) _).
  - discriminate.
  - reflexivity.
Defined.

(** C3 does not hold for a batch size of zero: no batch is built, so
    none fails, and yet [upload_in_batches] does not return [True]: the
    [range] of the loop raises [ValueError] before anything is
    submitted. *)
Lemma upload_with_batch_size_zero :
  batches Toy.guide 0 = [] /\
  fst (attempts (X := Toy.world) tt (batches Toy.guide 0) (remote (Toy.start ∅ []))) = [] /\
  upload_in_batches (X := Toy.world) tt Toy.guide 0 (Toy.start ∅ [])
  = (Raise (Exn ValueError "range() arg 3 must not be zero"), Toy.start ∅ []) /\
  fst (upload_in_batches (X := Toy.world) tt Toy.guide 0 (Toy.start ∅ [])) <> Ok true.
Proof.
  split; [reflexivity|]. split; [reflexivity|]. split; [reflexivity|].
  discriminate.
Qed.

(** C3, as the code has it.  For every [batch_size] other than zero,
    [upload_in_batches] returns, and what it returns is [True] exactly
    when no batch was refused twice. *)
Theorem upload_in_batches_true_iff
    (X : Externals) (vectorstore : VectorStore X) (documents : list Document)
    (size : Z) (w : World X) :
  size <> 0 ->
  let log := fst (attempts vectorstore (batches documents size) (remote w)) in
  exists b : bool,
    fst (upload_in_batches vectorstore documents size w) = Ok b /\
    (b = true <-> forall batch o, In (batch, o) log -> o <> Failed).
Proof.
  intros Hsize log.
  exists (refused log =? 0). split.
  - unfold upload_in_batches, bind.
    rewrite upload_counters_run by exact Hsize. reflexivity.
  - rewrite Z.eqb_eq. apply refused_zero.
    unfold log. rewrite attempts_batches.
    intros batch. apply batches_nonempty_any. exact Hsize.
Qed.

Lemma upload_in_batches_true_iff_witness :
  exists b : bool,
    fst (upload_in_batches (X := Toy.world) tt Toy.guide 2
                           (Toy.start ∅ [false; true; true])) = Ok b /\
    (b = true <->
     forall batch o,
       In (batch, o)
          (fst (attempts (X := Toy.world) tt (batches Toy.guide 2)
                         (remote (Toy.start ∅ [false; true; true])))) ->
       o <> Failed).
Proof.
  apply (upload_in_batches_true_iff Toy.world tt Toy.guide 2
           (Toy.start ∅ [false; true; true])).
  discriminate.
Defined.

(** C9. For every chunk sequence, every [batch_size >= 1] and every
    behaviour of the vector store, the upload loop ends with
    [successful + failed = len(documents)]: the two counters are the
    chunks of the batches that went through and of those refused twice,
    and the batches cut the sequence into consecutive pieces. *)
Theorem upload_counts_every_chunk_once
    (X : Externals) (vectorstore : VectorStore X) (documents : list Document)
    (size : Z) (w : World X) :
  1 <= size ->
  let log := fst (attempts vectorstore (batches documents size) (remote w)) in
  exists successful failed : Z,
    fst (upload_counters vectorstore documents size w) = Ok (successful, failed) /\
    successful = uploaded log /\
    failed = refused log /\
    0 <= successful /\ 0 <= failed /\
    concat (map fst log) = documents /\
    successful + failed = Py.len documents.
Proof.
  intros Hsize log.
  exists (uploaded log), (refused log).
  pose proof (tallies_nonneg log) as [Hu Hr].
  assert (Hcat : concat (map fst log) = documents).
  { unfold log. rewrite attempts_batches. apply batches_concat. exact Hsize. }
  repeat split; try assumption.
  - rewrite upload_counters_run by lia. reflexivity.
  - rewrite tallies_sum, Hcat. reflexivity.
Qed.

Lemma upload_counts_every_chunk_once_witness :
  exists successful failed : Z,
    fst (upload_counters (X := Toy.world) tt Toy.guide 2
                         (Toy.start ∅ [false; false; true])) = Ok (successful, failed) /\
    successful + failed = 3.
Proof.
  destruct (upload_counts_every_chunk_once Toy.world tt Toy.guide 2
              (Toy.start ∅ [false; false; true]) ltac:(lia))
    as (s & f & Hrun & _ & _ & _ & _ & _ & Hsum).
  exists s, f. split; [exact Hrun|exact Hsum].
Defined.

(** Case analysis on how a list variable [l] can be a prefix of the
    concrete list on the left of [H : concrete = l ++ rest]. *)
Ltac split_prefix l H :=
  destruct l as [|? l]; simpl in H;
  [ | first [ discriminate H | injection H as <- H; split_prefix l H ] ].

(** A run without refusals does pause before every next batch. *)
Example paused_when_nothing_is_refused :
  paused_between_batches
    (trace (snd (upload_in_batches (X := Toy.world) tt Toy.guide 2 (Toy.start ∅ [])))).
Proof.
  change (paused_between_batches
            [ EvAddDocuments [Toy.page "one"; Toy.page "two"]; EvGcCollect; EvSleep 100;
              EvAddDocuments [Toy.page "three"]; EvGcCollect; EvSleep 100 ]).
  intros pre b1 mid b2 post Htr Hne.
  split_prefix pre Htr; try discriminate Htr; injection Htr as <- Htr;
    split_prefix mid Htr; try discriminate Htr.
  exists 100. simpl. tauto.
Qed.

(** C6.  The pause is missing after a batch whose first insert is
    refused.  With three one-chunk batches and the first insert refused,
    the retry of the first batch is followed at once by the submission
    of the second, whether the retry is refused as well (first run) or
    goes through (second run); a batch accepted at once is followed by
    the pause of 100 ms.  The backoff before the retry is 500 ms. *)
Lemma no_pause_after_refused_batch :
  trace (snd (upload_in_batches (X := Toy.world) tt Toy.guide 1
                                (Toy.start ∅ [false; false])))
  = [ EvAddDocuments [Toy.page "one"]; EvSleep 500; EvAddDocuments [Toy.page "one"];
      EvAddDocuments [Toy.page "two"]; EvGcCollect; EvSleep 100;
      EvAddDocuments [Toy.page "three"]; EvGcCollect; EvSleep 100 ]
  /\ ~ paused_between_batches
         (trace (snd (upload_in_batches (X := Toy.world) tt Toy.guide 1
                                        (Toy.start ∅ [false; false]))))
  /\ upload_in_batches (X := Toy.world) tt Toy.guide 1 (Toy.start ∅ [false; true])
     = (Ok true,
        Build_World Toy.world ∅ None Sample.idle
          [ EvAddDocuments [Toy.page "one"]; EvSleep 500; EvAddDocuments [Toy.page "one"];
            EvAddDocuments [Toy.page "two"]; EvGcCollect; EvSleep 100;
            EvAddDocuments [Toy.page "three"]; EvGcCollect; EvSleep 100 ])
  /\ ~ paused_between_batches
         (trace (snd (upload_in_batches (X := Toy.world) tt Toy.guide 1
                                        (Toy.start ∅ [false; true])))).
Proof.
  assert (Hgap : ~ paused_between_batches
            [ EvAddDocuments [Toy.page "one"]; EvSleep 500; EvAddDocuments [Toy.page "one"];
              EvAddDocuments [Toy.page "two"]; EvGcCollect; EvSleep 100;
              EvAddDocuments [Toy.page "three"]; EvGcCollect; EvSleep 100 ]).
  { intros Hpaused.
    destruct (Hpaused
                [EvAddDocuments [Toy.page "one"]; EvSleep 500]
                [Toy.page "one"] [] [Toy.page "two"]
                [EvGcCollect; EvSleep 100;
                 EvAddDocuments [Toy.page "three"]; EvGcCollect; EvSleep 100]
                eq_refl) as [ms []].
    intros Heq. inversion Heq. }
  split; [reflexivity|]. split; [exact Hgap|]. split; [reflexivity|exact Hgap].
Qed.

(** The actions of every batch.  A batch whose first insert goes through
    is followed by the fixed pause (100 ms); a batch whose first insert
    is refused waits the backoff (500 ms, longer than the pause) and is
    submitted once more. *)
Lemma upload_batch_actions
    (X : Externals) (vectorstore : VectorStore X) (documents : list Document)
    (size : Z) (w : World X) :
  size <> 0 ->
  let log := fst (attempts vectorstore (batches documents size) (remote w)) in
  (forall i counters (w0 : World X),
      let batch := batch_at documents size i in
      trace (snd (upload_batch vectorstore documents size i counters w0)) =
      trace w0 ++ batch_events batch (fst (attempt vectorstore batch (remote w0)))) /\
  trace (snd (upload_counters vectorstore documents size w)) = trace w ++ log_events log.
Proof.
  intros Hsize log. split.
  - intros i counters w0 batch. rewrite upload_batch_run. reflexivity.
  - rewrite upload_counters_run by exact Hsize. reflexivity.
Qed.

(** ** Configuration and environment *)

Section quiet_facts.
Context {X : Externals}.

Lemma quiet_ret {A} (a : A) : quiet (X := X) (ret a).
Proof. intros w. auto. Qed.

Lemma quiet_raise {A} e : quiet (X := X) (A := A) (raise e).
Proof. intros w. auto. Qed.

Lemma quiet_bind {A B} (m : M X A) (k : A -> M X B) :
  quiet m -> (forall a, quiet (k a)) -> quiet (bind m k).
Proof.
  intros Hm Hk w. unfold bind.
  destruct (Hm w) as (Ht & Hr & He).
  destruct (m w) as [[a|e] w1]; simpl in *; [|auto].
  destruct (Hk a w1) as (Ht' & Hr' & He').
  repeat split; try congruence.
  intros var Hvar. rewrite He', He by exact Hvar. reflexivity.
Qed.

Lemma quiet_getenv key : quiet (X := X) (getenv key).
Proof. intros w. auto. Qed.

Lemma quiet_getenv_default key default : quiet (X := X) (getenv_default key default).
Proof. apply quiet_bind; [apply quiet_getenv|intros; apply quiet_ret]. Qed.

Lemma quiet_getenv_int key default : quiet (X := X) (getenv_int key default).
Proof.
  apply quiet_bind; [apply quiet_getenv_default|].
  intros s. unfold int_of_str.
  destruct (py_int X s); [apply quiet_ret|apply quiet_raise].
Qed.

Lemma quiet_setenv key value : ~ In key required -> quiet (X := X) (setenv key value).
Proof.
  intros Hkey w. simpl. repeat split.
  intros var Hvar. apply lookup_insert_ne. intros ->. contradiction.
Qed.

Lemma not_required key : forallb (fun var => negb (String.eqb var key)) required = true ->
                         ~ In key required.
Proof.
  intros Hall Hin. rewrite forallb_forall in Hall.
  specialize (Hall key Hin). rewrite String.eqb_refl in Hall. discriminate.
Qed.

Lemma quiet_setup_environment self : quiet (X := X) (setup_environment self).
Proof.
  unfold setup_environment.
  repeat (apply quiet_bind; [|intros _]);
    apply quiet_setenv; apply not_required; reflexivity.
Qed.

Lemma quiet_Config_new : quiet (X := X) Config_new.
Proof.
  unfold Config_new.
  repeat (apply quiet_bind;
          [first [apply quiet_getenv_default | apply quiet_getenv_int
                 | apply quiet_setup_environment]
          |intros ?]).
  apply quiet_ret.
Qed.

Lemma quiet_get_config : quiet (X := X) get_config.
Proof.
  intros w. unfold get_config.
  destruct (config_cache w); [auto|].
  pose proof (quiet_Config_new w) as H.
  destruct (Config_new w) as [[c|e] w1]; exact H.
Qed.

Lemma quiet_config_or_default config : quiet (X := X) (config_or_default config).
Proof. destruct config; [apply quiet_ret|apply quiet_get_config]. Qed.

Lemma missing_in_ext (env1 env2 : gmap string string) :
  (forall var, In var required -> env1 !! var = env2 !! var) ->
  missing_in env1 = missing_in env2.
Proof.
  intros Hext. unfold missing_in. apply List.filter_ext_in.
  intros var Hvar. rewrite Hext by exact Hvar. reflexivity.
Qed.

Lemma config_resolved config c (w w1 : World X) :
  config_or_default config w = (Ok c, w1) ->
  trace w1 = trace w /\ remote w1 = remote w /\
  missing_in (environ w1) = missing_in (environ w).
Proof.
  intros Hcfg. destruct (quiet_config_or_default config w) as (Ht & Hr & He).
  rewrite Hcfg in *. simpl in *. repeat split; try assumption.
  apply missing_in_ext. exact He.
Qed.

End quiet_facts.

Section strings.

Lemma append_assoc (a b c : string) : (a +:+ b) +:+ c = a +:+ (b +:+ c).
Proof.
  induction a as [|ch a IH]; [reflexivity|].
  change (String ch ((a +:+ b) +:+ c) = String ch (a +:+ b +:+ c)).
  f_equal. exact IH.
Qed.

Lemma append_empty_r (a : string) : a +:+ "" = a.
Proof.
  induction a as [|ch a IH]; [reflexivity|].
  change (String ch (a +:+ "") = String ch a).
  f_equal. exact IH.
Qed.

Lemma occurs_in_prefixed sub pre s : occurs_in sub s -> occurs_in sub (pre +:+ s).
Proof.
  intros (a & b & ->). exists (pre +:+ a), b. rewrite append_assoc. reflexivity.
Qed.

(** Every element of a joined list occurs in the joined string. *)
Lemma join_occurs sep l v : In v l -> occurs_in v (Py.join sep l).
Proof.
  induction l as [|x rest IH]; intros Hin; [destruct Hin|].
  destruct Hin as [->|Hin].
  - destruct rest as [|y rest'].
    + exists "", "". simpl. rewrite append_empty_r. reflexivity.
    + exists "", (sep +:+ Py.join sep (y :: rest')). reflexivity.
  - destruct rest as [|y rest']; [destruct Hin|].
    change (Py.join sep (x :: y :: rest'))
      with (x +:+ sep +:+ Py.join sep (y :: rest')).
    do 2 apply occurs_in_prefixed. apply IH. exact Hin.
Qed.

End strings.

(** ** Strings: prefixes and occurrences *)

Section string_tests.

Lemma append_cons (a : ascii) (p r : string) :
  String a p +:+ r = String a (p +:+ r).
Proof. reflexivity. Qed.

Lemma prefix_spec (p s : string) :
  String.prefix p s = true <-> exists rest, s = p +:+ rest.
Proof.
  revert s. induction p as [|a p IH]; intros s.
  - split; [intros _; exists s; reflexivity|]. intros _. destruct s; reflexivity.
  - destruct s as [|b s]; simpl.
    + split; [discriminate|]. intros [rest H]. rewrite append_cons in H. discriminate H.
    + destruct (Ascii.ascii_dec a b) as [->|Hab].
      * rewrite IH. split.
        -- intros [rest ->]. exists rest. reflexivity.
        -- intros [rest H]. rewrite append_cons in H. injection H as ->.
           exists rest. reflexivity.
      * split; [discriminate|]. intros [rest H]. rewrite append_cons in H.
        injection H as <- _. contradiction.
Qed.

(** [Py.contains] decides occurrence. *)
Lemma contains_spec (sub s : string) :
  Py.contains sub s = true <-> occurs_in sub s.
Proof.
  split.
  - induction s as [|ch s IH]; cbn [Py.contains].
    + destruct (String.prefix sub "") eqn:Hp; [|intros H; discriminate H].
      intros _. apply prefix_spec in Hp as [rest Hrest].
      exists "", rest. exact Hrest.
    + destruct (String.prefix sub (String ch s)) eqn:Hp.
      * intros _. apply prefix_spec in Hp as [rest Hrest].
        exists "", rest. exact Hrest.
      * intros H. destruct (IH H) as (pre & post & ->).
        exists (String ch pre), post. reflexivity.
  - intros (pre & post & ->). induction pre as [|ch pre IH].
    + assert (Hp : String.prefix sub (sub +:+ post) = true)
        by (apply prefix_spec; exists post; reflexivity).
      change ("" +:+ sub +:+ post) with (sub +:+ post).
      destruct (sub +:+ post); cbn [Py.contains]; rewrite Hp; reflexivity.
    + rewrite append_cons. cbn [Py.contains].
      destruct (String.prefix sub _); [reflexivity|exact IH].
Qed.

End string_tests.

Section config_more.
Context {X : Externals}.

Lemma getenv_default_run key default (w : World X) :
  getenv_default key default w = (Ok (env_or (environ w) key default), w).
Proof. reflexivity. Qed.

Lemma getenv_int_run key default (w : World X) :
  getenv_int key default w =
  (parse_setting X (environ w) key default, w).
Proof.
  unfold getenv_int. rewrite (bind_ok _ _ _ _ _ (getenv_default_run key default w)).
  unfold int_of_str, parse_setting.
  destruct (py_int X (env_or (environ w) key default)); reflexivity.
Qed.

Lemma setup_environment_run self (w : World X) :
  setup_environment self w = (Ok tt, with_environ (exported self (environ w)) w).
Proof. reflexivity. Qed.

(** [Config()] as a function of the environment it is called in. *)
Lemma Config_new_run (w : World X) :
  Config_new w =
  match config_of X (environ w) with
  | Ok c => (Ok c, with_environ (exported c (environ w)) w)
  | Raise e => (Raise e, w)
  end.
Proof.
  unfold Config_new, config_of.
  rewrite (bind_ok _ _ _ _ _ (getenv_default_run _ _ w)).
  unfold bind at 1. rewrite getenv_int_run.
  destruct (parse_setting X (environ w) "CHUNK_SIZE" "2048"); simpl; [|reflexivity].
  unfold bind at 1. rewrite getenv_int_run.
  destruct (parse_setting X (environ w) "CHUNK_OVERLAP" "0"); simpl; [|reflexivity].
  unfold bind at 1. rewrite getenv_int_run.
  destruct (parse_setting X (environ w) "BATCH_SIZE" "2"); simpl; [|reflexivity].
  unfold bind at 1. rewrite getenv_int_run.
  destruct (parse_setting X (environ w) "MMR_K" "3"); simpl; [|reflexivity].
  unfold bind at 1. rewrite getenv_int_run.
  destruct (parse_setting X (environ w) "EMBEDDING_BATCH_SIZE" "1000"); simpl;
    [|reflexivity].
  rewrite (bind_ok _ _ _ _ _ (getenv_default_run _ _ w)).
  unfold bind at 1. rewrite getenv_int_run.
  destruct (parse_setting X (environ w) "MAX_PROCESSES" "8"); simpl; [|reflexivity].
  reflexivity.
Qed.

End config_more.

Section config_failures.
Context {X : Externals}.

(** A configuration that cannot be built fails on one of its integer
    settings, with the error of [int]. *)
Lemma config_of_raise env e :
  config_of X env = Raise e ->
  exists key default,
    In (key, default) integer_settings /\
    py_int X (env_or env key default) = None /\
    e = int_error (env_or env key default).
Proof.
  assert (Hp : forall key default e',
             parse_setting X env key default = Raise e' ->
             py_int X (env_or env key default) = None /\
             e' = int_error (env_or env key default)).
  { intros key default e'. unfold parse_setting.
    destruct (py_int X (env_or env key default)); [discriminate|].
    intros [= <-]. split; reflexivity. }
  unfold config_of, integer_settings. intros H.
  repeat match type of H with
         | result_bind (parse_setting X env ?key ?default) _ = _ =>
             destruct (parse_setting X env key default) as [?|e'] eqn:?Hs;
             cbn [result_bind] in H;
             [|injection H as ->;
               match goal with
               | Hs' : parse_setting X env key default = Raise e |- _ =>
                   destruct (Hp key default e Hs') as [Hnone ->]
               end;
               exists key, default; split; [simpl; tauto|split; [exact Hnone|reflexivity]]]
         end.
  discriminate H.
Qed.

(** When [config or get_config()] raises, no configuration was passed
    or cached, nothing has changed, and the error is the [ValueError] of
    an integer setting that does not parse. *)
Lemma config_failed config e (w w1 : World X) :
  config_or_default config w = (Raise e, w1) ->
  config = None /\ w1 = w /\ exn_kind e = ValueError /\
  exists key default,
    In (key, default) integer_settings /\
    py_int X (env_or (environ w) key default) = None /\
    e = int_error (env_or (environ w) key default).
Proof.
  destruct config as [c|]; [discriminate|].
  unfold config_or_default, get_config.
  destruct (config_cache w); [discriminate|].
  rewrite Config_new_run.
  destruct (config_of X (environ w)) as [c|e'] eqn:Hc; [discriminate|].
  intros [= <- <-].
  destruct (config_of_raise (environ w) e' Hc) as (key & default & Hin & Hnone & ->).
  repeat split. exists key, default. repeat split; assumption.
Qed.

End config_failures.

(** ** Failing fast *)

(** C4 does not hold when no configuration is passed and an integer
    setting does not parse: with [QDRANT_URL] unset and [CHUNK_SIZE=abc],
    [ingest_documents] fails while it builds the configuration, before
    it looks for missing variables, and the message of the error names
    no variable. *)
Lemma unparsable_setting_hides_the_missing :
  In "QDRANT_URL" required /\
  (<["CHUNK_SIZE" := "abc"]> (delete "QDRANT_URL" Toy.full_env) : gmap string string)
    !! "QDRANT_URL" = None /\
  ingest_documents (X := Toy.world) None None
    (Toy.start (<["CHUNK_SIZE" := "abc"]> (delete "QDRANT_URL" Toy.full_env)) [])
  = (Raise (Exn ValueError "invalid literal for int() with base 10: 'abc'"),
     Toy.start (<["CHUNK_SIZE" := "abc"]> (delete "QDRANT_URL" Toy.full_env)) []) /\
  ~ occurs_in "QDRANT_URL" "invalid literal for int() with base 10: 'abc'".
Proof.
  split; [vm_compute; tauto|].
  split; [vm_compute; reflexivity|].
  split; [vm_compute; reflexivity|].
  intros Hocc. apply contains_spec in Hocc. vm_compute in Hocc. discriminate Hocc.
Qed.

(** C4, as the code has it.  When a required environment variable is
    unset, [ingest_documents] raises, and it does so before anything is
    recorded and with the remote services untouched: no client was built
    and no call was made.  When the configuration is there (it was
    passed in, or [get_config] returns one) the error is the
    [ValueError] whose message is the fixed prefix followed by all
    required variables that are unset or empty, joined by commas, so
    each of them occurs in it.  Otherwise no configuration was passed
    and the error is the one [int] raises for a setting that does not
    parse. *)
Theorem ingest_reports_all_missing
    (X : Externals) (path : option string) (config : option Config) (w : World X) :
  (exists var, In var required /\ environ w !! var = None) ->
  let missing := missing_in (environ w) in
  let message := "Missing environment variables: " +:+ Py.join ", " missing in
  (exists e,
     fst (ingest_documents path config w) = Raise e /\
     trace (snd (ingest_documents path config w)) = trace w /\
     remote (snd (ingest_documents path config w)) = remote w /\
     (forall c w1, config_or_default config w = (Ok c, w1) ->
        e = Exn ValueError message) /\
     (forall e0 w1, config_or_default config w = (Raise e0, w1) ->
        e = e0 /\ config = None /\
        exists key default,
          In (key, default) integer_settings /\
          py_int X (env_or (environ w) key default) = None /\
          e0 = int_error (env_or (environ w) key default))) /\
  (forall var, In var required -> Py.truthy (environ w !! var) = false ->
               In var missing /\ occurs_in var message).
Proof.
  intros (var0 & Hreq0 & Hunset0) missing message.
  assert (Hin : forall var, In var required -> Py.truthy (environ w !! var) = false ->
                            In var missing).
  { intros var Hreq Hfalsy. unfold missing, missing_in.
    apply List.filter_In. split; [exact Hreq|]. rewrite Hfalsy. reflexivity. }
  split.
  - destruct (config_or_default config w) as [[c|e0] w1] eqn:Hcfg.
    + destruct (config_resolved config c w w1 Hcfg) as (Ht & Hr & Hmiss).
      assert (Hrun : ingest_documents path config w = (Raise (Exn ValueError message), w1)).
      { unfold ingest_documents. rewrite handle_errors_id.
        rewrite (bind_ok _ _ _ _ _ Hcfg).
        unfold bind, validate_environment. rewrite Hmiss. fold missing.
        assert (Hne : In var0 missing)
          by (apply Hin; [exact Hreq0|rewrite Hunset0; reflexivity]).
        unfold message.
        destruct missing as [|m rest] eqn:Em; [destruct Hne|]. reflexivity. }
      exists (Exn ValueError message). rewrite Hrun. simpl.
      split; [reflexivity|]. split; [exact Ht|]. split; [exact Hr|]. split.
      * intros c' w2 _. reflexivity.
      * intros e1 w2 [=].
    + destruct (config_failed config e0 w w1 Hcfg) as (Hnone & -> & Hkind & Hwhy).
      assert (Hrun : ingest_documents path config w = (Raise e0, w)).
      { unfold ingest_documents. rewrite handle_errors_id.
        rewrite (bind_raise _ _ _ _ _ Hcfg). reflexivity. }
      exists e0. rewrite Hrun. simpl.
      split; [reflexivity|]. split; [reflexivity|]. split; [reflexivity|]. split.
      * intros c w2 [=].
      * intros e1 w2 [= <-]. split; [reflexivity|]. split; [exact Hnone|exact Hwhy].
  - intros var Hreq Hfalsy. split; [apply Hin; assumption|].
    unfold message. apply occurs_in_prefixed. apply join_occurs. apply Hin; assumption.
Qed.

Lemma ingest_reports_all_missing_witness :
  fst (ingest_documents (X := Toy.world) None None
         (Toy.start (delete "QDRANT_URL" (delete "AZURE_OPENAI_API_KEY" Toy.full_env)) []))
  = Raise (Exn ValueError
             "Missing environment variables: AZURE_OPENAI_API_KEY, QDRANT_URL").
Proof.
  set (w := Toy.start (delete "QDRANT_URL" (delete "AZURE_OPENAI_API_KEY" Toy.full_env)) []).
  destruct (ingest_reports_all_missing Toy.world None None w)
    as ((e & Hrun & _ & _ & Hok & _) & _).
  - exists "QDRANT_URL". split; [vm_compute; tauto|vm_compute; reflexivity].
  - rewrite Hrun. f_equal.
    refine (eq_trans
      (Hok {| collection_name := "atyantik-chatbot-openai"; chunk_size := 2048;
              chunk_overlap := 0; batch_size := 2; mmr_k := 3;
              embedding_batch_size := 1000;
              pdf_path := "./Career Leveling Guide.pdf"; max_processes := 8;
              opik_workspace := "knightkill"; opik_project := "atyantik-chatbot" |}
           (snd (config_or_default (X := Toy.world) None w)) _) _).
    + vm_compute. reflexivity.
    + vm_compute. reflexivity.
Defined.




(** ** Collection provisioning *)

Section provisioning.
Context {X : Externals}.
Variable client : Client X.
Variable config : Config.
Variable embedding_dim : Z.

Local Abbreviation provisioning_params := (provisioning_params config embedding_dim).

(** What one call does, by the answer of [create_collection]. *)
Lemma create_or_verify_run (w : World X) :
  create_or_verify_collection client config embedding_dim w =
  (match fst (client_create_collection X client provisioning_params (remote w)) with
   | Ok _ => Ok true
   | Raise e => if already_exists e then Ok true else Raise e
   end,
   with_remote (snd (client_create_collection X client provisioning_params (remote w)))
               (record (EvCreateCollection provisioning_params) w)).
Proof.
  unfold create_or_verify_collection, try_except, call, bind, log. simpl.
  destruct (client_create_collection X client provisioning_params (remote w))
    as [[[]|e] rem]; simpl; [reflexivity|].
  destruct (already_exists e); reflexivity.
Qed.

End provisioning.

(** The handler's test is the occurrence of the words in the lowered
    text of the error. *)
Lemma already_exists_spec (e : exn) :
  already_exists e = true <-> says_already_exists e.
Proof. apply contains_spec. Qed.

Lemma already_exists_false (e : exn) :
  already_exists e = false <-> ~ says_already_exists e.
Proof.
  rewrite <- already_exists_spec. destruct (already_exists e); split; congruence.
Qed.

(** C5 does not hold for a creation failure of another kind whose text
    has the words [already exists] in it.  Here the name is taken by an
    alias: there is no collection before the call and none after it, the
    creation fails, and [create_or_verify_collection] returns [True]
    instead of raising the error again. *)
Lemma other_failure_taken_for_success :
  Toy.collections (remote (Sample.ready Sample.aliased Sample.idle)) = [] /\
  fst (client_create_collection Sample.aliased tt (provisioning_params Toy.config 4)
         (remote (Sample.ready Sample.aliased Sample.idle)))
  = Raise (Sample.alias_taken "atyantik-chatbot-openai") /\
  fst (create_or_verify_collection (X := Sample.aliased) tt Toy.config 4
         (Sample.ready Sample.aliased Sample.idle))
  = Ok true /\
  Toy.collections
    (remote (snd (create_or_verify_collection (X := Sample.aliased) tt Toy.config 4
                    (Sample.ready Sample.aliased Sample.idle)))) = [].
Proof. repeat split; vm_compute; reflexivity. Qed.

(** C5, as the code has it.  [create_or_verify_collection] makes one
    call of [create_collection].  It returns [True] when the call goes
    through, and also when it fails with an error whose text, in
    whatever case, has the words [already exists] in it; an error
    without these words is raised again unchanged.  Hence two calls in a
    row both return [True] whenever the first one returns and the vector
    store answers the second creation with success or with an error that
    says the collection already exists. *)
Theorem create_or_verify_idempotent
    (X : Externals) (client : Client X) (config : Config) (embedding_dim : Z)
    (w : World X) :
  let params := provisioning_params config embedding_dim in
  let create := client_create_collection X client params in
  let after := fun rem : Remote X =>
                 with_remote rem (record (EvCreateCollection params) w) in
  (forall rem, create (remote w) = (Ok tt, rem) ->
     create_or_verify_collection client config embedding_dim w = (Ok true, after rem)) /\
  (forall e rem, create (remote w) = (Raise e, rem) -> says_already_exists e ->
     create_or_verify_collection client config embedding_dim w = (Ok true, after rem)) /\
  (forall e rem, create (remote w) = (Raise e, rem) -> ~ says_already_exists e ->
     create_or_verify_collection client config embedding_dim w = (Raise e, after rem)) /\
  (forall b1 w1,
     create_or_verify_collection client config embedding_dim w = (Ok b1, w1) ->
     (forall e rem, create (remote w1) = (Raise e, rem) -> says_already_exists e) ->
     b1 = true /\
     fst (create_or_verify_collection client config embedding_dim w1) = Ok true).
Proof.
  intros params create after.
  split; [|split; [|split]].
  - intros rem Hcreate. rewrite create_or_verify_run.
    fold params. fold create. rewrite Hcreate. reflexivity.
  - intros e rem Hcreate Hexists. rewrite create_or_verify_run.
    fold params. fold create. rewrite Hcreate. simpl.
    apply already_exists_spec in Hexists. rewrite Hexists. reflexivity.
  - intros e rem Hcreate Hother. rewrite create_or_verify_run.
    fold params. fold create. rewrite Hcreate. simpl.
    apply already_exists_false in Hother. rewrite Hother. reflexivity.
  - intros b1 w1 Hfirst Hsecond. split.
    + rewrite create_or_verify_run in Hfirst. fold params in Hfirst. fold create in Hfirst.
      injection Hfirst as Hres _.
      destruct (fst (create (remote w))) as [[]|e]; [congruence|].
      destruct (already_exists e); congruence.
    + rewrite create_or_verify_run. fold params. fold create. simpl.
      destruct (create (remote w1)) as [[[]|e] rem] eqn:Hagain; simpl; [reflexivity|].
      pose proof (Hsecond e rem eq_refl) as Hsays.
      apply already_exists_spec in Hsays. rewrite Hsays. reflexivity.
Qed.

(** The three answers at work: a second call on the scripted vector
    store, whose creation fails with its conflict, returns [True]; so
    does the first one; and a vector store that cannot be reached makes
    the call raise that error. *)
Lemma create_or_verify_idempotent_witness :
  fst (create_or_verify_collection (X := Toy.world) tt Toy.config 4 (Toy.start ∅ []))
  = Ok true /\
  fst (create_or_verify_collection (X := Toy.world) tt Toy.config 4
         (snd (create_or_verify_collection (X := Toy.world) tt Toy.config 4
                 (Toy.start ∅ []))))
  = Ok true /\
  fst (create_or_verify_collection (X := Sample.offline) tt Toy.config 4
         (Sample.ready Sample.offline Sample.idle))
  = Raise Toy.unavailable.
Proof.
  split; [|split].
  - rewrite (proj1 (create_or_verify_idempotent Toy.world tt Toy.config 4 (Toy.start ∅ []))
               {| Toy.script := []; Toy.collections := ["atyantik-chatbot-openai"];
                  Toy.clock := 0 |} eq_refl).
    reflexivity.
  - refine (proj2 (proj2 (proj2 (proj2
      (create_or_verify_idempotent Toy.world tt Toy.config 4 (Toy.start ∅ []))))
      true _ _ _)).
    + reflexivity.
    + intros e rem Hagain. vm_compute in Hagain.
      injection Hagain as <- _. apply already_exists_spec. vm_compute. reflexivity.
  - rewrite (proj1 (proj2 (proj2
      (create_or_verify_idempotent Sample.offline tt Toy.config 4
         (Sample.ready Sample.offline Sample.idle))))
      Toy.unavailable Sample.idle eq_refl).
    + reflexivity.
    + intros Hsays. apply already_exists_spec in Hsays.
      vm_compute in Hsays. discriminate Hsays.
Defined.

(** ** The orchestrator on an input without chunks *)

(** C10. When every step up to the upload goes through and the splitter
    returns no chunk, [upload_in_batches] (for a non-zero batch size)
    returns [True] without submitting anything, and [ingest_documents]
    then raises [ZeroDivisionError] from the per-chunk average instead of
    returning that boolean. *)
Theorem ingest_zero_chunks_raises
    (X : Externals) (path : option string) (config : option Config) (c : Config)
    (documents : list Document) (embeddings : Embeddings X) (client : Client X)
    (test_vector : list (Float X)) (created : bool) (vectorstore : VectorStore X)
    (w w1 w2 w3 w4 w5 w6 w7 : World X) :
  config_or_default config w = (Ok c, w1) ->
  missing_in (environ w1) = [] ->
  load_pdf (path_or_default path c) (Some c) w1 = (Ok documents, w2) ->
  text_splitter X (chunk_size c) (chunk_overlap c) documents = Ok [] ->
  create_embeddings (Some c) w2 = (Ok embeddings, w3) ->
  create_qdrant_client w3 = (Ok client, w4) ->
  call (EvEmbedQuery "test") (embed_query X embeddings "test") w4 = (Ok test_vector, w5) ->
  create_or_verify_collection client c (Py.len test_vector) w5 = (Ok created, w6) ->
  create_vector_store (Some client) (Some embeddings) (Some c) w6 = (Ok vectorstore, w7) ->
  batch_size c <> 0 ->
  (forall w8 : World X,
      upload_in_batches vectorstore [] (batch_size c) w8 = (Ok true, w8)) /\
  fst (ingest_documents path config w)
  = Raise (Exn ZeroDivisionError "float division by zero") /\
  trace (snd (ingest_documents path config w)) = trace w7.
Proof.
  intros Hcfg Hmiss Hload Hsplit Hemb Hclient Hdim Hcoll Hvs Hsize.
  assert (Hup : forall w8 : World X,
             upload_in_batches vectorstore [] (batch_size c) w8 = (Ok true, w8)).
  { intros w8. unfold upload_in_batches, bind.
    rewrite upload_counters_run by exact Hsize.
    assert (Hb : batches [] (batch_size c) = []).
    { destruct (batches [] (batch_size c)) as [|b rest] eqn:Eb; [reflexivity|].
      assert (Hin : In b (batches [] (batch_size c))) by (rewrite Eb; left; reflexivity).
      pose proof (batches_nonempty_any [] (batch_size c) b Hsize Hin) as Hlen.
      assert (Hsum : concat (batches [] (batch_size c)) = [] \/ batch_size c < 0).
      { destruct (Z.lt_ge_cases (batch_size c) 0) as [Hneg|Hpos]; [right; exact Hneg|].
        left. apply batches_concat. lia. }
      destruct Hsum as [Hcat|Hneg].
      - rewrite Eb in Hcat. simpl in Hcat. apply app_eq_nil in Hcat as [-> _].
        unfold Py.len in Hlen. simpl in Hlen. lia.
      - unfold batches in Eb. rewrite range_negative_step in Eb by exact Hneg.
        discriminate Eb. }
    rewrite Hb. simpl. unfold log_events. simpl. rewrite app_nil_r.
    destruct w8; reflexivity. }
  assert (Hrun : ingest_documents path config w
                 = (Raise (Exn ZeroDivisionError "float division by zero"),
                    with_remote (snd (time_time X (snd (time_time X (remote w7))))) w7)).
  { unfold ingest_documents. rewrite handle_errors_id.
    rewrite (bind_ok _ _ _ _ _ Hcfg).
    unfold bind at 1, validate_environment at 1. rewrite Hmiss.
    rewrite (bind_ok _ _ _ _ _ Hload).
    unfold split_documents at 1, config_or_default at 1.
    unfold bind at 1. unfold bind at 1, ret at 1, lift_result at 1. rewrite Hsplit.
    rewrite (bind_ok _ _ _ _ _ Hemb).
    rewrite (bind_ok _ _ _ _ _ Hclient).
    rewrite (bind_ok _ _ _ _ _ Hdim).
    rewrite (bind_ok _ _ _ _ _ Hcoll).
    rewrite (bind_ok _ _ _ _ _ Hvs).
    unfold bind at 1, now at 1.
    destruct (time_time X (remote w7)) as [t0 rem0] eqn:Ht0.
    unfold bind at 1. rewrite Hup.
    unfold bind at 1, now at 1. simpl.
    destruct (time_time X rem0) as [t1 rem1] eqn:Ht1.
    reflexivity. }
  split; [exact Hup|]. rewrite Hrun. split; reflexivity.
Qed.

Lemma ingest_zero_chunks_raises_witness :
  fst (ingest_documents (X := Toy.world) (Some "blank.pdf") (Some Toy.config)
                        (Toy.start Toy.full_env []))
  = Raise (Exn ZeroDivisionError "float division by zero").
Proof.
  refine (proj1 (proj2
    (ingest_zero_chunks_raises Toy.world (Some "blank.pdf") (Some Toy.config) Toy.config
       [] tt tt [0; 0; 0; 0] true tt
       (Toy.start Toy.full_env []) (Toy.start Toy.full_env []) _ _ _ _ _ _
       _ _ _ _ _ _ _ _ _ _))).
  - reflexivity.
  - vm_compute. reflexivity.
  - vm_compute. reflexivity.
  - reflexivity.
  - vm_compute. reflexivity.
  - vm_compute. reflexivity.
  - vm_compute. reflexivity.
  - vm_compute. reflexivity.
  - vm_compute. reflexivity.
  - discriminate.
Defined.

(** * Further properties of the code *)

(** ** The document loader, beyond the partition *)

(** X1. For every positive [max_processes], on a file that exists and
    loads, [load_pdf] returns exactly the pages of the file, in order,
    whether the page count is below, at or above the parallelism. *)
Theorem load_pdf_returns_the_pages
    (X : Externals) (path : string) (config : option Config) (c : Config)
    (docs : list Document) (w w1 : World X) :
  config_or_default config w = (Ok c, w1) ->
  path_exists X path = true ->
  pdfium_load X path = Ok docs ->
  1 <= max_processes c ->
  fst (load_pdf path config w) = Ok docs.
Proof.
  intros Hcfg Hex Hload HN.
  rewrite (load_pdf_run path config c docs w w1) by assumption. reflexivity.
Qed.

Lemma load_pdf_returns_the_pages_witness :
  fst (load_pdf (X := Toy.world) "guide.pdf"
         (Some (Sample.with_processes 8))
         (Toy.start ∅ []))
  = Ok Toy.guide.
Proof.
  apply (load_pdf_returns_the_pages Toy.world "guide.pdf"
           (Some (Sample.with_processes 8)) (Sample.with_processes 8) Toy.guide
           (Toy.start ∅ []) (Toy.start ∅ []) eq_refl eq_refl eq_refl).
  simpl. lia.
Defined.

(** X2. [load_pdf] reads the file once when the page count is at most
    [max_processes], and [max_processes + 1] times otherwise: once to
    count the pages and once more in every worker.  Besides the loads
    only the pool and the hand-over of the page ranges are recorded. *)
Theorem load_pdf_number_of_loads
    (X : Externals) (path : string) (config : option Config) (c : Config)
    (docs : list Document) (w w1 : World X) :
  config_or_default config w = (Ok c, w1) ->
  path_exists X path = true ->
  pdfium_load X path = Ok docs ->
  1 <= max_processes c ->
  trace (snd (load_pdf path config w)) =
  trace w ++
    (if Py.len docs <=? max_processes c
     then [EvPdfLoad path]
     else EvPdfLoad path :: EvPool (max_processes c)
            :: EvStarmap (page_ranges (Py.len docs) (max_processes c)
                                      (Py.len docs / max_processes c))
            :: repeat (EvPdfLoad path) (Z.to_nat (max_processes c))) /\
  pdf_loads (trace (snd (load_pdf path config w))) =
  (pdf_loads (trace w) +
   if (Py.len docs <=? max_processes c)%Z
   then 1 else S (Z.to_nat (max_processes c)))%nat.
Proof.
  intros Hcfg Hex Hload HN.
  destruct (config_resolved config c w w1 Hcfg) as (Ht & _).
  rewrite (load_pdf_run path config c docs w w1) by assumption. simpl.
  rewrite Ht. split; [reflexivity|].
  unfold pdf_loads. rewrite List.filter_app, length_app. f_equal.
  destruct (Py.len docs <=? max_processes c); [reflexivity|].
  simpl. f_equal.
  induction (Z.to_nat (max_processes c)) as [|n IH]; simpl; [reflexivity|].
  f_equal. exact IH.
Qed.

Lemma load_pdf_number_of_loads_witness :
  pdf_loads (trace (snd (load_pdf (X := Toy.world) "guide.pdf" (Some Toy.config)
                           (Toy.start ∅ [])))) = 3%nat.
Proof.
  rewrite (proj2 (load_pdf_number_of_loads Toy.world "guide.pdf" (Some Toy.config)
                    Toy.config Toy.guide (Toy.start ∅ []) (Toy.start ∅ [])
                    eq_refl eq_refl eq_refl ltac:(simpl; lia))).
  reflexivity.
Defined.

(** X3. With [max_processes = 0], [load_pdf] fails with
    [ZeroDivisionError] on every file that has a page; with a negative
    [max_processes] it fails with [ValueError] when the pool is created,
    also on a file without pages. *)
Theorem load_pdf_needs_a_positive_parallelism
    (X : Externals) (path : string) (config : option Config) (c : Config)
    (docs : list Document) (w w1 : World X) :
  config_or_default config w = (Ok c, w1) ->
  path_exists X path = true ->
  pdfium_load X path = Ok docs ->
  max_processes c <= 0 ->
  (max_processes c = 0 -> docs <> [] ->
   fst (load_pdf path config w)
   = Raise (Exn ZeroDivisionError "integer division or modulo by zero")) /\
  (max_processes c = 0 -> docs = [] -> fst (load_pdf path config w) = Ok []) /\
  (max_processes c < 0 ->
   fst (load_pdf path config w)
   = Raise (Exn ValueError "Number of processes must be at least 1")).
Proof.
  intros Hcfg Hex Hload HN.
  rewrite (load_pdf_unfold path config c w w1 Hcfg Hex).
  rewrite (bind_ok _ _ _ _ _ (loader_load_ok path docs w1 Hload)).
  pose proof (len_nonneg docs) as Hlen.
  repeat split.
  - intros H0 Hne.
    assert (0 < Py.len docs)
      by (destruct docs; [contradiction|unfold Py.len; simpl; lia]).
    destruct (Z.leb_spec (Py.len docs) (max_processes c)); [lia|].
    unfold floordiv. rewrite H0. reflexivity.
  - intros H0 ->. rewrite H0. reflexivity.
  - intros Hneg.
    destruct (Z.leb_spec (Py.len docs) (max_processes c)); [lia|].
    unfold floordiv.
    destruct (Z.eqb_spec (max_processes c) 0); [lia|].
    unfold bind at 1, ret at 1. unfold pool_starmap.
    destruct (Z.ltb_spec (max_processes c) 1); [|lia].
    reflexivity.
Qed.

Lemma load_pdf_needs_a_positive_parallelism_witness :
  fst (load_pdf (X := Toy.world) "guide.pdf"
         (Some (Sample.with_processes 0))
         (Toy.start ∅ []))
  = Raise (Exn ZeroDivisionError "integer division or modulo by zero").
Proof.
  refine (proj1 (load_pdf_needs_a_positive_parallelism Toy.world "guide.pdf"
                   (Some (Sample.with_processes 0)) (Sample.with_processes 0)
                   Toy.guide (Toy.start ∅ []) (Toy.start ∅ [])
                   eq_refl eq_refl eq_refl _) _ _).
  - simpl. lia.
  - reflexivity.
  - discriminate.
Defined.

(** ** The configuration *)


Section exported_facts.

Lemma exported_unfold c env :
  exported c env =
  <["NUMEXPR_NUM_THREADS" := Py.str_int (max_processes c)]>
    (<["MKL_NUM_THREADS" := Py.str_int (max_processes c)]>
       (<["OMP_NUM_THREADS" := Py.str_int (max_processes c)]>
          (<["OPIK_PROJECT_NAME" := opik_project c]>
             (<["OPIK_WORKSPACE" := opik_workspace c]> env)))).
Proof. reflexivity. Qed.

Lemma exported_other c env key :
  not_exported key = true -> exported c env !! key = env !! key.
Proof.
  intros Hkey. unfold not_exported in Hkey. cbn [forallb] in Hkey.
  repeat (apply andb_prop in Hkey as [?%negb_true_iff%String.eqb_neq Hkey]).
  rewrite exported_unfold.
  rewrite !lookup_insert_ne by assumption. reflexivity.
Qed.

Lemma env_or_exported c env key default :
  not_exported key = true -> env_or (exported c env) key default = env_or env key default.
Proof. intros Hkey. unfold env_or. rewrite exported_other by exact Hkey. reflexivity. Qed.

Lemma parse_setting_exported X c env key default :
  not_exported key = true ->
  parse_setting X (exported c env) key default = parse_setting X env key default.
Proof.
  intros Hkey. unfold parse_setting. rewrite env_or_exported by exact Hkey. reflexivity.
Qed.

Lemma exported_workspace c env :
  exported c env !! "OPIK_WORKSPACE" = Some (opik_workspace c).
Proof.
  rewrite exported_unfold.
  rewrite !lookup_insert_ne by discriminate. apply lookup_insert_eq.
Qed.

Lemma exported_twice c env : exported c (exported c env) = exported c env.
Proof.
  apply map_eq. intros key. rewrite !exported_unfold.
  rewrite !lookup_insert. repeat (case_decide; simplify_eq); reflexivity.
Qed.

Lemma config_of_workspace X env c :
  config_of X env = Ok c -> opik_workspace c = env_or env "OPIK_WORKSPACE" "knightkill".
Proof.
  unfold config_of. intros H.
  repeat match type of H with
         | result_bind ?r _ = _ => destruct r; simpl in H; [|discriminate H]
         end.
  injection H as <-. reflexivity.
Qed.

Lemma config_of_exported X env c :
  config_of X env = Ok c -> config_of X (exported c env) = Ok c.
Proof.
  intros H. pose proof (config_of_workspace X env c H) as Hws.
  unfold config_of in *.
  rewrite !parse_setting_exported by reflexivity.
  rewrite (env_or_exported c env "COLLECTION_NAME") by reflexivity.
  rewrite (env_or_exported c env "PDF_PATH") by reflexivity.
  rewrite (env_or_exported c env "OPIK_PROJECT") by reflexivity.
  assert (Hw : env_or (exported c env) "OPIK_WORKSPACE" "knightkill"
               = env_or env "OPIK_WORKSPACE" "knightkill").
  { unfold env_or at 1. rewrite exported_workspace. exact Hws. }
  rewrite Hw. exact H.
Qed.

End exported_facts.

(** X4. [validate_environment] reports exactly the required variables
    that are unset or empty, changes nothing, and its answer is the
    empty list precisely when every required variable has a non-empty
    value. *)
Theorem validate_environment_reports_the_unset
    (X : Externals) (w : World X) :
  validate_environment w = (Ok (missing_in (environ w)), w) /\
  (forall var, In var (missing_in (environ w)) <->
               In var required /\
               (environ w !! var = None \/ environ w !! var = Some "")) /\
  (missing_in (environ w) = [] <->
   forall var, In var required -> exists s, environ w !! var = Some s /\ s <> "").
Proof.
  split; [reflexivity|].
  assert (Hfalsy : forall v : option string,
             negb (Py.truthy v) = true <-> v = None \/ v = Some "").
  { intros [s|]; simpl.
    - rewrite negb_involutive, String.eqb_eq. split.
      + intros ->. right. reflexivity.
      + intros [Hn|[= ->]]; [discriminate Hn|reflexivity].
    - split; [left; reflexivity|reflexivity]. }
  assert (Hin : forall var, In var (missing_in (environ w)) <->
               In var required /\
               (environ w !! var = None \/ environ w !! var = Some "")).
  { intros var. unfold missing_in. rewrite List.filter_In, Hfalsy. reflexivity. }
  split; [exact Hin|]. split.
  - intros Hnone var Hreq.
    destruct (environ w !! var) as [s|] eqn:Hvar.
    + exists s. split; [reflexivity|]. intros ->.
      assert (Hm : In var (missing_in (environ w)))
        by (apply Hin; split; [exact Hreq|right; exact Hvar]).
      rewrite Hnone in Hm. destruct Hm.
    + assert (Hm : In var (missing_in (environ w)))
        by (apply Hin; split; [exact Hreq|left; exact Hvar]).
      rewrite Hnone in Hm. destruct Hm.
  - intros Hall.
    destruct (missing_in (environ w)) as [|var rest] eqn:Hm; [reflexivity|].
    assert (Hv : In var (var :: rest)) by (left; reflexivity).
    apply Hin in Hv as [Hreq Hunset].
    destruct (Hall var Hreq) as (s & Hs & Hne).
    destruct Hunset as [Hu|Hu]; rewrite Hs in Hu; [discriminate Hu|].
    injection Hu as ->. contradiction.
Qed.

(** X5. Constructing [Config] twice gives the same configuration: the
    variables [setup_environment] writes do not change what a second
    construction reads, and the second construction leaves the world as
    the first one left it. *)
Theorem Config_new_twice
    (X : Externals) (c : Config) (w w1 : World X) :
  Config_new w = (Ok c, w1) ->
  Config_new w1 = (Ok c, w1).
Proof.
  intros H. rewrite Config_new_run in H.
  destruct (config_of X (environ w)) as [c'|e] eqn:Hc; [|discriminate H].
  injection H as -> <-.
  rewrite Config_new_run. simpl.
  rewrite (config_of_exported X (environ w) c Hc).
  unfold with_environ. simpl. rewrite exported_twice. reflexivity.
Qed.

Lemma Config_new_twice_witness :
  fst (Config_new (X := Toy.world)
         (snd (Config_new (X := Toy.world)
                 (Toy.start {["MAX_PROCESSES" := "4"]} []))))
  = fst (Config_new (X := Toy.world) (Toy.start {["MAX_PROCESSES" := "4"]} [])).
Proof.
  destruct (Config_new (X := Toy.world) (Toy.start {["MAX_PROCESSES" := "4"]} []))
    as [[c|e] w1] eqn:Hrun.
  - simpl. rewrite (Config_new_twice Toy.world c _ w1 Hrun). reflexivity.
  - vm_compute in Hrun. discriminate Hrun.
Defined.

(** X6. [Config()] succeeds exactly when each of its six integer
    settings, taken from its variable or else from its default, parses
    as an integer.  When it fails it raises [ValueError] and has changed
    nothing: no variable was written. *)
Theorem Config_new_fails_cleanly
    (X : Externals) (w : World X) :
  ((forall key default, In (key, default) integer_settings ->
      py_int X (env_or (environ w) key default) <> None) <->
   exists c, fst (Config_new w) = Ok c) /\
  (forall e w1, Config_new w = (Raise e, w1) ->
     w1 = w /\ exn_kind e = ValueError /\
     exists key default, In (key, default) integer_settings /\
                         py_int X (env_or (environ w) key default) = None).
Proof.
  rewrite Config_new_run. unfold config_of, integer_settings.
  assert (Hp : forall key default,
             (exists n, parse_setting X (environ w) key default = Ok n /\
                        py_int X (env_or (environ w) key default) = Some n) \/
             (exists e, parse_setting X (environ w) key default = Raise e /\
                        exn_kind e = ValueError /\
                        py_int X (env_or (environ w) key default) = None)).
  { intros key default. unfold parse_setting.
    destruct (py_int X (env_or (environ w) key default)) as [n|]; eauto 10. }
  destruct (Hp "CHUNK_SIZE" "2048") as [(n1 & -> & H1)|(e & -> & He & H1)];
    [|simpl; split;
      [split; [intros Hall; exfalso; apply (Hall "CHUNK_SIZE" "2048"); simpl; auto
              |intros [c [=]]]
      |intros e' w1 [= <- <-]; repeat split; try exact He;
       exists "CHUNK_SIZE", "2048"; simpl; auto]].
  destruct (Hp "CHUNK_OVERLAP" "0") as [(n2 & -> & H2)|(e & -> & He & H2)];
    [|simpl; split;
      [split; [intros Hall; exfalso; apply (Hall "CHUNK_OVERLAP" "0"); simpl; auto
              |intros [c [=]]]
      |intros e' w1 [= <- <-]; repeat split; try exact He;
       exists "CHUNK_OVERLAP", "0"; simpl; auto]].
  destruct (Hp "BATCH_SIZE" "2") as [(n3 & -> & H3)|(e & -> & He & H3)];
    [|simpl; split;
      [split; [intros Hall; exfalso; apply (Hall "BATCH_SIZE" "2"); simpl; auto
              |intros [c [=]]]
      |intros e' w1 [= <- <-]; repeat split; try exact He;
       exists "BATCH_SIZE", "2"; simpl; auto]].
  destruct (Hp "MMR_K" "3") as [(n4 & -> & H4)|(e & -> & He & H4)];
    [|simpl; split;
      [split; [intros Hall; exfalso; apply (Hall "MMR_K" "3"); simpl; auto 10
              |intros [c [=]]]
      |intros e' w1 [= <- <-]; repeat split; try exact He;
       exists "MMR_K", "3"; simpl; auto 10]].
  destruct (Hp "EMBEDDING_BATCH_SIZE" "1000") as [(n5 & -> & H5)|(e & -> & He & H5)];
    [|simpl; split;
      [split; [intros Hall; exfalso; apply (Hall "EMBEDDING_BATCH_SIZE" "1000");
               simpl; auto 10
              |intros [c [=]]]
      |intros e' w1 [= <- <-]; repeat split; try exact He;
       exists "EMBEDDING_BATCH_SIZE", "1000"; simpl; auto 10]].
  destruct (Hp "MAX_PROCESSES" "8") as [(n6 & -> & H6)|(e & -> & He & H6)];
    [|simpl; split;
      [split; [intros Hall; exfalso; apply (Hall "MAX_PROCESSES" "8"); simpl; auto 10
              |intros [c [=]]]
      |intros e' w1 [= <- <-]; repeat split; try exact He;
       exists "MAX_PROCESSES", "8"; simpl; auto 10]].
  simpl. split; [|intros e' w1 [=]].
  split; [intros _; eexists; reflexivity|].
  intros _ key default Hin. simpl in Hin.
  repeat (destruct Hin as [[= <- <-]|Hin]; [congruence|]). destruct Hin.
Qed.

(** X7. [get_config] is memoised: once a call has returned a
    configuration, every later call returns that same configuration and
    changes nothing, whatever the environment has become in between. *)
Theorem get_config_is_memoised
    (X : Externals) (c : Config) (w w1 : World X) :
  get_config w = (Ok c, w1) ->
  config_cache w1 = Some c /\
  forall (env : gmap string string) (rem : Remote X) (tr : list event),
    get_config (Build_World X env (config_cache w1) rem tr)
    = (Ok c, Build_World X env (config_cache w1) rem tr).
Proof.
  intros H. unfold get_config in H.
  assert (Hcache : config_cache w1 = Some c).
  { destruct (config_cache w) as [c0|] eqn:Hc0.
    - injection H as <- <-. exact Hc0.
    - destruct (Config_new w) as [[c'|e] w'] eqn:Hnew; [|discriminate H].
      injection H as <- <-. reflexivity. }
  split; [exact Hcache|].
  intros env rem tr. unfold get_config. simpl. rewrite Hcache. reflexivity.
Qed.

Lemma get_config_is_memoised_witness :
  fst (get_config (X := Toy.world)
         (with_environ {["BATCH_SIZE" := "not a number"]}
            (snd (get_config (X := Toy.world) (Toy.start ∅ [])))))
  = fst (get_config (X := Toy.world) (Toy.start ∅ [])).
Proof.
  destruct (get_config (X := Toy.world) (Toy.start ∅ [])) as [[c|e] w1] eqn:Hrun.
  - destruct (get_config_is_memoised Toy.world c _ w1 Hrun) as [_ Hagain].
    unfold with_environ. simpl. rewrite Hagain. reflexivity.
  - vm_compute in Hrun. discriminate Hrun.
Defined.

(** X8. A successful [Config()] reads every field from its variable or
    default, writes the five variables of [setup_environment]
    ([OPIK_PROJECT_NAME] from the field read from [OPIK_PROJECT]), and
    leaves every other variable, the cache, the remote services and the
    trace as they were. *)
Theorem Config_new_effect
    (X : Externals) (c : Config) (w w1 : World X) :
  Config_new w = (Ok c, w1) ->
  (collection_name c = env_or (environ w) "COLLECTION_NAME" "atyantik-chatbot-openai" /\
   pdf_path c = env_or (environ w) "PDF_PATH" "./Career Leveling Guide.pdf" /\
   opik_workspace c = env_or (environ w) "OPIK_WORKSPACE" "knightkill" /\
   opik_project c = env_or (environ w) "OPIK_PROJECT" "atyantik-chatbot" /\
   py_int X (env_or (environ w) "CHUNK_SIZE" "2048") = Some (chunk_size c) /\
   py_int X (env_or (environ w) "CHUNK_OVERLAP" "0") = Some (chunk_overlap c) /\
   py_int X (env_or (environ w) "BATCH_SIZE" "2") = Some (batch_size c) /\
   py_int X (env_or (environ w) "MMR_K" "3") = Some (mmr_k c) /\
   py_int X (env_or (environ w) "EMBEDDING_BATCH_SIZE" "1000")
     = Some (embedding_batch_size c) /\
   py_int X (env_or (environ w) "MAX_PROCESSES" "8") = Some (max_processes c)) /\
  (environ w1 !! "OPIK_WORKSPACE" = Some (opik_workspace c) /\
   environ w1 !! "OPIK_PROJECT_NAME" = Some (opik_project c) /\
   environ w1 !! "OMP_NUM_THREADS" = Some (Py.str_int (max_processes c)) /\
   environ w1 !! "MKL_NUM_THREADS" = Some (Py.str_int (max_processes c)) /\
   environ w1 !! "NUMEXPR_NUM_THREADS" = Some (Py.str_int (max_processes c))) /\
  (forall key, not_exported key = true -> environ w1 !! key = environ w !! key) /\
  config_cache w1 = config_cache w /\ remote w1 = remote w /\ trace w1 = trace w.
Proof.
  intros H. rewrite Config_new_run in H.
  destruct (config_of X (environ w)) as [c'|e] eqn:Hc; [|discriminate H].
  injection H as -> <-.
  split.
  - unfold config_of, parse_setting in Hc.
    repeat match type of Hc with
           | result_bind (match ?o with _ => _ end) _ = _ =>
               destruct o eqn:?; simpl in Hc; [|discriminate Hc]
           end.
    injection Hc as <-. simpl. repeat split; reflexivity.
  - simpl. rewrite exported_unfold. repeat split.
    + rewrite !lookup_insert_ne by discriminate. apply lookup_insert_eq.
    + rewrite !lookup_insert_ne by discriminate. apply lookup_insert_eq.
    + rewrite !lookup_insert_ne by discriminate. apply lookup_insert_eq.
    + rewrite !lookup_insert_ne by discriminate. apply lookup_insert_eq.
    + apply lookup_insert_eq.
    + intros key Hkey. rewrite <- exported_unfold. apply exported_other. exact Hkey.
Qed.

Lemma Config_new_effect_witness :
  exists c w1,
    Config_new (X := Toy.world) (Toy.start {["MAX_PROCESSES" := "4"]} []) = (Ok c, w1) /\
    max_processes c = 4 /\ environ w1 !! "OMP_NUM_THREADS" = Some "4".
Proof.
  destruct (Config_new (X := Toy.world) (Toy.start {["MAX_PROCESSES" := "4"]} []))
    as [[c|e] w1] eqn:Hrun.
  - exists c, w1. split; [reflexivity|].
    destruct (Config_new_effect Toy.world c _ w1 Hrun)
      as ((_ & _ & _ & _ & _ & _ & _ & _ & _ & Hmax) & (_ & _ & Homp & _) & _).
    vm_compute in Hmax. injection Hmax as Hmax.
    split; [symmetry; exact Hmax|].
    rewrite Homp. f_equal. change (Py.str_int (max_processes c) = Py.str_int 4).
    f_equal. symmetry. exact Hmax.
  - vm_compute in Hrun. discriminate Hrun.
Defined.

(** ** The batch uploader, beyond the retry law *)

Section uploader_more.
Context {X : Externals}.
Variable vectorstore : VectorStore X.

Lemma attempts_all_accepted batches (rem : Remote X) :
  (forall batch rem', fst (vs_add_documents X vectorstore batch rem') = Ok tt) ->
  fst (attempts vectorstore batches rem) = map (fun batch => (batch, FirstTry)) batches.
Proof.
  intros Hacc. revert rem. induction batches as [|batch rest IH]; intros rem.
  - reflexivity.
  - simpl. unfold attempt. specialize (Hacc batch rem).
    destruct (vs_add_documents X vectorstore batch rem) as [[[]|e] rem1];
      simpl in Hacc; [|discriminate Hacc].
    specialize (IH rem1).
    destruct (attempts vectorstore rest rem1) as [log rem2]. simpl in *.
    rewrite IH. reflexivity.
Qed.

Lemma attempts_all_refused batches (rem : Remote X) :
  (forall batch rem', exists e, fst (vs_add_documents X vectorstore batch rem') = Raise e) ->
  fst (attempts vectorstore batches rem) = map (fun batch => (batch, Failed)) batches.
Proof.
  intros Href. revert rem. induction batches as [|batch rest IH]; intros rem.
  - reflexivity.
  - simpl. unfold attempt. destruct (Href batch rem) as [e1 He1].
    destruct (vs_add_documents X vectorstore batch rem) as [[[]|e1'] rem1];
      simpl in He1; [discriminate He1|].
    destruct (Href batch rem1) as [e2 He2].
    destruct (vs_add_documents X vectorstore batch rem1) as [[[]|e2'] rem2];
      simpl in He2; [discriminate He2|].
    specialize (IH rem2).
    destruct (attempts vectorstore rest rem2) as [log rem3]. simpl in *.
    rewrite IH. reflexivity.
Qed.

Lemma uploaded_all (o : outcome) batches :
  is_failed o = false ->
  uploaded (map (fun batch => (batch, o)) batches) = Py.len (concat batches) /\
  refused (map (fun batch => (batch, o)) batches) = 0.
Proof.
  intros Ho. induction batches as [|batch rest [IHu IHr]]; [split; reflexivity|].
  simpl. rewrite Ho, IHu, IHr. unfold Py.len. rewrite length_app. split; lia.
Qed.

Lemma refused_all batches :
  uploaded (map (fun batch => (batch, Failed)) batches) = 0 /\
  refused (map (fun batch => (batch, Failed)) batches) = Py.len (concat batches).
Proof.
  induction batches as [|batch rest [IHu IHr]]; [split; reflexivity|].
  simpl. rewrite IHu, IHr. unfold Py.len. rewrite length_app. split; lia.
Qed.

Lemma log_events_all (o : outcome) batches :
  log_events (map (fun batch => (batch, o)) batches)
  = concat (map (fun batch => batch_events batch o) batches).
Proof. unfold log_events. rewrite map_map. reflexivity. Qed.

Lemma submissions_app tr1 tr2 :
  submissions (tr1 ++ tr2) = (submissions tr1 + submissions tr2)%nat.
Proof. unfold submissions. rewrite List.filter_app, length_app. reflexivity. Qed.

End uploader_more.

(** X9. When the vector store accepts every insert, the upload (for a
    batch size of at least one) counts every chunk as successful and
    none as failed, returns [True], and does for each batch in turn one
    insert, one collection and one pause, nothing else. *)
Theorem upload_all_accepted
    (X : Externals) (vectorstore : VectorStore X) (documents : list Document)
    (size : Z) (w : World X) :
  1 <= size ->
  (forall batch rem, fst (vs_add_documents X vectorstore batch rem) = Ok tt) ->
  fst (upload_counters vectorstore documents size w) = Ok (Py.len documents, 0) /\
  fst (upload_in_batches vectorstore documents size w) = Ok true /\
  trace (snd (upload_in_batches vectorstore documents size w)) =
  trace w ++ concat (map (fun batch => [EvAddDocuments batch; EvGcCollect; EvSleep 100])
                         (batches documents size)).
Proof.
  intros Hsize Hacc.
  assert (Hrun := upload_counters_run vectorstore documents size w ltac:(lia)).
  rewrite (attempts_all_accepted vectorstore _ _ Hacc) in Hrun.
  destruct (uploaded_all FirstTry (batches documents size) eq_refl) as [Hu Hr].
  rewrite Hu, Hr, batches_concat in Hrun by exact Hsize.
  rewrite log_events_all in Hrun.
  repeat split.
  - rewrite Hrun. reflexivity.
  - unfold upload_in_batches, bind. rewrite Hrun. reflexivity.
  - unfold upload_in_batches, bind. rewrite Hrun. reflexivity.
Qed.

Lemma upload_all_accepted_witness :
  fst (upload_counters (X := Sample.accepting) tt Toy.guide 2
                       (Sample.fresh Sample.accepting Sample.idle)) = Ok (3, 0).
Proof.
  refine (proj1 (upload_all_accepted Sample.accepting tt Toy.guide 2
                   (Sample.fresh Sample.accepting Sample.idle) ltac:(lia) _)).
  intros batch rem. reflexivity.
Defined.

(** X10. When the vector store refuses every insert, the upload (for a
    batch size of at least one) counts every chunk as failed, returns
    [True] only for an empty input, and submits each batch exactly twice
    with the backoff in between. *)
Theorem upload_all_refused
    (X : Externals) (vectorstore : VectorStore X) (documents : list Document)
    (size : Z) (w : World X) :
  1 <= size ->
  (forall batch rem, exists e, fst (vs_add_documents X vectorstore batch rem) = Raise e) ->
  fst (upload_counters vectorstore documents size w) = Ok (0, Py.len documents) /\
  fst (upload_in_batches vectorstore documents size w)
  = Ok (match documents with [] => true | _ :: _ => false end) /\
  trace (snd (upload_in_batches vectorstore documents size w)) =
  trace w ++ concat (map (fun batch => [EvAddDocuments batch; EvSleep 500;
                                        EvAddDocuments batch])
                         (batches documents size)).
Proof.
  intros Hsize Href.
  assert (Hrun := upload_counters_run vectorstore documents size w ltac:(lia)).
  rewrite (attempts_all_refused vectorstore _ _ Href) in Hrun.
  destruct (refused_all (batches documents size)) as [Hu Hr].
  rewrite Hu, Hr, batches_concat in Hrun by exact Hsize.
  rewrite log_events_all in Hrun.
  repeat split.
  - rewrite Hrun. reflexivity.
  - unfold upload_in_batches, bind. rewrite Hrun. simpl. unfold ret. simpl.
    destruct documents; reflexivity.
  - unfold upload_in_batches, bind. rewrite Hrun. reflexivity.
Qed.

Lemma upload_all_refused_witness :
  fst (upload_in_batches (X := Sample.refusing) tt Toy.guide 2
                         (Sample.fresh Sample.refusing Sample.idle)) = Ok false.
Proof.
  refine (proj1 (proj2 (upload_all_refused Sample.refusing tt Toy.guide 2
                          (Sample.fresh Sample.refusing Sample.idle) ltac:(lia) _))).
  intros batch rem. exists Toy.unavailable. reflexivity.
Defined.

(** X11. For a batch size of at least one, the batches are
    [ceil(n / size)] consecutive slices of the chunk sequence: each has
    between one and [size] chunks, every batch but the last has exactly
    [size], and put together they are the sequence. *)
Theorem batches_shape (documents : list Document) (size : Z) :
  1 <= size ->
  length (batches documents size)
  = Z.to_nat ((Py.len documents + size - 1) / size) /\
  (forall (k : nat) batch,
      batches documents size !! k = Some batch ->
      batch = Py.slice documents (Z.of_nat k * size) (Z.of_nat k * size + size) /\
      1 <= Py.len batch /\ Py.len batch <= size /\
      (S k < length (batches documents size) -> Py.len batch = size)%nat) /\
  concat (batches documents size) = documents.
Proof.
  intros Hsize.
  pose proof (batch_count_bounds documents size Hsize) as (Hk & Hhi & Hlo).
  assert (Hlen : length (batches documents size)
                 = Z.to_nat ((Py.len documents + size - 1) / size)).
  { unfold batches. rewrite range_positive_step by exact Hsize.
    rewrite !length_map, length_seq. reflexivity. }
  split; [exact Hlen|]. split; [|apply batches_concat; exact Hsize].
  intros k batch Hlook.
  assert (Hlt : (k < Z.to_nat ((Py.len documents + size - 1) / size))%nat)
    by (rewrite <- Hlen; eapply lookup_lt_Some; exact Hlook).
  unfold batches in Hlook. rewrite range_positive_step in Hlook by exact Hsize.
  rewrite !list_lookup_fmap, lookup_seq_lt in Hlook by exact Hlt.
  simpl in Hlook. injection Hlook as <-. unfold batch_at.
  split; [reflexivity|].
  rewrite slice_length by nia.
  repeat split; nia.
Qed.

Lemma batches_shape_witness :
  length (batches Toy.guide 2) = 2%nat /\ concat (batches Toy.guide 2) = Toy.guide.
Proof.
  destruct (batches_shape Toy.guide 2 ltac:(lia)) as (Hlen & _ & Hcat).
  split; [exact Hlen|exact Hcat].
Defined.

(** X12. A batch size that is not positive uploads nothing: with a
    negative size the loop has no iteration and [upload_in_batches]
    returns [True] at once, also for a non-empty input; with size zero
    [range] raises [ValueError].  In both cases the world is left as it
    was. *)
Theorem upload_without_a_positive_batch_size
    (X : Externals) (vectorstore : VectorStore X) (documents : list Document)
    (size : Z) (w : World X) :
  (size < 0 -> upload_in_batches vectorstore documents size w = (Ok true, w)) /\
  (size = 0 ->
   upload_in_batches vectorstore documents size w
   = (Raise (Exn ValueError "range() arg 3 must not be zero"), w)).
Proof.
  split.
  - intros Hneg. unfold upload_in_batches, bind.
    rewrite upload_counters_run by lia.
    unfold batches. rewrite range_negative_step by exact Hneg.
    simpl. unfold log_events. simpl. rewrite app_nil_r. destruct w; reflexivity.
  - intros ->. reflexivity.
Qed.

Section submissions_count.

Lemma submissions_log log :
  submissions (log_events log)
  = (length log + length (List.filter second_try log))%nat.
Proof.
  induction log as [|[batch o] rest IH]; [reflexivity|].
  unfold log_events in *. cbn [map concat]. rewrite submissions_app, IH.
  destruct o; simpl; lia.
Qed.

End submissions_count.

(** X13. For a non-zero batch size the number of inserts a run sends is
    the number of batches plus the number of batches whose first insert
    was refused: every batch is submitted once or twice, never more. *)
Theorem upload_submits_once_or_twice
    (X : Externals) (vectorstore : VectorStore X) (documents : list Document)
    (size : Z) (w : World X) :
  size <> 0 ->
  let log := fst (attempts vectorstore (batches documents size) (remote w)) in
  let sent := (submissions (trace (snd (upload_in_batches vectorstore documents size w)))
               - submissions (trace w))%nat in
  sent = (length (batches documents size) + length (List.filter second_try log))%nat /\
  (length (batches documents size) <= sent)%nat /\
  (sent <= 2 * length (batches documents size))%nat.
Proof.
  intros Hsize log sent.
  assert (Hlen : length log = length (batches documents size)).
  { unfold log. rewrite <- (attempts_batches vectorstore (batches documents size) (remote w))
      at 2. rewrite length_map. reflexivity. }
  assert (Hsent : sent = (length log + length (List.filter second_try log))%nat).
  { unfold sent, upload_in_batches, bind.
    rewrite upload_counters_run by exact Hsize. simpl.
    rewrite submissions_app, submissions_log. fold log. lia. }
  pose proof (List.filter_length_le second_try log) as Hle.
  rewrite Hsent, Hlen in *. repeat split; lia.
Qed.

Lemma upload_submits_once_or_twice_witness :
  (submissions (trace (snd (upload_in_batches (X := Toy.world) tt Toy.guide 1
                              (Toy.start ∅ [false; true; false; false])))) - 0)%nat
  = (3 + 2)%nat.
Proof.
  refine (eq_trans (proj1 (upload_submits_once_or_twice Toy.world tt Toy.guide 1
                             (Toy.start ∅ [false; true; false; false]) _)) _).
  - discriminate.
  - reflexivity.
Defined.

(** ** The orchestrator, step by step *)

Section ingest_more.
Context {X : Externals}.

Lemma ingest_documents_steps path config c documents chunks embeddings client
      test_vector created vectorstore (w w1 w2 w3 w4 w5 w6 w7 : World X) :
  config_or_default config w = (Ok c, w1) ->
  missing_in (environ w1) = [] ->
  load_pdf (path_or_default path c) (Some c) w1 = (Ok documents, w2) ->
  text_splitter X (chunk_size c) (chunk_overlap c) documents = Ok chunks ->
  create_embeddings (Some c) w2 = (Ok embeddings, w3) ->
  create_qdrant_client w3 = (Ok client, w4) ->
  call (EvEmbedQuery "test") (embed_query X embeddings "test") w4 = (Ok test_vector, w5) ->
  create_or_verify_collection client c (Py.len test_vector) w5 = (Ok created, w6) ->
  create_vector_store (Some client) (Some embeddings) (Some c) w6 = (Ok vectorstore, w7) ->
  ingest_documents path config w = upload_and_report c vectorstore chunks w7.
Proof.
  intros Hcfg Hmiss Hload Hsplit Hemb Hclient Hdim Hcoll Hvs.
  unfold ingest_documents. rewrite handle_errors_id.
  rewrite (bind_ok _ _ _ _ _ Hcfg).
  unfold bind at 1, validate_environment at 1. rewrite Hmiss.
  rewrite (bind_ok _ _ _ _ _ Hload).
  unfold split_documents at 1, config_or_default at 1.
  unfold bind at 1. unfold bind at 1, ret at 1, lift_result at 1. rewrite Hsplit.
  rewrite (bind_ok _ _ _ _ _ Hemb).
  rewrite (bind_ok _ _ _ _ _ Hclient).
  rewrite (bind_ok _ _ _ _ _ Hdim).
  rewrite (bind_ok _ _ _ _ _ Hcoll).
  rewrite (bind_ok _ _ _ _ _ Hvs).
  reflexivity.
Qed.

End ingest_more.

Section network_steps.
Context {X : Externals}.

Lemma call_run {A} ev (f : Remote X -> result A * Remote X) (w : World X) :
  call ev f w = (fst (f (remote w)), with_remote (snd (f (remote w))) (record ev w)).
Proof.
  unfold call, bind, log. simpl. destruct (f (remote w)); reflexivity.
Qed.

Lemma call_trace {A} ev (f : Remote X -> result A * Remote X) (w w' : World X) r :
  call ev f w = (r, w') ->
  trace w' = trace w ++ [ev] /\ environ w' = environ w /\
  config_cache w' = config_cache w.
Proof. rewrite call_run. intros [= <- <-]. repeat split. Qed.

Lemma create_embeddings_run c (w : World X) :
  create_embeddings (Some c) w =
  call EvEmbeddingsInit
       (AzureOpenAIEmbeddings X
          (environ w !! "AZURE_OPENAI_EMBEDDINGS_API_KEY")
          (environ w !! "AZURE_OPENAI_EMBEDDINGS_ENDPOINT")
          (environ w !! "AZURE_OPENAI_EMBEDDINGS_API_VERSION")
          (environ w !! "AZURE_OPENAI_EMBEDDINGS_DEPLOYMENT_NAME")
          (embedding_batch_size c)) w.
Proof. unfold create_embeddings. rewrite handle_errors_id. reflexivity. Qed.

Lemma create_qdrant_client_run (w : World X) :
  create_qdrant_client w =
  call EvClientInit
       (QdrantClient X (environ w !! "QDRANT_URL") (environ w !! "QDRANT_API_KEY")) w.
Proof. unfold create_qdrant_client. rewrite handle_errors_id. reflexivity. Qed.

Lemma create_vector_store_run client embeddings c (w : World X) :
  create_vector_store (Some client) (Some embeddings) (Some c) w =
  call (EvVectorStoreInit (collection_name c))
       (QdrantVectorStore X client (collection_name c) embeddings) w.
Proof. unfold create_vector_store. rewrite handle_errors_id. reflexivity. Qed.

Lemma create_or_verify_trace client c dim (w w' : World X) r :
  create_or_verify_collection client c dim w = (r, w') ->
  trace w' = trace w ++ [EvCreateCollection (provisioning_params c dim)] /\
  environ w' = environ w /\ config_cache w' = config_cache w.
Proof. rewrite create_or_verify_run. intros [= <- <-]. repeat split. Qed.

(** The run of the last part of [ingest_documents], for a non-zero
    batch size. *)
Lemma upload_and_report_run c vectorstore chunks (w : World X) :
  batch_size c <> 0 ->
  let rem0 := snd (time_time X (remote w)) in
  let log := attempts vectorstore (batches chunks (batch_size c)) rem0 in
  upload_and_report c vectorstore chunks w =
  (match chunks with
   | [] => Raise (Exn ZeroDivisionError "float division by zero")
   | _ :: _ => Ok (refused (fst log) =? 0)
   end,
   Build_World X (environ w) (config_cache w)
     (snd (time_time X (snd log)))
     (trace w ++ log_events (fst log))).
Proof.
  intros Hsize rem0 log. unfold upload_and_report.
  unfold bind at 1, now at 1.
  destruct (time_time X (remote w)) as [t0 r0] eqn:Ht0.
  unfold bind at 1. unfold upload_in_batches, bind at 1.
  rewrite upload_counters_run by exact Hsize.
  unfold ret at 1. cbv beta iota.
  unfold bind at 1, now at 1. simpl remote.
  subst rem0 log. simpl snd.
  destruct (time_time X (snd (attempts vectorstore (batches chunks (batch_size c)) r0)))
    as [t1 r1] eqn:Ht1.
  unfold bind, truediv, ret, raise, with_remote. simpl.
  destruct chunks as [|d rest]; reflexivity.
Qed.

End network_steps.

(** A run that returns [a] is the pair of [a] and the world it leaves. *)
Lemma run_ok {X A} (m : M X A) (w : World X) (a : A) :
  fst (m w) = Ok a -> m w = (Ok a, snd (m w)).
Proof. destruct (m w) as [r w']. simpl. intros ->. reflexivity. Qed.

(** Discharges [m w = (Ok a, snd (m w))] by running [m]. *)
Ltac by_running := apply run_ok; vm_compute; reflexivity.

(** X14. When every step up to the vector store goes through, the
    splitter returns at least one chunk and the batch size is not zero,
    [ingest_documents] returns the boolean of [upload_in_batches]: [True]
    exactly when no batch was refused twice. *)
Theorem ingest_returns_the_upload_result
    (X : Externals) (path : option string) (config : option Config) (c : Config)
    (documents chunks : list Document) (embeddings : Embeddings X) (client : Client X)
    (test_vector : list (Float X)) (created : bool) (vectorstore : VectorStore X)
    (w w1 w2 w3 w4 w5 w6 w7 : World X) :
  config_or_default config w = (Ok c, w1) ->
  missing_in (environ w1) = [] ->
  load_pdf (path_or_default path c) (Some c) w1 = (Ok documents, w2) ->
  text_splitter X (chunk_size c) (chunk_overlap c) documents = Ok chunks ->
  create_embeddings (Some c) w2 = (Ok embeddings, w3) ->
  create_qdrant_client w3 = (Ok client, w4) ->
  call (EvEmbedQuery "test") (embed_query X embeddings "test") w4 = (Ok test_vector, w5) ->
  create_or_verify_collection client c (Py.len test_vector) w5 = (Ok created, w6) ->
  create_vector_store (Some client) (Some embeddings) (Some c) w6 = (Ok vectorstore, w7) ->
  chunks <> [] ->
  batch_size c <> 0 ->
  let started := with_remote (snd (time_time X (remote w7))) w7 in
  let log := fst (attempts vectorstore (batches chunks (batch_size c)) (remote started)) in
  exists b : bool,
    fst (ingest_documents path config w) = Ok b /\
    fst (upload_in_batches vectorstore chunks (batch_size c) started) = Ok b /\
    (b = true <-> forall batch o, In (batch, o) log -> o <> Failed).
Proof.
  intros Hcfg Hmiss Hload Hsplit Hemb Hclient Hdim Hcoll Hvs Hne Hsize started log.
  exists (refused log =? 0).
  rewrite (ingest_documents_steps path config c documents chunks embeddings client
             test_vector created vectorstore w w1 w2 w3 w4 w5 w6 w7) by assumption.
  rewrite upload_and_report_run by exact Hsize.
  repeat split.
  - destruct chunks; [contradiction|reflexivity].
  - unfold upload_in_batches, bind. rewrite upload_counters_run by exact Hsize.
    reflexivity.
  - rewrite Z.eqb_eq. intros H0. apply refused_zero; [|exact H0].
    unfold log. rewrite attempts_batches. intros batch.
    apply batches_nonempty_any. exact Hsize.
  - rewrite Z.eqb_eq. intros Hall. apply refused_zero; [|exact Hall].
    unfold log. rewrite attempts_batches. intros batch.
    apply batches_nonempty_any. exact Hsize.
Qed.

Lemma ingest_returns_the_upload_result_witness :
  exists b : bool,
    fst (ingest_documents (X := Toy.world) (Some "guide.pdf") (Some Toy.config)
                          (Toy.start Toy.full_env [false; true])) = Ok b.
Proof.
  pose (w2 := snd (load_pdf (X := Toy.world) "guide.pdf" (Some Toy.config)
                            (Toy.start Toy.full_env [false; true]))).
  pose (w3 := snd (create_embeddings (X := Toy.world) (Some Toy.config) w2)).
  pose (w4 := snd (create_qdrant_client (X := Toy.world) w3)).
  pose (w5 := snd (call (X := Toy.world) (EvEmbedQuery "test")
                        (embed_query Toy.world tt "test") w4)).
  pose (w6 := snd (create_or_verify_collection (X := Toy.world) tt Toy.config 4 w5)).
  pose (w7 := snd (create_vector_store (X := Toy.world) (Some tt) (Some tt)
                                       (Some Toy.config) w6)).
  destruct (ingest_returns_the_upload_result Toy.world (Some "guide.pdf")
              (Some Toy.config) Toy.config Toy.guide Toy.guide tt tt [0; 0; 0; 0] true tt
              (Toy.start Toy.full_env [false; true]) (Toy.start Toy.full_env [false; true])
              w2 w3 w4 w5 w6 w7
              eq_refl
              ltac:(vm_compute; reflexivity)
              ltac:(by_running)
              eq_refl
              ltac:(by_running)
              ltac:(by_running)
              ltac:(by_running)
              ltac:(by_running)
              ltac:(by_running)
              ltac:(discriminate)
              ltac:(discriminate)) as (b & Hrun & _).
  exists b. exact Hrun.
Defined.

(** X15. A run whose steps all go through does, after loading the
    file, exactly this and in this order: it builds one embeddings
    client and one vector-store client, embeds the probe text, creates
    the collection with the length of the probe vector as its
    dimension, binds the vector store to the collection, and then
    uploads the batches.  Nothing else is recorded, also when the run
    ends in the division by zero of an input without chunks. *)
Theorem ingest_order_of_steps
    (X : Externals) (path : option string) (config : option Config) (c : Config)
    (documents chunks : list Document) (embeddings : Embeddings X) (client : Client X)
    (test_vector : list (Float X)) (created : bool) (vectorstore : VectorStore X)
    (w w1 w2 w3 w4 w5 w6 w7 : World X) :
  config_or_default config w = (Ok c, w1) ->
  missing_in (environ w1) = [] ->
  load_pdf (path_or_default path c) (Some c) w1 = (Ok documents, w2) ->
  text_splitter X (chunk_size c) (chunk_overlap c) documents = Ok chunks ->
  create_embeddings (Some c) w2 = (Ok embeddings, w3) ->
  create_qdrant_client w3 = (Ok client, w4) ->
  call (EvEmbedQuery "test") (embed_query X embeddings "test") w4 = (Ok test_vector, w5) ->
  create_or_verify_collection client c (Py.len test_vector) w5 = (Ok created, w6) ->
  create_vector_store (Some client) (Some embeddings) (Some c) w6 = (Ok vectorstore, w7) ->
  batch_size c <> 0 ->
  let log := fst (attempts vectorstore (batches chunks (batch_size c))
                           (snd (time_time X (remote w7)))) in
  trace (snd (ingest_documents path config w)) =
  trace w2 ++
    [ EvEmbeddingsInit; EvClientInit; EvEmbedQuery "test";
      EvCreateCollection (provisioning_params c (Py.len test_vector));
      EvVectorStoreInit (collection_name c) ] ++
    log_events log.
Proof.
  intros Hcfg Hmiss Hload Hsplit Hemb Hclient Hdim Hcoll Hvs Hsize log.
  rewrite (ingest_documents_steps path config c documents chunks embeddings client
             test_vector created vectorstore w w1 w2 w3 w4 w5 w6 w7) by assumption.
  rewrite upload_and_report_run by exact Hsize. simpl. fold log.
  rewrite create_embeddings_run in Hemb. apply call_trace in Hemb as (H3 & _).
  rewrite create_qdrant_client_run in Hclient. apply call_trace in Hclient as (H4 & _).
  apply call_trace in Hdim as (H5 & _).
  apply create_or_verify_trace in Hcoll as (H6 & _).
  rewrite create_vector_store_run in Hvs. apply call_trace in Hvs as (H7 & _).
  rewrite H7, H6, H5, H4, H3. rewrite <- !app_assoc. reflexivity.
Qed.

Lemma ingest_order_of_steps_witness :
  trace (snd (ingest_documents (X := Toy.world) (Some "guide.pdf") (Some Toy.config)
                               (Toy.start Toy.full_env [true; false; true])))
  = [ EvPdfLoad "guide.pdf"; EvPool 2; EvStarmap [(0, 1); (1, 3)];
      EvPdfLoad "guide.pdf"; EvPdfLoad "guide.pdf";
      EvEmbeddingsInit; EvClientInit; EvEmbedQuery "test";
      EvCreateCollection (provisioning_params Toy.config 4);
      EvVectorStoreInit "atyantik-chatbot-openai";
      EvAddDocuments [Toy.page "one"; Toy.page "two"]; EvGcCollect; EvSleep 100;
      EvAddDocuments [Toy.page "three"]; EvSleep 500;
      EvAddDocuments [Toy.page "three"] ].
Proof.
  pose (w2 := snd (load_pdf (X := Toy.world) "guide.pdf" (Some Toy.config)
                            (Toy.start Toy.full_env [true; false; true]))).
  pose (w3 := snd (create_embeddings (X := Toy.world) (Some Toy.config) w2)).
  pose (w4 := snd (create_qdrant_client (X := Toy.world) w3)).
  pose (w5 := snd (call (X := Toy.world) (EvEmbedQuery "test")
                        (embed_query Toy.world tt "test") w4)).
  pose (w6 := snd (create_or_verify_collection (X := Toy.world) tt Toy.config 4 w5)).
  pose (w7 := snd (create_vector_store (X := Toy.world) (Some tt) (Some tt)
                                       (Some Toy.config) w6)).
  refine (eq_trans
    (ingest_order_of_steps Toy.world (Some "guide.pdf") (Some Toy.config) Toy.config
       Toy.guide Toy.guide tt tt [0; 0; 0; 0] true tt
       (Toy.start Toy.full_env [true; false; true])
       (Toy.start Toy.full_env [true; false; true])
       w2 w3 w4 w5 w6 w7
       eq_refl
       ltac:(vm_compute; reflexivity)
       ltac:(by_running)
       eq_refl
       ltac:(by_running)
       ltac:(by_running)
       ltac:(by_running)
       ltac:(by_running)
       ltac:(by_running)
       ltac:(discriminate)) _).
  vm_compute. reflexivity.
Defined.



(** X17. When [create_collection] fails for another reason than the
    collection being there already, [ingest_documents] raises that
    error; the vector store is never bound and nothing is uploaded: the
    failed creation is the last thing recorded. *)
Theorem ingest_stops_at_a_failed_collection
    (X : Externals) (path : option string) (config : option Config) (c : Config)
    (documents chunks : list Document) (embeddings : Embeddings X) (client : Client X)
    (test_vector : list (Float X)) (e : exn) (rem : Remote X)
    (w w1 w2 w3 w4 w5 : World X) :
  config_or_default config w = (Ok c, w1) ->
  missing_in (environ w1) = [] ->
  load_pdf (path_or_default path c) (Some c) w1 = (Ok documents, w2) ->
  text_splitter X (chunk_size c) (chunk_overlap c) documents = Ok chunks ->
  create_embeddings (Some c) w2 = (Ok embeddings, w3) ->
  create_qdrant_client w3 = (Ok client, w4) ->
  call (EvEmbedQuery "test") (embed_query X embeddings "test") w4 = (Ok test_vector, w5) ->
  client_create_collection X client (provisioning_params c (Py.len test_vector)) (remote w5)
  = (Raise e, rem) ->
  already_exists e = false ->
  fst (ingest_documents path config w) = Raise e /\
  trace (snd (ingest_documents path config w)) =
  trace w5 ++ [EvCreateCollection (provisioning_params c (Py.len test_vector))].
Proof.
  intros Hcfg Hmiss Hload Hsplit Hemb Hclient Hdim Hcreate Hother.
  assert (Hcoll : create_or_verify_collection client c (Py.len test_vector) w5
                  = (Raise e, with_remote rem
                       (record (EvCreateCollection
                                  (provisioning_params c (Py.len test_vector))) w5))).
  { rewrite create_or_verify_run, Hcreate. simpl. rewrite Hother. reflexivity. }
  assert (Hrun : ingest_documents path config w
                 = (Raise e, with_remote rem
                      (record (EvCreateCollection
                                 (provisioning_params c (Py.len test_vector))) w5))).
  { unfold ingest_documents. rewrite handle_errors_id.
    rewrite (bind_ok _ _ _ _ _ Hcfg).
    unfold bind at 1, validate_environment at 1. rewrite Hmiss.
    rewrite (bind_ok _ _ _ _ _ Hload).
    unfold split_documents at 1, config_or_default at 1.
    unfold bind at 1. unfold bind at 1, ret at 1, lift_result at 1. rewrite Hsplit.
    rewrite (bind_ok _ _ _ _ _ Hemb).
    rewrite (bind_ok _ _ _ _ _ Hclient).
    rewrite (bind_ok _ _ _ _ _ Hdim).
    rewrite (bind_raise _ _ _ _ _ Hcoll). reflexivity. }
  rewrite Hrun. split; reflexivity.
Qed.

Lemma ingest_stops_at_a_failed_collection_witness :
  fst (ingest_documents (X := Sample.offline) (Some "guide.pdf") (Some Toy.config)
                        (Sample.ready Sample.offline Sample.idle))
  = Raise Toy.unavailable.
Proof.
  pose (w2 := snd (load_pdf (X := Sample.offline) "guide.pdf" (Some Toy.config)
                            (Sample.ready Sample.offline Sample.idle))).
  pose (w3 := snd (create_embeddings (X := Sample.offline) (Some Toy.config) w2)).
  pose (w4 := snd (create_qdrant_client (X := Sample.offline) w3)).
  pose (w5 := snd (call (X := Sample.offline) (EvEmbedQuery "test")
                        (embed_query Sample.offline tt "test") w4)).
  refine (proj1
    (ingest_stops_at_a_failed_collection Sample.offline (Some "guide.pdf")
       (Some Toy.config) Toy.config Toy.guide Toy.guide tt tt [0; 0; 0; 0]
       Toy.unavailable Sample.idle
       (Sample.ready Sample.offline Sample.idle) (Sample.ready Sample.offline Sample.idle)
       w2 w3 w4 w5
       eq_refl
       ltac:(vm_compute; reflexivity)
       ltac:(by_running)
       eq_refl
       ltac:(by_running)
       ltac:(by_running)
       ltac:(by_running)
       ltac:(vm_compute; reflexivity)
       ltac:(vm_compute; reflexivity))).
Defined.

(** X18. The exit status of the script is 0 exactly when
    [ingest_documents] returned [True], and 1 otherwise.  In particular
    it is 1, with nothing recorded, when the configuration cannot be
    built or a required variable is unset or empty. *)
Theorem pipeline_main_exit_status (X : Externals) (w : World X) :
  (fst (pipeline_main w) = 0 <-> fst (ingest_documents None None w) = Ok true) /\
  (fst (pipeline_main w) = 0 \/ fst (pipeline_main w) = 1) /\
  snd (pipeline_main w) = snd (ingest_documents None None w) /\
  (forall e w1, get_config w = (Raise e, w1) ->
     pipeline_main w = (1, w1) /\ trace w1 = trace w /\ remote w1 = remote w) /\
  (forall c w1, get_config w = (Ok c, w1) -> missing_in (environ w) <> [] ->
     pipeline_main w = (1, w1) /\ trace w1 = trace w /\ remote w1 = remote w).
Proof.
  unfold pipeline_main.
  repeat split.
  - destruct (ingest_documents None None w) as [[[]|] w']; simpl; congruence.
  - destruct (ingest_documents None None w) as [[[]|] w']; simpl; congruence.
  - destruct (ingest_documents None None w) as [[[]|] w']; simpl; auto.
  - destruct (ingest_documents None None w) as [[[]|] w']; reflexivity.
  - unfold ingest_documents. rewrite handle_errors_id.
    rewrite (bind_raise _ _ _ _ _ (H : config_or_default None w = _)). reflexivity.
  - destruct (quiet_get_config w) as (Ht & _). rewrite H in Ht. exact Ht.
  - destruct (quiet_get_config w) as (_ & Hr & _). rewrite H in Hr. exact Hr.
  - destruct (config_resolved None c w w1 H) as (_ & _ & Hmiss).
    unfold ingest_documents. rewrite handle_errors_id.
    rewrite (bind_ok _ _ _ _ _ (H : config_or_default None w = _)).
    unfold bind, validate_environment. rewrite Hmiss.
    destruct (missing_in (environ w)); [contradiction|reflexivity].
  - destruct (config_resolved None c w w1 H) as (Ht & _). exact Ht.
  - destruct (config_resolved None c w w1 H) as (_ & Hr & _). exact Hr.
Qed.

(** ** The vector store handle *)

(** X19. [create_vector_store] builds nothing it is given: with a client
    and embeddings supplied it only binds the vector store.  Left to
    itself it builds the client first, then the embeddings, then binds
    the store, and stops at the first of these that fails. *)
Theorem create_vector_store_builds_what_is_missing
    (X : Externals) (client : Client X) (embeddings : Embeddings X) (c : Config)
    (w : World X) :
  trace (snd (create_vector_store (Some client) (Some embeddings) (Some c) w))
  = trace w ++ [EvVectorStoreInit (collection_name c)] /\
  trace (snd (create_vector_store None None (Some c) w))
  = trace w ++
      match fst (QdrantClient X (environ w !! "QDRANT_URL")
                              (environ w !! "QDRANT_API_KEY") (remote w)) with
      | Raise _ => [EvClientInit]
      | Ok _ =>
          match fst (AzureOpenAIEmbeddings X
                       (environ w !! "AZURE_OPENAI_EMBEDDINGS_API_KEY")
                       (environ w !! "AZURE_OPENAI_EMBEDDINGS_ENDPOINT")
                       (environ w !! "AZURE_OPENAI_EMBEDDINGS_API_VERSION")
                       (environ w !! "AZURE_OPENAI_EMBEDDINGS_DEPLOYMENT_NAME")
                       (embedding_batch_size c)
                       (snd (QdrantClient X (environ w !! "QDRANT_URL")
                                          (environ w !! "QDRANT_API_KEY") (remote w)))) with
          | Raise _ => [EvClientInit; EvEmbeddingsInit]
          | Ok _ => [EvClientInit; EvEmbeddingsInit;
                     EvVectorStoreInit (collection_name c)]
          end
      end.
Proof.
  split.
  - rewrite create_vector_store_run, call_run. reflexivity.
  - unfold create_vector_store. rewrite handle_errors_id.
    unfold config_or_default, bind at 1, ret at 1.
    unfold bind at 1. rewrite create_qdrant_client_run, call_run.
    destruct (QdrantClient X (environ w !! "QDRANT_URL")
                           (environ w !! "QDRANT_API_KEY") (remote w))
      as [[cl|e] rem1]; simpl; [|reflexivity].
    unfold bind at 1. rewrite create_embeddings_run, call_run. simpl.
    destruct (AzureOpenAIEmbeddings X _ _ _ _ _ rem1) as [[emb|e] rem2]; simpl.
    + rewrite call_run. simpl. rewrite <- !app_assoc. reflexivity.
    + rewrite <- !app_assoc. reflexivity.
Qed.

(** ** Prompt loading *)

Section prompts_facts.
Variable path_join : string -> string -> string.
Variable strip : string -> string.

Local Abbreviation load_prompt := (Prompts.load_prompt path_join strip).
Local Abbreviation get_prompts := (Prompts.get_prompts path_join strip).

Lemma key_eqb_refl k : Prompts.key_eqb k k = true.
Proof.
  destruct k as [f [d|]]; unfold Prompts.key_eqb; simpl;
    rewrite ?String.eqb_refl; reflexivity.
Qed.

Lemma lru_remove_absent k c :
  Prompts.lru_find k c = None -> Prompts.lru_remove k c = c.
Proof.
  induction c as [|[k' v] rest IH]; intros Hfind; [reflexivity|].
  simpl in *. destruct (Prompts.key_eqb k k'); [discriminate Hfind|].
  simpl. rewrite IH by exact Hfind. reflexivity.
Qed.

Lemma lru_find_removed k c : Prompts.lru_find k (Prompts.lru_remove k c) = None.
Proof.
  induction c as [|[k' v] rest IH]; [reflexivity|].
  simpl. destruct (Prompts.key_eqb k k') eqn:Hk; simpl; [exact IH|].
  rewrite Hk. exact IH.
Qed.

Lemma lru_find_take k c n :
  Prompts.lru_find k c = None -> Prompts.lru_find k (firstn n c) = None.
Proof.
  revert n. induction c as [|[k' v] rest IH]; intros n Hfind.
  - destruct n; reflexivity.
  - destruct n; [reflexivity|]. simpl in *.
    destruct (Prompts.key_eqb k k'); [discriminate Hfind|]. apply IH. exact Hfind.
Qed.

(** After a successful call the entry is at the front and occurs
    nowhere else. *)
Lemma load_prompt_front fs filename dir c v c1 :
  load_prompt fs filename dir c = (Ok v, c1) ->
  exists rest, c1 = ((filename, dir), v) :: rest /\
               Prompts.lru_find (filename, dir) rest = None.
Proof.
  unfold Prompts.load_prompt. intros H.
  destruct (Prompts.lru_find (filename, dir) c) as [v0|] eqn:Hfind.
  - injection H as <- <-. eexists. split; [reflexivity|]. apply lru_find_removed.
  - destruct (Prompts.read_prompt _ _ _ _ _) as [v0|e]; [|discriminate H].
    injection H as <- <-. unfold Prompts.lru_store. simpl.
    eexists. split; [reflexivity|]. apply lru_find_take. exact Hfind.
Qed.

Lemma load_prompt_hit fs filename dir c v rest :
  c = ((filename, dir), v) :: rest ->
  Prompts.lru_find (filename, dir) rest = None ->
  load_prompt fs filename dir c = (Ok v, c).
Proof.
  intros -> Hrest. unfold Prompts.load_prompt. simpl.
  rewrite key_eqb_refl. unfold Prompts.lru_touch. simpl.
  rewrite key_eqb_refl. simpl. rewrite lru_remove_absent by exact Hrest. reflexivity.
Qed.

(** A second entry right behind the front stays there when another key
    is loaded. *)
Lemma load_prompt_keeps_previous fs filename dir k0 v0 r v c1 :
  Prompts.key_eqb (filename, dir) k0 = false ->
  load_prompt fs filename dir ((k0, v0) :: r) = (Ok v, c1) ->
  exists r2, c1 = ((filename, dir), v) :: (k0, v0) :: r2.
Proof.
  intros Hne. unfold Prompts.load_prompt. simpl. rewrite Hne. intros H.
  destruct (Prompts.lru_find (filename, dir) r) as [v1|].
  - injection H as <- <-. unfold Prompts.lru_touch. simpl. rewrite Hne. simpl.
    eexists. reflexivity.
  - destruct (Prompts.read_prompt _ _ _ _ _) as [v1|e]; [|discriminate H].
    injection H as <- <-. unfold Prompts.lru_store. simpl. eexists. reflexivity.
Qed.

Lemma load_prompt_failure fs filename dir c e c1 :
  load_prompt fs filename dir c = (Raise e, c1) ->
  c1 = c /\ Prompts.lru_find (filename, dir) c = None.
Proof.
  unfold Prompts.load_prompt.
  destruct (Prompts.lru_find (filename, dir) c); [discriminate|].
  destruct (Prompts.read_prompt _ _ _ _ _); [discriminate|].
  intros [= _ <-]. split; reflexivity.
Qed.

End prompts_facts.


(** X21. Once [load_prompt] has returned a prompt, calling it again with
    the same arguments returns the same text and leaves the cache as it
    is, whatever has happened to the file in between: the file system is
    not consulted. *)
Theorem load_prompt_is_cached
    (path_join : string -> string -> string) (strip : string -> string)
    (fs : Prompts.file_system) (filename : string) (dir : option string)
    (c c1 : Prompts.lru) (v : string) :
  Prompts.load_prompt path_join strip fs filename dir c = (Ok v, c1) ->
  forall fs' : Prompts.file_system,
    Prompts.load_prompt path_join strip fs' filename dir c1 = (Ok v, c1).
Proof.
  intros H fs'.
  destruct (load_prompt_front path_join strip fs filename dir c v c1 H)
    as (rest & Hc1 & Hrest).
  apply (load_prompt_hit path_join strip fs' filename dir c1 v rest Hc1 Hrest).
Qed.

Lemma load_prompt_is_cached_witness :
  fst (Prompts.load_prompt Prompts.slash_join (fun s => s) Prompts.no_files
         "system_cto.txt" None
         (snd (Prompts.load_prompt Prompts.slash_join (fun s => s) Prompts.two_prompts
                 "system_cto.txt" None [])))
  = Ok "You are a CTO.".
Proof.
  exact (f_equal fst
           (load_prompt_is_cached Prompts.slash_join (fun s => s) Prompts.two_prompts
              "system_cto.txt" None []
              (snd (Prompts.load_prompt Prompts.slash_join (fun s => s)
                      Prompts.two_prompts "system_cto.txt" None []))
              "You are a CTO." eq_refl Prompts.no_files)).
Defined.

(** X22. Once [get_prompts] has returned the two prompts, it returns the
    same pair again whatever the files have become; and when the system
    prompt cannot be loaded it raises without looking for the user
    prompt, leaving the cache as it was. *)
Theorem get_prompts_is_stable
    (path_join : string -> string -> string) (strip : string -> string)
    (fs : Prompts.file_system) (c : Prompts.lru) :
  (forall system_prompt user_prompt c1,
      Prompts.get_prompts path_join strip fs c = (Ok (system_prompt, user_prompt), c1) ->
      forall fs' : Prompts.file_system,
        fst (Prompts.get_prompts path_join strip fs' c1)
        = Ok (system_prompt, user_prompt)) /\
  (forall e c1,
      Prompts.load_prompt path_join strip fs "system_cto.txt" None c = (Raise e, c1) ->
      Prompts.get_prompts path_join strip fs c = (Raise e, c)).
Proof.
  split.
  - intros s u c1 H fs'. unfold Prompts.get_prompts in H.
    destruct (Prompts.load_prompt path_join strip fs "system_cto.txt" None c)
      as [[s0|e] c'] eqn:Hsys; [|discriminate H].
    destruct (Prompts.load_prompt path_join strip fs "user_query.txt" None c')
      as [[u0|e] c''] eqn:Husr; [|discriminate H].
    injection H as -> -> ->.
    destruct (load_prompt_front _ _ _ _ _ _ _ _ Hsys) as (r1 & -> & _).
    destruct (load_prompt_keeps_previous path_join strip fs "user_query.txt" None
                ("system_cto.txt", None) s r1 u c1 eq_refl Husr) as (r2 & ->).
    unfold Prompts.get_prompts, Prompts.load_prompt. simpl.
    unfold Prompts.lru_touch. simpl. reflexivity.
  - intros e c1 Hsys. unfold Prompts.get_prompts. rewrite Hsys.
    destruct (load_prompt_failure path_join strip fs "system_cto.txt" None c e c1 Hsys)
      as [-> _].
    reflexivity.
Qed.


(** ** The setup wizard *)

(** X23. [validate_azure_endpoint] accepts exactly the strings that
    start with [https://] and have [.openai.azure.com] somewhere after
    it; what follows that text is not looked at, so the text need not be
    the end of the host name. *)
Theorem validate_azure_endpoint_accepts (endpoint : string) :
  SetupEnv.validate_azure_endpoint endpoint = true <->
  exists a b, endpoint = "https://" +:+ a +:+ ".openai.azure.com" +:+ b.
Proof.
  unfold SetupEnv.validate_azure_endpoint. split.
  - destruct (String.eqb endpoint ""); [discriminate|].
    intros H. apply andb_prop in H as [Hp Hc].
    apply prefix_spec in Hp as [rest ->].
    change (Py.contains ".openai.azure.com" rest = true) in Hc.
    apply contains_spec in Hc as (a & b & ->).
    exists a, b. reflexivity.
  - intros (a & b & ->).
    change (String.eqb ("https://" +:+ a +:+ ".openai.azure.com" +:+ b) "") with false.
    cbv iota. apply andb_true_intro. split.
    + apply prefix_spec. eexists. reflexivity.
    + change (Py.contains ".openai.azure.com" (a +:+ ".openai.azure.com" +:+ b) = true).
      apply contains_spec. exists a, b. reflexivity.
Qed.

Section wizard_facts.
Variable strip : string -> string.

Local Abbreviation get_user_input := (SetupEnv.get_user_input strip).
Local Abbreviation accepted := (SetupEnv.accepted strip).
Local Abbreviation entered := (SetupEnv.entered strip).

Lemma get_user_input_step var_name description default validator line rest :
  get_user_input var_name description default validator (line :: rest) =
  if accepted default validator line
  then (Ok (entered default line), rest)
  else get_user_input var_name description default validator rest.
Proof.
  cbn [SetupEnv.get_user_input]. unfold SetupEnv.accepted.
  destruct (String.eqb (entered default line) ""); simpl; [reflexivity|].
  destruct validator as [valid|]; [|reflexivity].
  destruct (valid (entered default line)); reflexivity.
Qed.

Lemma get_user_input_skips var_name description default validator bad lines :
  Forall (fun line => accepted default validator line = false) bad ->
  get_user_input var_name description default validator (bad ++ lines)
  = get_user_input var_name description default validator lines.
Proof.
  induction 1 as [|line bad Hline _ IH]; [reflexivity|].
  simpl app. rewrite get_user_input_step, Hline. exact IH.
Qed.

Lemma accepted_entered default validator line :
  accepted default validator line = true ->
  entered default line <> "" /\
  forall valid, validator = Some valid -> valid (entered default line) = true.
Proof.
  unfold SetupEnv.accepted. intros H. apply andb_prop in H as [Hne Hvalid].
  split.
  - intros Heq. rewrite Heq in Hne. discriminate Hne.
  - intros valid ->. exact Hvalid.
Qed.

(** What a returned value is: the entry of the first accepted line. *)
Lemma get_user_input_ok var_name description default validator lines v rest :
  get_user_input var_name description default validator lines = (Ok v, rest) ->
  exists bad line,
    lines = bad ++ line :: rest /\
    Forall (fun l => accepted default validator l = false) bad /\
    accepted default validator line = true /\
    v = entered default line.
Proof.
  induction lines as [|l lines IH]; [discriminate|].
  rewrite get_user_input_step.
  destruct (accepted default validator l) eqn:Hl.
  - intros [= <- <-]. exists [], l. repeat split; [constructor|exact Hl].
  - intros H. destruct (IH H) as (bad & line & -> & Hbad & Hline & ->).
    exists (l :: bad), line. repeat split; [constructor; assumption|exact Hline].
Qed.

Lemma get_user_input_nonempty var_name description default validator lines v rest :
  get_user_input var_name description default validator lines = (Ok v, rest) ->
  v <> "".
Proof.
  intros H. destruct (get_user_input_ok _ _ _ _ _ _ _ H) as (bad & line & _ & _ & Hacc & ->).
  apply (accepted_entered default validator line Hacc).
Qed.

Lemma get_user_input_valid var_name description default valid lines v rest :
  get_user_input var_name description default (Some valid) lines = (Ok v, rest) ->
  valid v = true.
Proof.
  intros H. destruct (get_user_input_ok _ _ _ _ _ _ _ H) as (bad & line & _ & _ & Hacc & ->).
  apply (accepted_entered default (Some valid) line Hacc). reflexivity.
Qed.

End wizard_facts.

(** X24. [get_user_input] reads lines until one is accepted and returns
    what was entered on it (the stripped line, or the default for a blank
    line), leaving the lines after it unread; if no line is accepted it
    ends in the [EOFError] of [input], with every line read. *)
Theorem get_user_input_returns_first_accepted
    (strip : string -> string) (var_name description : string)
    (default : option string) (validator : option (string -> bool))
    (bad : list string) :
  Forall (fun line => SetupEnv.accepted strip default validator line = false) bad ->
  (forall line rest,
      SetupEnv.accepted strip default validator line = true ->
      SetupEnv.get_user_input strip var_name description default validator
        (bad ++ line :: rest)
      = (Ok (SetupEnv.entered strip default line), rest)) /\
  SetupEnv.get_user_input strip var_name description default validator bad
  = (Raise SetupEnv.eof, []).
Proof.
  intros Hbad. split.
  - intros line rest Hline.
    rewrite get_user_input_skips by exact Hbad.
    rewrite get_user_input_step, Hline. reflexivity.
  - rewrite <- (app_nil_r bad) at 1.
    rewrite get_user_input_skips by exact Hbad. reflexivity.
Qed.

Lemma get_user_input_returns_first_accepted_witness :
  SetupEnv.get_user_input (fun s => s) "AZURE_OPENAI_ENDPOINT" "Enter the endpoint"
    None (Some SetupEnv.validate_azure_endpoint)
    (["http://x.openai.azure.com"; ""] ++ "https://x.openai.azure.com" :: ["next"])
  = (Ok "https://x.openai.azure.com", ["next"]).
Proof.
  refine (proj1 (get_user_input_returns_first_accepted (fun s => s)
                   "AZURE_OPENAI_ENDPOINT" "Enter the endpoint" None
                   (Some SetupEnv.validate_azure_endpoint)
                   ["http://x.openai.azure.com"; ""] _)
                "https://x.openai.azure.com" ["next"] _).
  - repeat constructor.
  - reflexivity.
Defined.

(** X25. A value returned by [get_user_input] is never empty and passes
    the validator when there is one; it is the default only if a
    non-empty default was given and a line was blank.  So no variable
    asked with it can be left empty. *)
Theorem get_user_input_never_returns_empty
    (strip : string -> string) (var_name description : string)
    (default : option string) (validator : option (string -> bool))
    (lines rest : list string) (v : string) :
  SetupEnv.get_user_input strip var_name description default validator lines
  = (Ok v, rest) ->
  v <> "" /\
  (forall valid, validator = Some valid -> valid v = true) /\
  exists read line,
    lines = read ++ line :: rest /\
    (v = strip line \/ (strip line = "" /\ default = Some v)).
Proof.
  intros H.
  destruct (get_user_input_ok strip _ _ _ _ _ _ _ H)
    as (bad & line & Hlines & _ & Hacc & ->).
  destruct (accepted_entered strip default validator line Hacc) as [Hne Hvalid].
  repeat split; [exact Hne|exact Hvalid|].
  exists bad, line. split; [exact Hlines|].
  unfold SetupEnv.entered. destruct (String.eqb_spec (strip line) "") as [Hblank|Hfull].
  - destruct default as [d|]; simpl.
    + destruct (String.eqb d ""); simpl; [left; reflexivity|].
      right. split; [exact Hblank|reflexivity].
    + left. reflexivity.
  - left. reflexivity.
Qed.

Lemma get_user_input_never_returns_empty_witness :
  exists read line,
    [""; "unread"] = read ++ line :: ["unread"] /\
    ("2024-08-01-preview" = line \/
     (line = "" /\ Some "2024-08-01-preview" = Some "2024-08-01-preview")).
Proof.
  exact (proj2 (proj2
    (get_user_input_never_returns_empty (fun s => s) "AZURE_OPENAI_API_VERSION"
       "Enter API version" (Some "2024-08-01-preview") None
       [""; "unread"] ["unread"] "2024-08-01-preview" eq_refl))).
Defined.

Section collect_facts.
Variable strip : string -> string.

Lemma ask_ok {A B} (m : list string -> result A * list string)
      (k : A -> list string -> result B * list string) lines b rest :
  SetupEnv.ask m k lines = (Ok b, rest) ->
  exists a mid, m lines = (Ok a, mid) /\ k a mid = (Ok b, rest).
Proof.
  unfold SetupEnv.ask. destruct (m lines) as [[a|e] mid]; [|discriminate].
  intros H. exists a, mid. split; [reflexivity|exact H].
Qed.

Lemma missing_in_nil (env : gmap string string) :
  (forall var, In var required -> exists s, env !! var = Some s /\ s <> "") ->
  missing_in env = [].
Proof.
  intros Hall. unfold missing_in.
  destruct (List.filter _ required) as [|var rest] eqn:Hf; [reflexivity|].
  assert (Hin : In var (List.filter (fun var => negb (Py.truthy (env !! var))) required))
    by (rewrite Hf; left; reflexivity).
  apply List.filter_In in Hin as [Hreq Hfalsy].
  destruct (Hall var Hreq) as (s & Hs & Hne).
  rewrite Hs in Hfalsy. simpl in Hfalsy. rewrite negb_involutive in Hfalsy.
  apply String.eqb_eq in Hfalsy. contradiction.
Qed.

Lemma embedding_settings_ok use_same env e ak av lines env' rest :
  SetupEnv.embedding_settings strip use_same env e ak av lines = (Ok env', rest) ->
  SetupEnv.validate_azure_endpoint e = true -> ak <> "" -> av <> "" ->
  exists ee ek ev,
    env' = <["AZURE_OPENAI_EMBEDDINGS_API_VERSION" := ev]>
             (<["AZURE_OPENAI_EMBEDDINGS_API_KEY" := ek]>
                (<["AZURE_OPENAI_EMBEDDINGS_ENDPOINT" := ee]> env)) /\
    SetupEnv.validate_azure_endpoint ee = true /\ ek <> "" /\ ev <> "".
Proof.
  unfold SetupEnv.embedding_settings. intros H He Hak Hav.
  destruct (negb (String.eqb use_same "n")).
  - unfold SetupEnv.done in H. injection H as <- _.
    exists e, ak, av. repeat split; assumption.
  - apply ask_ok in H as (ee & l1 & Hee & H).
    apply ask_ok in H as (ek & l2 & Hek & H).
    apply ask_ok in H as (ev & l3 & Hev & H).
    unfold SetupEnv.done in H. injection H as <- _.
    exists ee, ek, ev. repeat split.
    + apply (get_user_input_valid strip _ _ _ _ _ _ _ Hee).
    + apply (get_user_input_nonempty strip _ _ _ _ _ _ _ Hek).
    + apply (get_user_input_nonempty strip _ _ _ _ _ _ _ Hev).
Qed.

Lemma collect_env_vars_shape lines env_vars rest :
  SetupEnv.collect_env_vars strip lines = (Ok env_vars, rest) ->
  exists e ak av d ee ek ev ed qu qk opik,
    env_vars = collected e ak av d ee ek ev ed qu qk opik /\
    SetupEnv.validate_azure_endpoint e = true /\
    SetupEnv.validate_azure_endpoint ee = true /\
    e <> "" /\ ak <> "" /\ av <> "" /\ d <> "" /\ ee <> "" /\ ek <> "" /\ ev <> "" /\
    ed <> "" /\ qu <> "" /\ qk <> "".
Proof.
  unfold SetupEnv.collect_env_vars. intros H.
  apply ask_ok in H as (e & l1 & He & H).
  apply ask_ok in H as (ak & l2 & Hak & H).
  apply ask_ok in H as (av & l3 & Hav & H).
  apply ask_ok in H as (d & l4 & Hd & H).
  apply ask_ok in H as (use_same & l5 & _ & H).
  apply ask_ok in H as (env1 & l6 & Hemb & H).
  apply ask_ok in H as (ed & l7 & Hed & H).
  apply ask_ok in H as (qu & l8 & Hqu & H).
  apply ask_ok in H as (qk & l9 & Hqk & H).
  apply ask_ok in H as (use_opik & l10 & _ & H).
  pose proof (get_user_input_valid strip _ _ _ _ _ _ _ He) as Hev.
  pose proof (get_user_input_nonempty strip _ _ _ _ _ _ _ He) as Hen.
  pose proof (get_user_input_nonempty strip _ _ _ _ _ _ _ Hak) as Hakn.
  pose proof (get_user_input_nonempty strip _ _ _ _ _ _ _ Hav) as Havn.
  pose proof (get_user_input_nonempty strip _ _ _ _ _ _ _ Hd) as Hdn.
  pose proof (get_user_input_nonempty strip _ _ _ _ _ _ _ Hed) as Hedn.
  pose proof (get_user_input_nonempty strip _ _ _ _ _ _ _ Hqu) as Hqun.
  pose proof (get_user_input_nonempty strip _ _ _ _ _ _ _ Hqk) as Hqkn.
  destruct (embedding_settings_ok _ _ _ _ _ _ _ _ Hemb Hev Hakn Havn)
    as (ee & ek & ev & -> & Hee & Hek & Hevn).
  assert (Heen : ee <> "") by (intros ->; discriminate Hee).
  assert (Hqk' : (if String.eqb qk "" then "" else qk) = qk)
    by (destruct (String.eqb_spec qk ""); [contradiction|reflexivity]).
  rewrite Hqk' in H.
  destruct (String.eqb use_opik "y").
  - apply ask_ok in H as (opik & l11 & _ & H).
    unfold SetupEnv.done in H. injection H as <- _.
    exists e, ak, av, d, ee, ek, ev, ed, qu, qk, opik.
    split; [reflexivity|]. repeat split; assumption.
  - unfold SetupEnv.done in H. injection H as <- _.
    exists e, ak, av, d, ee, ek, ev, ed, qu, qk, "".
    split; [reflexivity|]. repeat split; assumption.
Qed.

End collect_facts.

Ltac lookup_collected :=
  unfold collected;
  repeat (rewrite lookup_insert_ne by discriminate);
  apply lookup_insert_eq.

(** X26. When the wizard has collected its answers, every variable that
    [validate_environment] requires has a non-empty value in [env_vars],
    so the environment it describes passes validation; both endpoints
    pass [validate_azure_endpoint]; and [OPIK_API_KEY] is present,
    possibly empty. *)
Theorem wizard_collects_every_required_variable
    (strip : string -> string) (lines rest : list string)
    (env_vars : gmap string string) :
  SetupEnv.collect_env_vars strip lines = (Ok env_vars, rest) ->
  missing_in env_vars = [] /\
  (exists e, env_vars !! "AZURE_OPENAI_ENDPOINT" = Some e /\
             SetupEnv.validate_azure_endpoint e = true) /\
  (exists e, env_vars !! "AZURE_OPENAI_EMBEDDINGS_ENDPOINT" = Some e /\
             SetupEnv.validate_azure_endpoint e = true) /\
  (exists k, env_vars !! "OPIK_API_KEY" = Some k).
Proof.
  intros H.
  destruct (collect_env_vars_shape strip lines env_vars rest H)
    as (e & ak & av & d & ee & ek & ev & ed & qu & qk & opik & -> & He & Hee &
        Hen & Hakn & Havn & Hdn & Heen & Hekn & Hevn & Hedn & Hqun & Hqkn).
  repeat split.
  - apply missing_in_nil. intros var Hvar. simpl in Hvar.
    repeat (destruct Hvar as [<-|Hvar];
            [eexists; split; [lookup_collected|assumption]|]).
    destruct Hvar.
  - exists e. split; [lookup_collected|exact He].
  - exists ee. split; [lookup_collected|exact Hee].
  - exists opik. lookup_collected.
Qed.

Lemma wizard_collects_every_required_variable_witness :
  missing_in (collected "https://x.openai.azure.com" "key" "2024-08-01-preview" "gpt-4"
                        "https://x.openai.azure.com" "key" "2024-08-01-preview" "embed"
                        "http://localhost:6333" "secret" "") = [].
Proof.
  refine (proj1 (wizard_collects_every_required_variable (fun s => s)
    [ "https://x.openai.azure.com"; "key"; ""; "gpt-4"; "Y"; "embed";
      "http://localhost:6333"; "secret"; "n" ] [] _ _)).
  reflexivity.
Defined.

Section main_facts.

Lemma all_ok_in pieces ps p :
  SetupEnv.all_ok pieces = Ok ps -> In (Ok p) pieces -> In p ps.
Proof.
  revert ps. induction pieces as [|[q|e] rest IH]; intros ps Hall Hin.
  - destruct Hin.
  - simpl in Hall. destruct (SetupEnv.all_ok rest) as [qs|e]; [|discriminate Hall].
    injection Hall as <-. destruct Hin as [[= ->]|Hin].
    + left. reflexivity.
    + right. apply IH; [reflexivity|exact Hin].
  - discriminate Hall.
Qed.

Lemma assignment_present env_vars key v :
  env_vars !! key = Some v ->
  SetupEnv.assignment env_vars key = Ok (key +:+ "=" +:+ v +:+ SetupEnv.nl).
Proof. intros H. unfold SetupEnv.assignment, SetupEnv.item. rewrite H. reflexivity. Qed.

(** With all eleven entries there, every piece of the file can be written. *)
Lemma env_file_written e ak av d ee ek ev ed qu qk opik :
  exists pieces,
    SetupEnv.all_ok
      (SetupEnv.env_file_pieces (collected e ak av d ee ek ev ed qu qk opik))
    = Ok pieces.
Proof.
  unfold SetupEnv.env_file_pieces.
  rewrite (assignment_present _ "AZURE_OPENAI_API_KEY" ak) by lookup_collected.
  rewrite (assignment_present _ "AZURE_OPENAI_ENDPOINT" e) by lookup_collected.
  rewrite (assignment_present _ "AZURE_OPENAI_API_VERSION" av) by lookup_collected.
  rewrite (assignment_present _ "AZURE_OPENAI_DEPLOYMENT_NAME" d) by lookup_collected.
  rewrite (assignment_present _ "AZURE_OPENAI_EMBEDDINGS_API_KEY" ek) by lookup_collected.
  rewrite (assignment_present _ "AZURE_OPENAI_EMBEDDINGS_ENDPOINT" ee) by lookup_collected.
  rewrite (assignment_present _ "AZURE_OPENAI_EMBEDDINGS_API_VERSION" ev)
    by lookup_collected.
  rewrite (assignment_present _ "AZURE_OPENAI_EMBEDDINGS_DEPLOYMENT_NAME" ed)
    by lookup_collected.
  rewrite (assignment_present _ "QDRANT_URL" qu) by lookup_collected.
  rewrite (assignment_present _ "QDRANT_API_KEY" qk) by lookup_collected.
  rewrite (assignment_present _ "OPIK_API_KEY" opik) by lookup_collected.
  simpl. eexists. reflexivity.
Qed.

End main_facts.

(** Membership in a list written out, by position. *)
Ltac find_in :=
  lazymatch goal with
  | |- In ?x (?x :: _) => left; exact eq_refl
  | |- In _ (_ :: _) => right; find_in
  end.

Section main_more.
Variable strip : string -> string.

Lemma assignment_in_file env_vars var v :
  env_vars !! var = Some v ->
  In var required ->
  In (Ok (var +:+ "=" +:+ v +:+ SetupEnv.nl)) (SetupEnv.env_file_pieces env_vars).
Proof.
  intros Hv Hvar. rewrite <- (assignment_present env_vars var v Hv).
  unfold SetupEnv.env_file_pieces. simpl in Hvar.
  repeat (destruct Hvar as [<-|Hvar]; [find_in|]). destruct Hvar.
Qed.

(** What a run that collected its answers leaves behind. *)
Lemma proceed_complete env_vars rest :
  (exists lines, SetupEnv.collect_env_vars strip lines = (Ok env_vars, rest)) ->
  exists pieces,
    SetupEnv.all_ok (SetupEnv.env_file_pieces env_vars) = Ok pieces /\
    missing_in env_vars = [] /\
    forall var, In var required ->
      exists v, env_vars !! var = Some v /\ v <> "" /\
                occurs_in (var +:+ "=" +:+ v +:+ SetupEnv.nl) (Py.join "" pieces).
Proof.
  intros [lines H].
  destruct (collect_env_vars_shape strip lines env_vars rest H)
    as (e & ak & av & d & ee & ek & ev & ed & qu & qk & opik & -> & He & Hee &
        Hen & Hakn & Havn & Hdn & Heen & Hekn & Hevn & Hedn & Hqun & Hqkn).
  assert (Hall : forall var, In var required ->
            exists v, collected e ak av d ee ek ev ed qu qk opik !! var = Some v /\ v <> "").
  { intros var Hvar. simpl in Hvar.
    repeat (destruct Hvar as [<-|Hvar];
            [eexists; split; [lookup_collected|assumption]|]).
    destruct Hvar. }
  destruct (env_file_written e ak av d ee ek ev ed qu qk opik) as [pieces Hpieces].
  exists pieces. split; [exact Hpieces|].
  split; [apply missing_in_nil; exact Hall|].
  intros var Hvar. destruct (Hall var Hvar) as (v & Hv & Hne).
  exists v. repeat split; [exact Hv|exact Hne|].
  apply join_occurs. apply (all_ok_in _ _ _ Hpieces).
  apply assignment_in_file; assumption.
Qed.

End main_more.

Section eof_facts.
Variable strip : string -> string.

Lemma eof_only_get_user_input var_name description default validator :
  eof_only (SetupEnv.get_user_input strip var_name description default validator).
Proof.
  intros lines. induction lines as [|line lines IH]; intros e rest.
  - intros [= <- <-]. split; reflexivity.
  - rewrite get_user_input_step.
    destruct (SetupEnv.accepted strip default validator line); [discriminate|].
    apply IH.
Qed.

Lemma eof_only_input_lower : eof_only (SetupEnv.input_lower strip).
Proof.
  intros [|line lines] e rest; [|discriminate].
  intros [= <- <-]. split; reflexivity.
Qed.

Lemma eof_only_done {A} (a : A) : eof_only (SetupEnv.done a).
Proof. intros lines e rest. discriminate. Qed.

Lemma eof_only_ask {A B} (m : list string -> result A * list string)
      (k : A -> list string -> result B * list string) :
  eof_only m -> (forall a, eof_only (k a)) -> eof_only (SetupEnv.ask m k).
Proof.
  intros Hm Hk lines e rest. unfold SetupEnv.ask.
  destruct (m lines) as [[a|e'] mid] eqn:Hrun.
  - apply Hk.
  - intros [= <- <-]. apply (Hm lines e' mid Hrun).
Qed.

Lemma eof_only_embedding_settings use_same env_vars endpoint api_key api_version :
  eof_only (SetupEnv.embedding_settings strip use_same env_vars endpoint api_key
                                        api_version).
Proof.
  unfold SetupEnv.embedding_settings.
  destruct (negb (String.eqb use_same "n")); [apply eof_only_done|].
  repeat (apply eof_only_ask; [apply eof_only_get_user_input|intros ?]).
  apply eof_only_done.
Qed.

(** The questions fail only when the answers run out. *)
Lemma eof_only_collect_env_vars : eof_only (SetupEnv.collect_env_vars strip).
Proof.
  unfold SetupEnv.collect_env_vars.
  repeat (apply eof_only_ask;
          [first [apply eof_only_get_user_input | apply eof_only_input_lower
                 | apply eof_only_embedding_settings]
          |intros ?]).
  destruct (String.eqb _ "y").
  - apply eof_only_ask; [apply eof_only_get_user_input|intros ?]. apply eof_only_done.
  - apply eof_only_done.
Qed.

End eof_facts.

Section proceed_facts.
Variable strip : string -> string.

Lemma proceed_spec writable lines :
  let run := SetupEnv.proceed strip writable lines in
  (SetupEnv.exit_status run = 0 \/ SetupEnv.exit_status run = 1) /\
  (SetupEnv.exit_status run = 1 -> SetupEnv.written run = None) /\
  (forall text, SetupEnv.written run = Some text ->
     SetupEnv.exit_status run = 0 /\
     exists env_vars,
       missing_in env_vars = [] /\
       forall var, In var required ->
         exists v, env_vars !! var = Some v /\ v <> "" /\
                   occurs_in (var +:+ "=" +:+ v +:+ SetupEnv.nl) text).
Proof.
  unfold SetupEnv.proceed.
  destruct (SetupEnv.collect_env_vars strip lines) as [[env_vars|e] rest] eqn:Hc.
  - destruct (proceed_complete strip env_vars rest (ex_intro _ lines Hc))
      as (pieces & Hpieces & Hmiss & Hlines).
    destruct writable;
      [|simpl; split; [right; reflexivity|]; split; [reflexivity|]; discriminate].
    rewrite Hpieces. simpl. split; [left; reflexivity|]. split; [discriminate|].
    intros text [= <-]. split; [reflexivity|].
    exists env_vars. split; assumption.
  - simpl. split; [right; reflexivity|]. split; [reflexivity|]. discriminate.
Qed.

(** How the wizard ends once the questions begin, by what becomes of
    the questions and of the file. *)
Lemma proceed_cases writable answers :
  let run := SetupEnv.proceed strip writable answers in
  (forall e rest,
     SetupEnv.collect_env_vars strip answers = (Raise e, rest) ->
     e = SetupEnv.eof /\ rest = [] /\
     run = {| SetupEnv.exit_status := 1; SetupEnv.written := None;
              SetupEnv.unread := [] |}) /\
  (forall env_vars rest,
     SetupEnv.collect_env_vars strip answers = (Ok env_vars, rest) ->
     (writable = false ->
      run = {| SetupEnv.exit_status := 1; SetupEnv.written := None;
               SetupEnv.unread := rest |}) /\
     (writable = true ->
      exists text,
        run = {| SetupEnv.exit_status := 0; SetupEnv.written := Some text;
                 SetupEnv.unread := rest |})).
Proof.
  intros run. subst run. unfold SetupEnv.proceed. split.
  - intros e rest Hc.
    destruct (eof_only_collect_env_vars strip answers e rest Hc) as [-> ->].
    rewrite Hc. repeat split.
  - intros env_vars rest Hc. rewrite Hc.
    destruct (proceed_complete strip env_vars rest (ex_intro _ answers Hc))
      as (pieces & Hpieces & _).
    split.
    + intros ->. reflexivity.
    + intros ->. rewrite Hpieces. eexists. reflexivity.
Qed.

End proceed_facts.

(** X27. The wizard ends with status 0 or 1 and writes [.env] only on a
    complete run.  Declining to overwrite an existing file ends with
    status 0 after that one answer, nothing written; no answer at all to
    that question ends with status 1.  Once the questions begin, they
    fail only when the answers run out, and the run then ends with
    status 1 and nothing written; with all answers given, the run ends
    with status 0 and the file written when the file can be opened, and
    with status 1 and nothing written when it cannot.  A file that is
    written has, for every variable [validate_environment] requires, a
    line [KEY=value] with a non-empty value. *)
Theorem wizard_writes_a_complete_file_or_none
    (strip : string -> string) (env_exists writable : bool) (lines : list string) :
  let run := SetupEnv.main strip env_exists writable lines in
  (SetupEnv.exit_status run = 0 \/ SetupEnv.exit_status run = 1) /\
  (SetupEnv.exit_status run = 1 -> SetupEnv.written run = None) /\
  (forall text, SetupEnv.written run = Some text ->
     SetupEnv.exit_status run = 0 /\
     exists env_vars,
       missing_in env_vars = [] /\
       forall var, In var required ->
         exists v, env_vars !! var = Some v /\ v <> "" /\
                   occurs_in (var +:+ "=" +:+ v +:+ SetupEnv.nl) text) /\
  (forall line rest,
     env_exists = true -> lines = line :: rest ->
     String.eqb (Py.lower (strip line)) "y" = false ->
     run = {| SetupEnv.exit_status := 0; SetupEnv.written := None;
              SetupEnv.unread := rest |}) /\
  (env_exists = true -> lines = [] ->
   run = {| SetupEnv.exit_status := 1; SetupEnv.written := None;
            SetupEnv.unread := [] |}) /\
  (forall answers,
     (env_exists = false /\ lines = answers) \/
     (exists line, env_exists = true /\ lines = line :: answers /\
                   String.eqb (Py.lower (strip line)) "y" = true) ->
     (forall e rest,
        SetupEnv.collect_env_vars strip answers = (Raise e, rest) ->
        e = SetupEnv.eof /\ rest = [] /\
        run = {| SetupEnv.exit_status := 1; SetupEnv.written := None;
                 SetupEnv.unread := [] |}) /\
     (forall env_vars rest,
        SetupEnv.collect_env_vars strip answers = (Ok env_vars, rest) ->
        (writable = false ->
         run = {| SetupEnv.exit_status := 1; SetupEnv.written := None;
                  SetupEnv.unread := rest |}) /\
        (writable = true ->
         exists text,
           run = {| SetupEnv.exit_status := 0; SetupEnv.written := Some text;
                    SetupEnv.unread := rest |}))).
Proof.
  intros run.
  assert (Hasked : forall answers,
            (env_exists = false /\ lines = answers) \/
            (exists line, env_exists = true /\ lines = line :: answers /\
                          String.eqb (Py.lower (strip line)) "y" = true) ->
            run = SetupEnv.proceed strip writable answers).
  { intros answers [[-> ->]|(line & -> & -> & Hy)]; subst run; unfold SetupEnv.main.
    - reflexivity.
    - simpl. rewrite Hy. reflexivity. }
  assert (Hfirst :
    (SetupEnv.exit_status run = 0 \/ SetupEnv.exit_status run = 1) /\
    (SetupEnv.exit_status run = 1 -> SetupEnv.written run = None) /\
    (forall text, SetupEnv.written run = Some text ->
       SetupEnv.exit_status run = 0 /\
       exists env_vars,
         missing_in env_vars = [] /\
         forall var, In var required ->
           exists v, env_vars !! var = Some v /\ v <> "" /\
                     occurs_in (var +:+ "=" +:+ v +:+ SetupEnv.nl) text) /\
    (forall line rest,
       env_exists = true -> lines = line :: rest ->
       String.eqb (Py.lower (strip line)) "y" = false ->
       run = {| SetupEnv.exit_status := 0; SetupEnv.written := None;
                SetupEnv.unread := rest |})).
  { subst run. unfold SetupEnv.main.
    destruct env_exists.
    - destruct lines as [|line rest]; simpl.
      + split; [right; reflexivity|]. split; [reflexivity|].
        split; [discriminate|]. intros l r _ Hl. discriminate Hl.
      + destruct (String.eqb (Py.lower (strip line)) "y") eqn:Hy; simpl.
        * destruct (proceed_spec strip writable rest) as (H1 & H2 & H3).
          split; [exact H1|]. split; [exact H2|]. split; [exact H3|].
          intros l r _ [= <- <-] Hn. rewrite Hy in Hn. discriminate Hn.
        * split; [left; reflexivity|]. split; [discriminate|].
          split; [discriminate|]. intros l r _ [= <- <-] _. reflexivity.
    - destruct (proceed_spec strip writable lines) as (H1 & H2 & H3).
      split; [exact H1|]. split; [exact H2|]. split; [exact H3|].
      intros l r Hfalse. discriminate Hfalse. }
  destruct Hfirst as (H1 & H2 & H3 & H4).
  split; [exact H1|]. split; [exact H2|]. split; [exact H3|]. split; [exact H4|].
  split.
  - intros -> ->. reflexivity.
  - intros answers Hreach. rewrite (Hasked answers Hreach).
    apply proceed_cases.
Qed.
